(** * Async-safe Objective-C metadata parsing (PLCrashAsyncObjCSection.cpp)

    A shallow embedding of the Objective-C section parser of PLCrashReporter:
    the class read-only-data cache, the section map cache, the ObjC1 and ObjC2
    walkers, the unified parser and the two-pass best-IMP search, followed by
    the properties proved about them.

    Conventions.
    - Unsigned machine integers are values of [Z]; [pl_vm_address_t] is the
      64-bit address type of an LP64 host and wrap-around is written out.
    - A pointer into local memory is the function giving the byte found at each
      offset from it ([bytes]); the host is little-endian.
    - The Mach-O image abstraction, the cross-task copy, the lazy string reader
      and the kernel allocator are not part of this source file: they are
      fields of [plcrash_async_macho_t] and of [host_t], so that every theorem
      holds for all their behaviours. *)

From Stdlib Require Import ZArith List Bool String Lia.
From stdpp Require Import base list.

Local Open Scope Z_scope.

(* ===================================================================== *)
(** * Status codes and machine integers *)
(* ===================================================================== *)

(** The status codes the source names; [PLCRASH_EOTHER] stands for any further
    member of the enumeration (its header is not part of this file). *)
Inductive plcrash_error_t : Type :=
| PLCRASH_ESUCCESS
| PLCRASH_EUNKNOWN
| PLCRASH_ENOTFOUND
| PLCRASH_EINVAL
| PLCRASH_EACCESS
| PLCRASH_EOTHER (code : Z).

#[global] Instance plcrash_error_eq_dec : EqDecision plcrash_error_t.
Proof. solve_decision. Defined.

Definition kern_return_t := Z.
Definition KERN_SUCCESS : kern_return_t := 0.

Definition wrap16 (x : Z) : Z := x mod 2 ^ 16.
Definition wrap32 (x : Z) : Z := x mod 2 ^ 32.
Definition wrap64 (x : Z) : Z := x mod 2 ^ 64.

(** Local memory seen from a pointer: the byte at each offset. *)
Definition bytes := Z -> Z.

Definition load8 (p : bytes) (off : Z) : Z := p off mod 256.
Definition load16 (p : bytes) (off : Z) : Z := load8 p off + 2 ^ 8 * load8 p (off + 1).
Definition load32 (p : bytes) (off : Z) : Z := load16 p off + 2 ^ 16 * load16 p (off + 2).
Definition load64 (p : bytes) (off : Z) : Z := load32 p off + 2 ^ 32 * load32 p (off + 4).

(** Pointer arithmetic [p + d] on a byte pointer. *)
Definition offset_ptr (p : bytes) (d : Z) : bytes := fun off => p (d + off).

(** Modelled from the spec: [image.byteorder.swap16 / swap32 / swap64], the
    byte order of the image relative to the host (the byte-order table lives in
    PLCrashAsync, outside this file). *)
Inductive plcrash_async_byteorder_t : Type :=
| plcrash_async_byteorder_direct
| plcrash_async_byteorder_swapped.

Definition bswap16 (x : Z) : Z := 2 ^ 8 * (x mod 2 ^ 8) + (x / 2 ^ 8) mod 2 ^ 8.
Definition bswap32 (x : Z) : Z := 2 ^ 16 * bswap16 (x mod 2 ^ 16) + bswap16 ((x / 2 ^ 16) mod 2 ^ 16).
Definition bswap64 (x : Z) : Z := 2 ^ 32 * bswap32 (x mod 2 ^ 32) + bswap32 ((x / 2 ^ 32) mod 2 ^ 32).

Definition swap16 (bo : plcrash_async_byteorder_t) (x : Z) : Z :=
  match bo with plcrash_async_byteorder_direct => wrap16 x | plcrash_async_byteorder_swapped => bswap16 x end.
Definition swap32 (bo : plcrash_async_byteorder_t) (x : Z) : Z :=
  match bo with plcrash_async_byteorder_direct => wrap32 x | plcrash_async_byteorder_swapped => bswap32 x end.
Definition swap64 (bo : plcrash_async_byteorder_t) (x : Z) : Z :=
  match bo with plcrash_async_byteorder_direct => wrap64 x | plcrash_async_byteorder_swapped => bswap64 x end.

(* ===================================================================== *)
(** * Constants *)
(* ===================================================================== *)

Definition kObjCSegmentName : string := "__OBJC".
Definition kDataSegmentName : string := "__DATA".
Definition kObjCModuleInfoSectionName : string := "__module_info".
Definition kClassListSectionName : string := "__objc_classlist".
Definition kCategoryListSectionName : string := "__objc_catlist".
Definition kObjCConstSectionName : string := "__objc_const".
Definition kObjCDataSectionName : string := "__objc_data".

Definition CLS_NO_METHOD_ARRAY : Z := 0x4000.
(** [static uint32_t END_OF_METHODS_LIST = -1]. *)
Definition END_OF_METHODS_LIST : Z := wrap32 (-1).
(** [1<<31] and [1<<27] as [uint32_t]. *)
Definition RW_REALIZED : Z := Z.shiftl 1 31.
Definition RW_COPIED_RO : Z := Z.shiftl 1 27.

(** [TAGGED_ISA]: the mask is compiled in on arm64 hosts only. *)
Definition TAGGED_ISA (arm64 : bool) (x : Z) : Z :=
  if arm64 then Z.land x 0x1fffffff8 else x.

(* ===================================================================== *)
(** * The external collaborators *)
(* ===================================================================== *)

(** A mapped section: its base and length in the target task, and the local
    bytes from the local base of the mapping. *)
Record plcrash_async_mobject_t : Type := {
  mobj_task_address : Z;
  mobj_length : Z;
  mobj_contents : bytes;
}.

(** Modelled from the spec: [remap_address(mobj, task_addr, offset, length)] is
    the bounds-checked translation of a target-task address to a local pointer,
    null when the requested range is outside the mapping (the memory-object
    implementation is outside this file). *)
Definition plcrash_async_mobject_remap_address
    (mobj : plcrash_async_mobject_t) (address offset length : Z) : option bytes :=
  if (mobj_task_address mobj <=? address + offset)
     && (address + offset + length <=? mobj_task_address mobj + mobj_length mobj)
  then Some (offset_ptr (mobj_contents mobj) (address + offset - mobj_task_address mobj))
  else None.

(** A Mach-O image of the target task. [macho_address] is the address of the
    image object itself, the only thing the section cache remembers of it. *)
Record plcrash_async_macho_t : Type := {
  macho_address : Z;
  m64 : bool;
  byteorder : plcrash_async_byteorder_t;
  (** [plcrash_async_macho_map_section(image, segname, sectname, &mobj)] *)
  plcrash_async_macho_map_section : string -> string -> plcrash_error_t * plcrash_async_mobject_t;
  (** [plcrash_async_task_memcpy(image->task, address, 0, &dest, len)]: the
      status and, on success, the bytes copied into the destination. *)
  plcrash_async_task_memcpy : Z -> Z -> plcrash_error_t * bytes;
  (** [plcrash_async_macho_string_init(&str, image, address)] *)
  plcrash_async_macho_string_init : Z -> plcrash_error_t;
}.

(** A lazily read C string of the target: the handle keeps the address. *)
Record plcrash_async_macho_string_t : Type := { string_address : Z }.

(** What the build and the kernel decide: whether [__arm64__] is defined, and
    what [vm_allocate] answers when the class cache asks for its arena. *)
Record host_t : Type := {
  arm64 : bool;
  vm_allocate : kern_return_t;
}.

(* ===================================================================== *)
(** * The parser cache *)
(* ===================================================================== *)

(** [plcrash_async_objc_cache_t]. A null [classCacheKeys] is [None]; the arena
    is a pair of arrays of [classCacheSize] addresses. *)
Record plcrash_async_objc_cache_t : Type := {
  gotObjC2Info : bool;
  lastImage : Z;
  objcConstMobjInitialized : bool;
  objcConstMobj : plcrash_async_mobject_t;
  classMobjInitialized : bool;
  classMobj : plcrash_async_mobject_t;
  catMobjInitialized : bool;
  catMobj : plcrash_async_mobject_t;
  objcDataMobjInitialized : bool;
  objcDataMobj : plcrash_async_mobject_t;
  classCacheSize : Z;
  classCacheKeys : option (list Z);
  classCacheValues : option (list Z);
}.

Definition set_gotObjC2Info (v : bool) (c : plcrash_async_objc_cache_t) :=
  {| gotObjC2Info := v; lastImage := lastImage c;
     objcConstMobjInitialized := objcConstMobjInitialized c; objcConstMobj := objcConstMobj c;
     classMobjInitialized := classMobjInitialized c; classMobj := classMobj c;
     catMobjInitialized := catMobjInitialized c; catMobj := catMobj c;
     objcDataMobjInitialized := objcDataMobjInitialized c; objcDataMobj := objcDataMobj c;
     classCacheSize := classCacheSize c; classCacheKeys := classCacheKeys c;
     classCacheValues := classCacheValues c |}.

Definition set_lastImage (v : Z) (c : plcrash_async_objc_cache_t) :=
  {| gotObjC2Info := gotObjC2Info c; lastImage := v;
     objcConstMobjInitialized := objcConstMobjInitialized c; objcConstMobj := objcConstMobj c;
     classMobjInitialized := classMobjInitialized c; classMobj := classMobj c;
     catMobjInitialized := catMobjInitialized c; catMobj := catMobj c;
     objcDataMobjInitialized := objcDataMobjInitialized c; objcDataMobj := objcDataMobj c;
     classCacheSize := classCacheSize c; classCacheKeys := classCacheKeys c;
     classCacheValues := classCacheValues c |}.

Definition set_objcConstMobjInitialized (v : bool) (c : plcrash_async_objc_cache_t) :=
  {| gotObjC2Info := gotObjC2Info c; lastImage := lastImage c;
     objcConstMobjInitialized := v; objcConstMobj := objcConstMobj c;
     classMobjInitialized := classMobjInitialized c; classMobj := classMobj c;
     catMobjInitialized := catMobjInitialized c; catMobj := catMobj c;
     objcDataMobjInitialized := objcDataMobjInitialized c; objcDataMobj := objcDataMobj c;
     classCacheSize := classCacheSize c; classCacheKeys := classCacheKeys c;
     classCacheValues := classCacheValues c |}.

Definition set_objcConstMobj (v : plcrash_async_mobject_t) (c : plcrash_async_objc_cache_t) :=
  {| gotObjC2Info := gotObjC2Info c; lastImage := lastImage c;
     objcConstMobjInitialized := objcConstMobjInitialized c; objcConstMobj := v;
     classMobjInitialized := classMobjInitialized c; classMobj := classMobj c;
     catMobjInitialized := catMobjInitialized c; catMobj := catMobj c;
     objcDataMobjInitialized := objcDataMobjInitialized c; objcDataMobj := objcDataMobj c;
     classCacheSize := classCacheSize c; classCacheKeys := classCacheKeys c;
     classCacheValues := classCacheValues c |}.

Definition set_classMobjInitialized (v : bool) (c : plcrash_async_objc_cache_t) :=
  {| gotObjC2Info := gotObjC2Info c; lastImage := lastImage c;
     objcConstMobjInitialized := objcConstMobjInitialized c; objcConstMobj := objcConstMobj c;
     classMobjInitialized := v; classMobj := classMobj c;
     catMobjInitialized := catMobjInitialized c; catMobj := catMobj c;
     objcDataMobjInitialized := objcDataMobjInitialized c; objcDataMobj := objcDataMobj c;
     classCacheSize := classCacheSize c; classCacheKeys := classCacheKeys c;
     classCacheValues := classCacheValues c |}.

Definition set_classMobj (v : plcrash_async_mobject_t) (c : plcrash_async_objc_cache_t) :=
  {| gotObjC2Info := gotObjC2Info c; lastImage := lastImage c;
     objcConstMobjInitialized := objcConstMobjInitialized c; objcConstMobj := objcConstMobj c;
     classMobjInitialized := classMobjInitialized c; classMobj := v;
     catMobjInitialized := catMobjInitialized c; catMobj := catMobj c;
     objcDataMobjInitialized := objcDataMobjInitialized c; objcDataMobj := objcDataMobj c;
     classCacheSize := classCacheSize c; classCacheKeys := classCacheKeys c;
     classCacheValues := classCacheValues c |}.

Definition set_catMobjInitialized (v : bool) (c : plcrash_async_objc_cache_t) :=
  {| gotObjC2Info := gotObjC2Info c; lastImage := lastImage c;
     objcConstMobjInitialized := objcConstMobjInitialized c; objcConstMobj := objcConstMobj c;
     classMobjInitialized := classMobjInitialized c; classMobj := classMobj c;
     catMobjInitialized := v; catMobj := catMobj c;
     objcDataMobjInitialized := objcDataMobjInitialized c; objcDataMobj := objcDataMobj c;
     classCacheSize := classCacheSize c; classCacheKeys := classCacheKeys c;
     classCacheValues := classCacheValues c |}.

Definition set_catMobj (v : plcrash_async_mobject_t) (c : plcrash_async_objc_cache_t) :=
  {| gotObjC2Info := gotObjC2Info c; lastImage := lastImage c;
     objcConstMobjInitialized := objcConstMobjInitialized c; objcConstMobj := objcConstMobj c;
     classMobjInitialized := classMobjInitialized c; classMobj := classMobj c;
     catMobjInitialized := catMobjInitialized c; catMobj := v;
     objcDataMobjInitialized := objcDataMobjInitialized c; objcDataMobj := objcDataMobj c;
     classCacheSize := classCacheSize c; classCacheKeys := classCacheKeys c;
     classCacheValues := classCacheValues c |}.

Definition set_objcDataMobjInitialized (v : bool) (c : plcrash_async_objc_cache_t) :=
  {| gotObjC2Info := gotObjC2Info c; lastImage := lastImage c;
     objcConstMobjInitialized := objcConstMobjInitialized c; objcConstMobj := objcConstMobj c;
     classMobjInitialized := classMobjInitialized c; classMobj := classMobj c;
     catMobjInitialized := catMobjInitialized c; catMobj := catMobj c;
     objcDataMobjInitialized := v; objcDataMobj := objcDataMobj c;
     classCacheSize := classCacheSize c; classCacheKeys := classCacheKeys c;
     classCacheValues := classCacheValues c |}.

Definition set_objcDataMobj (v : plcrash_async_mobject_t) (c : plcrash_async_objc_cache_t) :=
  {| gotObjC2Info := gotObjC2Info c; lastImage := lastImage c;
     objcConstMobjInitialized := objcConstMobjInitialized c; objcConstMobj := objcConstMobj c;
     classMobjInitialized := classMobjInitialized c; classMobj := classMobj c;
     catMobjInitialized := catMobjInitialized c; catMobj := catMobj c;
     objcDataMobjInitialized := objcDataMobjInitialized c; objcDataMobj := v;
     classCacheSize := classCacheSize c; classCacheKeys := classCacheKeys c;
     classCacheValues := classCacheValues c |}.

Definition set_classCacheSize (v : Z) (c : plcrash_async_objc_cache_t) :=
  {| gotObjC2Info := gotObjC2Info c; lastImage := lastImage c;
     objcConstMobjInitialized := objcConstMobjInitialized c; objcConstMobj := objcConstMobj c;
     classMobjInitialized := classMobjInitialized c; classMobj := classMobj c;
     catMobjInitialized := catMobjInitialized c; catMobj := catMobj c;
     objcDataMobjInitialized := objcDataMobjInitialized c; objcDataMobj := objcDataMobj c;
     classCacheSize := v; classCacheKeys := classCacheKeys c;
     classCacheValues := classCacheValues c |}.

Definition set_classCacheKeys (v : option (list Z)) (c : plcrash_async_objc_cache_t) :=
  {| gotObjC2Info := gotObjC2Info c; lastImage := lastImage c;
     objcConstMobjInitialized := objcConstMobjInitialized c; objcConstMobj := objcConstMobj c;
     classMobjInitialized := classMobjInitialized c; classMobj := classMobj c;
     catMobjInitialized := catMobjInitialized c; catMobj := catMobj c;
     objcDataMobjInitialized := objcDataMobjInitialized c; objcDataMobj := objcDataMobj c;
     classCacheSize := classCacheSize c; classCacheKeys := v;
     classCacheValues := classCacheValues c |}.

Definition set_classCacheValues (v : option (list Z)) (c : plcrash_async_objc_cache_t) :=
  {| gotObjC2Info := gotObjC2Info c; lastImage := lastImage c;
     objcConstMobjInitialized := objcConstMobjInitialized c; objcConstMobj := objcConstMobj c;
     classMobjInitialized := classMobjInitialized c; classMobj := classMobj c;
     catMobjInitialized := catMobjInitialized c; catMobj := catMobj c;
     objcDataMobjInitialized := objcDataMobjInitialized c; objcDataMobj := objcDataMobj c;
     classCacheSize := classCacheSize c; classCacheKeys := classCacheKeys c;
     classCacheValues := v |}.

(** [a[index]] and [a[index] = v] on an array of the arena. Reading through a
    null array does not arise: the size is positive only once the arena is
    allocated. *)
Definition array_get (a : option (list Z)) (index : Z) : Z :=
  match a with
  | Some l => default 0 (l !! Z.to_nat index)
  | None => 0
  end.

Definition array_set (a : option (list Z)) (index : Z) (v : Z) : option (list Z) :=
  match a with
  | Some l => Some (<[Z.to_nat index := v]> l)
  | None => None
  end.

(** [cache_index]: [(key >> 2) % context->classCacheSize]. *)
Definition cache_index (context : plcrash_async_objc_cache_t) (key : Z) : Z :=
  Z.shiftr key 2 mod classCacheSize context.

(** [cache_allocation_size], with 8-byte addresses. *)
Definition cache_allocation_size (context : plcrash_async_objc_cache_t) : Z :=
  let size := classCacheSize context in size * 8 + size * 8.

(** [cache_lookup] *)
Definition cache_lookup (context : plcrash_async_objc_cache_t) (key : Z) : Z :=
  if 0 <? classCacheSize context then
    let index := cache_index context key in
    if array_get (classCacheKeys context) index =? key
    then array_get (classCacheValues context) index
    else 0
  else 0.

(** The store of [cache_set] once the arena exists: the existing entry wins. *)
Definition cache_set_bucket (context : plcrash_async_objc_cache_t) (key value : Z)
  : plcrash_async_objc_cache_t :=
  let index := cache_index context key in
  if array_get (classCacheKeys context) index =? 0 then
    let context := set_classCacheKeys (array_set (classCacheKeys context) index key) context in
    set_classCacheValues (array_set (classCacheValues context) index value) context
  else context.

(** [cache_set]. The arena is requested from the kernel on first use;
    [vm_allocate] returns zero-filled pages. *)
Definition cache_set (host : host_t) (context : plcrash_async_objc_cache_t) (key value : Z)
  : plcrash_async_objc_cache_t :=
  match classCacheKeys context with
  | None =>
      let size := 1024 in
      let context := set_classCacheSize size context in
      if vm_allocate host =? KERN_SUCCESS then
        let context := set_classCacheKeys (Some (replicate (Z.to_nat size) 0)) context in
        let context := set_classCacheValues (Some (replicate (Z.to_nat size) 0)) context in
        cache_set_bucket context key value
      else
        set_classCacheSize 0 context
  | Some _ => cache_set_bucket context key value
  end.

(** [free_mapped_sections] *)
Definition free_mapped_sections (context : plcrash_async_objc_cache_t) : plcrash_async_objc_cache_t :=
  let context :=
    if objcConstMobjInitialized context then set_objcConstMobjInitialized false context else context in
  let context :=
    if classMobjInitialized context then set_classMobjInitialized false context else context in
  let context :=
    if catMobjInitialized context then set_catMobjInitialized false context else context in
  if objcDataMobjInitialized context then set_objcDataMobjInitialized false context else context.

(** [map_sections]. A failed mapping leaves its slot as it was. *)
Definition map_sections (image : plcrash_async_macho_t) (context : plcrash_async_objc_cache_t)
  : plcrash_error_t * plcrash_async_objc_cache_t :=
  if macho_address image =? lastImage context then (PLCRASH_ESUCCESS, context) else
  let context := free_mapped_sections context in
  let context := set_lastImage 0 context in
  let '(err, mobj) := plcrash_async_macho_map_section image kDataSegmentName kObjCConstSectionName in
  if decide (err <> PLCRASH_ESUCCESS) then (err, context) else
  let context := set_objcConstMobjInitialized true (set_objcConstMobj mobj context) in
  let '(err, mobj) := plcrash_async_macho_map_section image kDataSegmentName kClassListSectionName in
  if decide (err <> PLCRASH_ESUCCESS) then (err, context) else
  let context := set_classMobjInitialized true (set_classMobj mobj context) in
  let '(err, mobj) := plcrash_async_macho_map_section image kDataSegmentName kCategoryListSectionName in
  if decide (err <> PLCRASH_ESUCCESS) then (err, context) else
  let context := set_catMobjInitialized true (set_catMobj mobj context) in
  let '(err, mobj) := plcrash_async_macho_map_section image kDataSegmentName kObjCDataSectionName in
  if decide (err <> PLCRASH_ESUCCESS) then (err, context) else
  let context := set_objcDataMobjInitialized true (set_objcDataMobj mobj context) in
  let context := set_lastImage (macho_address image) context in
  (err, context).

(** [plcrash_async_objc_cache_init] *)
Definition plcrash_async_objc_cache_init (cache : plcrash_async_objc_cache_t)
  : plcrash_error_t * plcrash_async_objc_cache_t :=
  (PLCRASH_ESUCCESS,
   {| gotObjC2Info := false; lastImage := 0;
      objcConstMobjInitialized := false; objcConstMobj := objcConstMobj cache;
      classMobjInitialized := false; classMobj := classMobj cache;
      catMobjInitialized := false; catMobj := catMobj cache;
      objcDataMobjInitialized := false; objcDataMobj := objcDataMobj cache;
      classCacheSize := 0; classCacheKeys := None; classCacheValues := None |}).

(* ===================================================================== *)
(** * Record layouts *)
(* ===================================================================== *)

(** Field reads of the on-wire records, at the offsets the C structs give
    them. The ObjC2 records come in a 32-bit and a 64-bit layout, chosen by
    [is64] (the template arguments of the source). *)

Definition sizeof_pl_objc1_module : Z := 16.
Definition pl_objc1_module_symtab (p : bytes) : Z := load32 p 12.

Definition sizeof_pl_objc1_symtab : Z := 12.
Definition pl_objc1_symtab_cls_def_count (p : bytes) : Z := load16 p 8.

Definition sizeof_pl_objc1_class : Z := 40.
Definition pl_objc1_class_isa (p : bytes) : Z := load32 p 0.
Definition pl_objc1_class_name (p : bytes) : Z := load32 p 8.
Definition pl_objc1_class_info (p : bytes) : Z := load32 p 16.
Definition pl_objc1_class_methods (p : bytes) : Z := load32 p 28.

Definition sizeof_pl_objc1_method_list : Z := 8.
Definition pl_objc1_method_list_count (p : bytes) : Z := load32 p 4.

Definition sizeof_pl_objc1_method : Z := 12.
Definition pl_objc1_method_name (p : bytes) : Z := load32 p 0.
Definition pl_objc1_method_imp (p : bytes) : Z := load32 p 8.

Definition sizeof_pl_objc2_class (is64 : bool) : Z := if is64 then 40 else 20.
Definition pl_objc2_class_isa (is64 : bool) (p : bytes) : Z := if is64 then load64 p 0 else load32 p 0.
Definition pl_objc2_class_data_rw (is64 : bool) (p : bytes) : Z := if is64 then load64 p 32 else load32 p 16.

Definition sizeof_pl_objc2_class_data_rw (is64 : bool) : Z := if is64 then 16 else 12.
Definition pl_objc2_class_data_rw_flags (p : bytes) : Z := load32 p 0.
Definition pl_objc2_class_data_rw_data_ro (is64 : bool) (p : bytes) : Z := if is64 then load64 p 8 else load32 p 8.

Definition sizeof_pl_objc2_class_data_ro (is64 : bool) : Z := if is64 then 72 else 40.
Definition pl_objc2_class_data_ro_name (is64 : bool) (p : bytes) : Z := if is64 then load64 p 24 else load32 p 16.
Definition pl_objc2_class_data_ro_baseMethods (is64 : bool) (p : bytes) : Z := if is64 then load64 p 32 else load32 p 20.

(** Both category layouts of the source have six 32-bit fields. *)
Definition sizeof_pl_objc2_category (is64 : bool) : Z := 24.

Definition pl_objc2_method_name (is64 : bool) (p : bytes) : Z := if is64 then load64 p 0 else load32 p 0.
Definition pl_objc2_method_imp (is64 : bool) (p : bytes) : Z := if is64 then load64 p 16 else load32 p 8.

Definition sizeof_pl_objc2_list_header : Z := 8.
Definition pl_objc2_list_header_entsize (p : bytes) : Z := load32 p 0.
Definition pl_objc2_list_header_count (p : bytes) : Z := load32 p 4.

(** [image->byteorder->swap(x)], overloaded on the width of [x]. *)
Definition swap (bo : plcrash_async_byteorder_t) (is64 : bool) (x : Z) : Z :=
  if is64 then swap64 bo x else swap32 bo x.

(* ===================================================================== *)
(** * Callbacks *)
(* ===================================================================== *)

(** [plcrash_async_objc_found_method_cb]: the callback receives the context
    pointer; what it does to the pointee is a transformer of [Ctx]. *)
Definition plcrash_async_objc_found_method_cb (Ctx : Type) : Type :=
  bool -> plcrash_async_macho_string_t -> plcrash_async_macho_string_t -> Z -> Ctx -> Ctx.

(* ===================================================================== *)
(** * The ObjC1 walker *)
(* ===================================================================== *)

Section ObjC1.
Context {Ctx : Type}.
Variable image : plcrash_async_macho_t.
Variable callback : plcrash_async_objc_found_method_cb Ctx.

(** The [for] loop over the methods of one method list, [i] counting up
    from its argument for [n] more rounds. After the last round [err] holds
    the status of the last copy, a success. *)
Fixpoint pl_async_parse_obj1_methods (isMetaClass : bool) (className : plcrash_async_macho_string_t)
    (thisListPtr : Z) (n : nat) (i : Z) (ctx : Ctx) : plcrash_error_t * Ctx :=
  match n with
  | O => (PLCRASH_ESUCCESS, ctx)
  | S n' =>
      let methodPtr := wrap64 (thisListPtr + sizeof_pl_objc1_method_list + i * sizeof_pl_objc1_method) in
      let '(err, method) := plcrash_async_task_memcpy image methodPtr sizeof_pl_objc1_method in
      if decide (err <> PLCRASH_ESUCCESS) then (err, ctx) else
      let methodNamePtr := swap32 (byteorder image) (pl_objc1_method_name method) in
      let err := plcrash_async_macho_string_init image methodNamePtr in
      if decide (err <> PLCRASH_ESUCCESS) then (err, ctx) else
      let imp := swap32 (byteorder image) (pl_objc1_method_imp method) in
      let ctx := callback isMetaClass className {| string_address := methodNamePtr |} imp ctx in
      pl_async_parse_obj1_methods isMetaClass className thisListPtr n' (i + 1) ctx
  end.

(** Reading the [method_list] at [thisListPtr] and walking its methods. *)
Definition pl_async_parse_obj1_method_list (isMetaClass : bool) (className : plcrash_async_macho_string_t)
    (thisListPtr : Z) (ctx : Ctx) : plcrash_error_t * Ctx :=
  let '(err, methodList) := plcrash_async_task_memcpy image thisListPtr sizeof_pl_objc1_method_list in
  if decide (err <> PLCRASH_ESUCCESS) then (err, ctx) else
  let count := swap32 (byteorder image) (pl_objc1_method_list_count methodList) in
  pl_async_parse_obj1_methods isMetaClass className thisListPtr (Z.to_nat count) 0 ctx.

(** The [while (true)] loop of [pl_async_parse_obj1_class]. The C loop has no
    bound of its own, so the model counts rounds: [None] is a walk that has
    not ended within [fuel] rounds. [err] is the status held on entry. *)
Fixpoint pl_async_parse_obj1_class_loop (fuel : nat) (isMetaClass : bool)
    (className : plcrash_async_macho_string_t) (hasMultipleMethodLists : bool)
    (err : plcrash_error_t) (methodListCursor : Z) (ctx : Ctx) : option (plcrash_error_t * Ctx) :=
  match fuel with
  | O => None
  | S fuel' =>
      if hasMultipleMethodLists then
        let '(err, ptr) := plcrash_async_task_memcpy image methodListCursor 4 in
        if decide (err <> PLCRASH_ESUCCESS) then Some (err, ctx) else
        let thisListPtr := swap32 (byteorder image) (load32 ptr 0) in
        if (thisListPtr =? 0) || (thisListPtr =? END_OF_METHODS_LIST) then Some (err, ctx) else
        let methodListCursor := wrap64 (methodListCursor + 4) in
        let '(err, ctx) := pl_async_parse_obj1_method_list isMetaClass className thisListPtr ctx in
        if decide (err <> PLCRASH_ESUCCESS) then Some (err, ctx) else
        pl_async_parse_obj1_class_loop fuel' isMetaClass className hasMultipleMethodLists
          err methodListCursor ctx
      else
        let thisListPtr := methodListCursor in
        if thisListPtr =? 0 then Some (err, ctx) else
        let '(err, ctx) := pl_async_parse_obj1_method_list isMetaClass className thisListPtr ctx in
        Some (err, ctx)
  end.

(** [pl_async_parse_obj1_class] *)
Definition pl_async_parse_obj1_class (fuel : nat) (cls : bytes) (isMetaClass : bool) (ctx : Ctx)
  : option (plcrash_error_t * Ctx) :=
  let namePtr := swap32 (byteorder image) (pl_objc1_class_name cls) in
  let err := plcrash_async_macho_string_init image namePtr in
  if decide (err <> PLCRASH_ESUCCESS) then Some (err, ctx) else
  let className := {| string_address := namePtr |} in
  let methodListPtr := swap32 (byteorder image) (pl_objc1_class_methods cls) in
  let hasMultipleMethodLists :=
    Z.land (swap32 (byteorder image) (pl_objc1_class_info cls)) CLS_NO_METHOD_ARRAY =? 0 in
  let methodListCursor := methodListPtr in
  pl_async_parse_obj1_class_loop fuel isMetaClass className hasMultipleMethodLists
    err methodListCursor ctx.

(** The loop over the classes of one symtab. *)
Fixpoint pl_async_objc_parse_symtab_classes (fuel : nat) (symtabPtr : Z) (n : nat) (i : Z) (ctx : Ctx)
  : option (plcrash_error_t * Ctx) :=
  match n with
  | O => Some (PLCRASH_ESUCCESS, ctx)
  | S n' =>
      let cursor := wrap64 (symtabPtr + sizeof_pl_objc1_symtab + i * 4) in
      let '(err, classPtr) := plcrash_async_task_memcpy image cursor 4 in
      if decide (err <> PLCRASH_ESUCCESS) then Some (err, ctx) else
      let classPtr := swap32 (byteorder image) (load32 classPtr 0) in
      let '(err, cls) := plcrash_async_task_memcpy image classPtr sizeof_pl_objc1_class in
      if decide (err <> PLCRASH_ESUCCESS) then Some (err, ctx) else
      '(err, ctx) ← pl_async_parse_obj1_class fuel cls false ctx;
      if decide (err <> PLCRASH_ESUCCESS) then Some (err, ctx) else
      let isa := swap32 (byteorder image) (pl_objc1_class_isa cls) in
      let '(err, metaclass) := plcrash_async_task_memcpy image isa sizeof_pl_objc1_class in
      if decide (err <> PLCRASH_ESUCCESS) then Some (err, ctx) else
      '(err, ctx) ← pl_async_parse_obj1_class fuel metaclass true ctx;
      if decide (err <> PLCRASH_ESUCCESS) then Some (err, ctx) else
      pl_async_objc_parse_symtab_classes fuel symtabPtr n' (i + 1) ctx
  end.

(** The loop over the module records of the section. *)
Fixpoint pl_async_objc_parse_modules (fuel : nat) (moduleData : bytes) (n : nat) (moduleIndex : Z)
    (ctx : Ctx) : option (plcrash_error_t * Ctx) :=
  match n with
  | O => Some (PLCRASH_ESUCCESS, ctx)
  | S n' =>
      let symtabPtr :=
        swap32 (byteorder image)
          (pl_objc1_module_symtab (offset_ptr moduleData (moduleIndex * sizeof_pl_objc1_module))) in
      if symtabPtr =? 0 then pl_async_objc_parse_modules fuel moduleData n' (moduleIndex + 1) ctx else
      let '(err, symtab) := plcrash_async_task_memcpy image symtabPtr sizeof_pl_objc1_symtab in
      if decide (err <> PLCRASH_ESUCCESS) then Some (err, ctx) else
      let classCount := swap16 (byteorder image) (pl_objc1_symtab_cls_def_count symtab) in
      '(err, ctx) ← pl_async_objc_parse_symtab_classes fuel symtabPtr (Z.to_nat classCount) 0 ctx;
      if decide (err <> PLCRASH_ESUCCESS) then Some (err, ctx) else
      pl_async_objc_parse_modules fuel moduleData n' (moduleIndex + 1) ctx
  end.

(** [pl_async_objc_parse_from_module_info] *)
Definition pl_async_objc_parse_from_module_info (fuel : nat) (ctx : Ctx)
  : option (plcrash_error_t * Ctx) :=
  let '(err, moduleMobj) :=
    plcrash_async_macho_map_section image kObjCSegmentName kObjCModuleInfoSectionName in
  if decide (err <> PLCRASH_ESUCCESS) then Some (err, ctx) else
  match plcrash_async_mobject_remap_address moduleMobj (mobj_task_address moduleMobj) 0
          sizeof_pl_objc1_module with
  | None => Some (PLCRASH_ENOTFOUND, ctx)
  | Some moduleData =>
      pl_async_objc_parse_modules fuel moduleData
        (Z.to_nat (mobj_length moduleMobj / sizeof_pl_objc1_module)) 0 ctx
  end.
End ObjC1.

(* ===================================================================== *)
(** * The ObjC2 walker *)
(* ===================================================================== *)

Section ObjC2.
Context {Ctx : Type}.
Variable host : host_t.
Variable image : plcrash_async_macho_t.
Variable callback : plcrash_async_objc_found_method_cb Ctx.

(** The [for] loop of [pl_async_objc_parse_objc2_method_list]: one method
    record per round, the cursor advancing by [entsize]. *)
Fixpoint pl_async_objc_parse_objc2_methods (class_name : plcrash_async_macho_string_t)
    (is_meta_class : bool) (entsize : Z) (n : nat) (cursor : bytes) (ctx : Ctx)
  : plcrash_error_t * Ctx :=
  match n with
  | O => (PLCRASH_ESUCCESS, ctx)
  | S n' =>
      let methodNamePtr := swap (byteorder image) (m64 image) (pl_objc2_method_name (m64 image) cursor) in
      let err := plcrash_async_macho_string_init image methodNamePtr in
      if decide (err <> PLCRASH_ESUCCESS) then (err, ctx) else
      let imp := swap (byteorder image) (m64 image) (pl_objc2_method_imp (m64 image) cursor) in
      let ctx := callback is_meta_class class_name {| string_address := methodNamePtr |} imp ctx in
      let cursor := offset_ptr cursor entsize in
      pl_async_objc_parse_objc2_methods class_name is_meta_class entsize n' cursor ctx
  end.

(** [pl_async_objc_parse_objc2_method_list] *)
Definition pl_async_objc_parse_objc2_method_list (objc_cache : plcrash_async_objc_cache_t)
    (class_name : plcrash_async_macho_string_t) (is_meta_class : bool) (method_list_addr : Z)
    (ctx : Ctx) : plcrash_error_t * Ctx :=
  match plcrash_async_mobject_remap_address (objcConstMobj objc_cache) method_list_addr 0
          sizeof_pl_objc2_list_header with
  | None => (PLCRASH_EINVAL, ctx)
  | Some header =>
      let entsize :=
        Z.land (swap32 (byteorder image) (pl_objc2_list_header_entsize header)) (wrap32 (Z.lnot 3)) in
      let count := swap32 (byteorder image) (pl_objc2_list_header_count header) in
      let method_list_start := wrap64 (method_list_addr + sizeof_pl_objc2_list_header) in
      let method_list_length := entsize * count in
      match plcrash_async_mobject_remap_address (objcConstMobj objc_cache) method_list_start 0
              method_list_length with
      | None => (PLCRASH_EINVAL, ctx)
      | Some cursor =>
          pl_async_objc_parse_objc2_methods class_name is_meta_class entsize (Z.to_nat count) cursor ctx
      end
  end.

(** [pl_async_objc_parse_objc2_class], for the layout [is64]. The result is
    the status, the callback context and the cache as the call leaves it. *)
Definition pl_async_objc_parse_objc2_class (is64 : bool) (objc_cache : plcrash_async_objc_cache_t)
    (cls : bytes) (is_meta_class : bool) (ctx : Ctx)
  : plcrash_error_t * Ctx * plcrash_async_objc_cache_t :=
  let class_ro_length := sizeof_pl_objc2_class_data_ro is64 in
  let data_ptr := swap (byteorder image) is64 (pl_objc2_class_data_rw is64 cls) in
  let data_ptr := Z.land data_ptr (wrap64 (Z.lnot 3)) in
  (* What follows the lookup of the read-only data: the name and the methods. *)
  let parse_ro (objc_cache : plcrash_async_objc_cache_t) (cls_data_ro : bytes) :=
    let class_name_ptr := swap (byteorder image) is64 (pl_objc2_class_data_ro_name is64 cls_data_ro) in
    let err := plcrash_async_macho_string_init image class_name_ptr in
    if decide (err <> PLCRASH_ESUCCESS) then (err, ctx, objc_cache) else
    let class_name := {| string_address := class_name_ptr |} in
    let methods_ptr :=
      swap (byteorder image) is64 (pl_objc2_class_data_ro_baseMethods is64 cls_data_ro) in
    if methods_ptr =? 0 then (PLCRASH_ESUCCESS, ctx, objc_cache) else
    let '(err, ctx) :=
      pl_async_objc_parse_objc2_method_list objc_cache class_name is_meta_class methods_ptr ctx in
    (err, ctx, objc_cache) in
  let cached_data_ro_addr := cache_lookup objc_cache data_ptr in
  if cached_data_ro_addr =? 0 then
    let '(err, cls_data_rw) :=
      plcrash_async_task_memcpy image data_ptr (sizeof_pl_objc2_class_data_rw is64) in
    if decide (err <> PLCRASH_ESUCCESS) then (err, ctx, objc_cache) else
    if Z.land (pl_objc2_class_data_rw_flags cls_data_rw) RW_REALIZED =? 0
    then (PLCRASH_ENOTFOUND, ctx, objc_cache) else
    let cached_data_ro_addr :=
      swap (byteorder image) is64 (pl_objc2_class_data_rw_data_ro is64 cls_data_rw) in
    if negb (Z.land (pl_objc2_class_data_rw_flags cls_data_rw) RW_COPIED_RO =? 0) then
      let '(err, cls_copied_ro) :=
        plcrash_async_task_memcpy image cached_data_ro_addr class_ro_length in
      if decide (err <> PLCRASH_ESUCCESS) then (err, ctx, objc_cache) else
      parse_ro (cache_set host objc_cache data_ptr cached_data_ro_addr) cls_copied_ro
    else
      match plcrash_async_mobject_remap_address (objcConstMobj objc_cache) cached_data_ro_addr 0
              class_ro_length with
      | None => (PLCRASH_EINVAL, ctx, objc_cache)
      | Some cls_data_ro =>
          parse_ro (cache_set host objc_cache data_ptr cached_data_ro_addr) cls_data_ro
      end
  else
    match plcrash_async_mobject_remap_address (objcConstMobj objc_cache) cached_data_ro_addr 0
            class_ro_length with
    | Some cls_data_ro => parse_ro objc_cache cls_data_ro
    | None =>
        let '(err, cls_copied_ro) :=
          plcrash_async_task_memcpy image cached_data_ro_addr class_ro_length in
        if decide (err = PLCRASH_ESUCCESS) then parse_ro objc_cache cls_copied_ro
        else (PLCRASH_EINVAL, ctx, objc_cache)
    end.

(** [pl_async_objc_parse_objc2_category]: a stub in the source. *)
Definition pl_async_objc_parse_objc2_category (objcContext : plcrash_async_objc_cache_t)
    (cat_32 cat_64 : bytes) (ctx : Ctx) : plcrash_error_t * Ctx :=
  (PLCRASH_ESUCCESS, ctx).

(** The element [i] of a pointer list, through the view of the image's
    pointer width. *)
Definition read_list_pointer (ptrs_32 ptrs_64 : bytes) (i : Z) : Z :=
  if m64 image
  then swap64 (byteorder image) (load64 ptrs_64 (i * 8))
  else swap32 (byteorder image) (load32 ptrs_32 (i * 4)).

(** The class loop of [pl_async_objc_parse_from_data_section]. *)
Fixpoint pl_async_objc_parse_classes (classPtrs_32 classPtrs_64 : bytes) (n : nat) (i : Z)
    (ctx : Ctx) (objcContext : plcrash_async_objc_cache_t)
  : plcrash_error_t * Ctx * plcrash_async_objc_cache_t :=
  match n with
  | O => (PLCRASH_ESUCCESS, ctx, objcContext)
  | S n' =>
      let ptr := read_list_pointer classPtrs_32 classPtrs_64 i in
      match plcrash_async_mobject_remap_address (objcDataMobj objcContext) ptr 0
              (sizeof_pl_objc2_class (m64 image)) with
      | None => (PLCRASH_EINVAL, ctx, objcContext)
      | Some classPtr =>
          let '(err, ctx, objcContext) :=
            pl_async_objc_parse_objc2_class (m64 image) objcContext classPtr false ctx in
          if decide (err <> PLCRASH_ESUCCESS) then (err, ctx, objcContext) else
          let isa := swap (byteorder image) (m64 image) (pl_objc2_class_isa (m64 image) classPtr) in
          match plcrash_async_mobject_remap_address (objcDataMobj objcContext)
                  (TAGGED_ISA (arm64 host) isa) 0 (sizeof_pl_objc2_class (m64 image)) with
          | None => (PLCRASH_EINVAL, ctx, objcContext)
          | Some metaclassPtr =>
              let '(err, ctx, objcContext) :=
                pl_async_objc_parse_objc2_class (m64 image) objcContext metaclassPtr true ctx in
              if decide (err <> PLCRASH_ESUCCESS) then (err, ctx, objcContext) else
              pl_async_objc_parse_classes classPtrs_32 classPtrs_64 n' (i + 1) ctx objcContext
          end
      end
  end.

(** The category loop of [pl_async_objc_parse_from_data_section]. *)
Fixpoint pl_async_objc_parse_categories (objcContext : plcrash_async_objc_cache_t)
    (catPtrs_32 catPtrs_64 : bytes) (n : nat) (i : Z) (ctx : Ctx) : plcrash_error_t * Ctx :=
  match n with
  | O => (PLCRASH_ESUCCESS, ctx)
  | S n' =>
      let ptr := read_list_pointer catPtrs_32 catPtrs_64 i in
      match plcrash_async_mobject_remap_address (objcDataMobj objcContext) ptr 0
              (sizeof_pl_objc2_category (m64 image)) with
      | None => (PLCRASH_EINVAL, ctx)
      | Some catPtr =>
          let '(err, ctx) := pl_async_objc_parse_objc2_category objcContext catPtr catPtr ctx in
          if decide (err <> PLCRASH_ESUCCESS) then (err, ctx) else
          pl_async_objc_parse_categories objcContext catPtrs_32 catPtrs_64 n' (i + 1) ctx
      end
  end.

(** [pl_async_objc_parse_from_data_section]. The counts are [unsigned]. *)
Definition pl_async_objc_parse_from_data_section (objcContext : plcrash_async_objc_cache_t)
    (ctx : Ctx) : plcrash_error_t * Ctx * plcrash_async_objc_cache_t :=
  let '(err, objcContext) := map_sections image objcContext in
  if decide (err <> PLCRASH_ESUCCESS) then (err, ctx, objcContext) else
  match plcrash_async_mobject_remap_address (classMobj objcContext)
          (mobj_task_address (classMobj objcContext)) 0 (mobj_length (classMobj objcContext)) with
  | None => (PLCRASH_EINVAL, ctx, objcContext)
  | Some classPtrs =>
      let classPtrs_32 := classPtrs in
      let classPtrs_64 := classPtrs in
      let classCount :=
        wrap32 (mobj_length (classMobj objcContext) / (if m64 image then 8 else 4)) in
      let '(err, ctx, objcContext) :=
        pl_async_objc_parse_classes classPtrs_32 classPtrs_64 (Z.to_nat classCount) 0 ctx objcContext in
      if decide (err <> PLCRASH_ESUCCESS) then (err, ctx, objcContext) else
      match plcrash_async_mobject_remap_address (catMobj objcContext)
              (mobj_task_address (catMobj objcContext)) 0 (mobj_length (catMobj objcContext)) with
      | None => (PLCRASH_EINVAL, ctx, objcContext)
      | Some catPtrs =>
          (* As in the source: both views are taken from [classPtrs]. *)
          let catPtrs_32 := classPtrs in
          let catPtrs_64 := classPtrs in
          let catCount :=
            wrap32 (mobj_length (catMobj objcContext) / (if m64 image then 8 else 4)) in
          let '(err, ctx) :=
            pl_async_objc_parse_categories objcContext catPtrs_32 catPtrs_64 (Z.to_nat catCount) 0 ctx in
          (err, ctx, objcContext)
      end
  end.
End ObjC2.

(* ===================================================================== *)
(** * The unified parser and the best-IMP search *)
(* ===================================================================== *)

(** [plcrash_async_objc_parse]. The cache pointer may be null ([None]). *)
Definition plcrash_async_objc_parse {Ctx : Type} (host : host_t) (fuel : nat)
    (image : plcrash_async_macho_t) (cache : option plcrash_async_objc_cache_t)
    (callback : plcrash_async_objc_found_method_cb Ctx) (ctx : Ctx)
  : option (plcrash_error_t * Ctx * option plcrash_async_objc_cache_t) :=
  match cache with
  | None => Some (PLCRASH_EACCESS, ctx, None)
  | Some cache =>
      '(err, ctx) ←
        (if negb (gotObjC2Info cache)
         then pl_async_objc_parse_from_module_info image callback fuel ctx
         else Some (PLCRASH_ENOTFOUND, ctx));
      if decide (err = PLCRASH_ENOTFOUND) then
        let '(err, ctx, cache) := pl_async_objc_parse_from_data_section host image callback cache ctx in
        if decide (err = PLCRASH_ESUCCESS)
        then Some (err, ctx, Some (set_gotObjC2Info true cache))
        else Some (err, ctx, Some cache)
      else Some (err, ctx, Some cache)
  end.

Record pl_async_objc_find_method_search_context : Type := {
  searchIMP : Z;
  bestIMP : Z;
}.

Record pl_async_objc_find_method_call_context (Ctx : Type) : Type := {
  call_searchIMP : Z;
  outerCallback : option (plcrash_async_objc_found_method_cb Ctx);
  outerCallbackCtx : Ctx;
}.
Arguments call_searchIMP {Ctx} _.
Arguments outerCallback {Ctx} _.
Arguments outerCallbackCtx {Ctx} _.

(** [pl_async_objc_find_method_search_callback] *)
Definition pl_async_objc_find_method_search_callback
  : plcrash_async_objc_found_method_cb pl_async_objc_find_method_search_context :=
  fun isClassMethod className methodName imp ctxStruct =>
    if (imp >=? bestIMP ctxStruct) && (imp <=? searchIMP ctxStruct)
    then {| searchIMP := searchIMP ctxStruct; bestIMP := imp |}
    else ctxStruct.

(** [pl_async_objc_find_method_call_callback] *)
Definition pl_async_objc_find_method_call_callback {Ctx : Type}
  : plcrash_async_objc_found_method_cb (pl_async_objc_find_method_call_context Ctx) :=
  fun isClassMethod className methodName imp ctxStruct =>
    match outerCallback ctxStruct with
    | Some outer =>
        if imp =? call_searchIMP ctxStruct then
          {| call_searchIMP := call_searchIMP ctxStruct;
             outerCallback := None;
             outerCallbackCtx := outer isClassMethod className methodName imp (outerCallbackCtx ctxStruct) |}
        else ctxStruct
    | None => ctxStruct
    end.

(** [plcrash_async_objc_find_method] *)
Definition plcrash_async_objc_find_method {Ctx : Type} (host : host_t) (fuel : nat)
    (image : plcrash_async_macho_t) (objcContext : option plcrash_async_objc_cache_t) (imp : Z)
    (callback : plcrash_async_objc_found_method_cb Ctx) (ctx : Ctx)
  : option (plcrash_error_t * Ctx * option plcrash_async_objc_cache_t) :=
  let searchCtx := {| searchIMP := imp; bestIMP := 0 |} in
  '(err, searchCtx, objcContext) ←
    plcrash_async_objc_parse host fuel image objcContext
      pl_async_objc_find_method_search_callback searchCtx;
  if decide (err <> PLCRASH_ESUCCESS) then Some (err, ctx, objcContext) else
  if bestIMP searchCtx =? 0 then Some (PLCRASH_ENOTFOUND, ctx, objcContext) else
  let callCtx :=
    {| call_searchIMP := bestIMP searchCtx; outerCallback := Some callback; outerCallbackCtx := ctx |} in
  '(err, callCtx, objcContext) ←
    plcrash_async_objc_parse host fuel image objcContext
      pl_async_objc_find_method_call_callback callCtx;
  Some (err, outerCallbackCtx callCtx, objcContext).

(* ===================================================================== *)
(** * Enumerations, and what the specification says of them *)
(* ===================================================================== *)

(** One invocation of a found-method callback. *)
Record found_method : Type := {
  fm_is_meta : bool;
  fm_class_name : plcrash_async_macho_string_t;
  fm_method_name : plcrash_async_macho_string_t;
  fm_imp : Z;
}.

(** Handing a recorded invocation to a callback. *)
Definition deliver {Ctx : Type} (callback : plcrash_async_objc_found_method_cb Ctx)
    (ctx : Ctx) (m : found_method) : Ctx :=
  callback (fm_is_meta m) (fm_class_name m) (fm_method_name m) (fm_imp m) ctx.

(** The callback that writes every invocation down, in order. *)
Definition record_callback : plcrash_async_objc_found_method_cb (list found_method) :=
  fun isClassMethod className methodName imp log =>
    log ++ [ {| fm_is_meta := isClassMethod; fm_class_name := className;
                fm_method_name := methodName; fm_imp := imp |} ].

(** Enumerating all methods of an image into a list: the unified parser run
    with [record_callback]. *)
Definition enumerate (host : host_t) (fuel : nat) (image : plcrash_async_macho_t)
    (cache : option plcrash_async_objc_cache_t)
  : option (plcrash_error_t * list found_method * option plcrash_async_objc_cache_t) :=
  plcrash_async_objc_parse host fuel image cache record_callback [].

(** The specification's [max(imp) over imp <= target], 0 when there is none. *)
Fixpoint max_imp_le (target : Z) (imps : list Z) : Z :=
  match imps with
  | [] => 0
  | imp :: rest =>
      if imp <=? target then Z.max imp (max_imp_le target rest) else max_imp_le target rest
  end.

(** The first enumerated method at a given IMP. *)
Definition first_with_imp (imp : Z) (methods : list found_method) : option found_method :=
  List.find (fun m => fm_imp m =? imp) methods.

(** Walk-then-find over a list, in the specification's words: select the
    greatest IMP not above the target (none when that is 0) and take the first
    method that has it. *)
Definition walk_then_find (target : Z) (methods : list found_method) : option found_method :=
  let best := max_imp_le target (map fm_imp methods) in
  if best =? 0 then None else first_with_imp best methods.

(** The search pass over a sequence of callback invocations. *)
Definition search_pass (target : Z) (methods : list found_method)
  : pl_async_objc_find_method_search_context :=
  fold_left (deliver pl_async_objc_find_method_search_callback) methods
    {| searchIMP := target; bestIMP := 0 |}.

(** A sequence of stores into the class cache. *)
Definition cache_set_all (host : host_t) (stores : list (Z * Z))
    (context : plcrash_async_objc_cache_t) : plcrash_async_objc_cache_t :=
  fold_left (fun c kv => cache_set host c (fst kv) (snd kv)) stores context.

(** The bucket of a key in the 1024-entry table, in the specification's words. *)
Definition bucket_of (k : Z) : Z := Z.shiftr k 2 mod 1024.

(** The first pair of a sequence of stores that falls into a bucket. *)
Definition first_stored (bucket : Z) (stores : list (Z * Z)) : option (Z * Z) :=
  List.find (fun kv => bucket_of (fst kv) =? bucket) stores.

(** The arena is in the state the source keeps it in: absent with size 0, or
    two arrays of 1024 entries. *)
Definition cache_arena_ok (c : plcrash_async_objc_cache_t) : Prop :=
  match classCacheKeys c, classCacheValues c with
  | None, _ => classCacheSize c = 0
  | Some ks, Some vs =>
      classCacheSize c = 1024 /\ length ks = 1024%nat /\ length vs = 1024%nat
  | Some _, None => False
  end.

(** The entry of the table at an index: its key and its value. *)
Definition bucket (c : plcrash_async_objc_cache_t) (i : Z) : Z * Z :=
  (array_get (classCacheKeys c) i, array_get (classCacheValues c) i).

(** The claim that a lookup after a sequence of stores gives the value first
    stored into the bucket of the key, or 0. *)
Definition lookup_first_stored_or_zero (host : host_t) (c0 : plcrash_async_objc_cache_t)
    (stores : list (Z * Z)) (k : Z) : Prop :=
  let r := cache_lookup (cache_set_all host stores c0) k in
  r = 0 \/ exists k0 v0, first_stored (bucket_of k) stores = Some (k0, v0) /\ r = v0.

(** A sequence of stores, the kernel asked anew at each one that finds no
    arena: every store comes with the host that answers it. *)
Definition cache_set_each (stores : list (host_t * (Z * Z)))
    (context : plcrash_async_objc_cache_t) : plcrash_async_objc_cache_t :=
  fold_left (fun c s => cache_set (fst s) c (fst (snd s)) (snd (snd s))) stores context.

(** The stores of a sequence that reach an arena, when the sequence begins
    without one: the first store the kernel grants the arena to, and all
    that follow it. *)
Fixpoint accepted_stores (stores : list (host_t * (Z * Z))) : list (Z * Z) :=
  match stores with
  | [] => []
  | (host, kv) :: rest =>
      if vm_allocate host =? KERN_SUCCESS then kv :: map snd rest else accepted_stores rest
  end.

(** The statuses of the four section mappings, in the order [map_sections]
    asks for them, and the number of mappings that succeed before the first
    failure. *)
Definition mapping_statuses (image : plcrash_async_macho_t) : list plcrash_error_t :=
  [ fst (plcrash_async_macho_map_section image kDataSegmentName kObjCConstSectionName);
    fst (plcrash_async_macho_map_section image kDataSegmentName kClassListSectionName);
    fst (plcrash_async_macho_map_section image kDataSegmentName kCategoryListSectionName);
    fst (plcrash_async_macho_map_section image kDataSegmentName kObjCDataSectionName) ].

Fixpoint mapped_before_failure (statuses : list plcrash_error_t) : nat :=
  match statuses with
  | PLCRASH_ESUCCESS :: rest => S (mapped_before_failure rest)
  | _ => O
  end.

(** A sequence of parse calls on one cache, each with its own image and
    round bound; the result is the cache they leave. *)
Fixpoint parse_calls (host : host_t) (calls : list (nat * plcrash_async_macho_t))
    (cache : option plcrash_async_objc_cache_t) : option (option plcrash_async_objc_cache_t) :=
  match calls with
  | [] => Some cache
  | (fuel, image) :: rest =>
      '(_, _, cache) ← enumerate host fuel image cache;
      parse_calls host rest cache
  end.

(** The category pointer at index [i] as the specification has it: read from
    the mapped [__objc_catlist] contents. *)
Definition spec_category_pointer (image : plcrash_async_macho_t) (catPtrs : bytes) (i : Z) : Z :=
  read_list_pointer image catPtrs catPtrs i.

(** The best IMP the search pass of [plcrash_async_objc_find_method] ends with. *)
Definition pass1_best (host : host_t) (fuel : nat) (image : plcrash_async_macho_t)
    (cache : option plcrash_async_objc_cache_t) (target : Z) : option Z :=
  '(_, searchCtx, _) ←
    plcrash_async_objc_parse host fuel image cache pl_async_objc_find_method_search_callback
      {| searchIMP := target; bestIMP := 0 |};
  Some (bestIMP searchCtx).

(** The ObjC2 attempt of the unified parser, in the specification's words:
    walk the ObjC2 data and, on success, set [gotObjC2Info]. *)
Definition objc2_attempt {Ctx : Type} (host : host_t) (image : plcrash_async_macho_t)
    (cache : plcrash_async_objc_cache_t) (callback : plcrash_async_objc_found_method_cb Ctx)
    (ctx : Ctx) : option (plcrash_error_t * Ctx * option plcrash_async_objc_cache_t) :=
  let '(err, ctx, cache) := pl_async_objc_parse_from_data_section host image callback cache ctx in
  Some (err, ctx, Some (if decide (err = PLCRASH_ESUCCESS) then set_gotObjC2Info true cache else cache)).

(** The status and the callback context of a result, the cache left out. *)
Definition outcome {Ctx C : Type} (r : option (plcrash_error_t * Ctx * C))
  : option (plcrash_error_t * Ctx) :=
  match r with
  | Some (err, ctx, _) => Some (err, ctx)
  | None => None
  end.


(** The claim that the search returns not-found, the callback not invoked,
    whenever every enumerated method at or below the target has IMP 0. *)
Definition imp_zero_gives_not_found (host : host_t) (fuel : nat) (image : plcrash_async_macho_t)
    (cache : option plcrash_async_objc_cache_t) (target : Z) : Prop :=
  forall err methods cache1,
    enumerate host fuel image cache = Some (err, methods, cache1) ->
    (forall m, In m methods -> fm_imp m <= target -> fm_imp m = 0) ->
    outcome (plcrash_async_objc_find_method host fuel image cache target record_callback [])
    = Some (PLCRASH_ENOTFOUND, []).

(** Two walks, run with different callbacks, that ended alike: the same
    status (and the same cache) and contexts related by [R]. *)
Definition walk_rel {Ctx1 Ctx2 : Type} (R : Ctx1 -> Ctx2 -> Prop)
    (r1 : plcrash_error_t * Ctx1) (r2 : plcrash_error_t * Ctx2) : Prop :=
  fst r1 = fst r2 /\ R (snd r1) (snd r2).

Definition walk_rel_cache {Ctx1 Ctx2 C : Type} (R : Ctx1 -> Ctx2 -> Prop)
    (r1 : plcrash_error_t * Ctx1 * C) (r2 : plcrash_error_t * Ctx2 * C) : Prop :=
  fst (fst r1) = fst (fst r2) /\ R (snd (fst r1)) (snd (fst r2)) /\ snd r1 = snd r2.

(** The same for walks that are bounded by a number of rounds. *)
Definition bounded_rel {A B : Type} (P : A -> B -> Prop) (r1 : option A) (r2 : option B) : Prop :=
  match r1, r2 with
  | Some a, Some b => P a b
  | None, None => True
  | _, _ => False
  end.

(* ===================================================================== *)
(** * Releasing the cache, and what the walkers are compared with *)
(* ===================================================================== *)

(** The memory objects a cache holds: those of the slots marked initialized,
    in the order [free_mapped_sections] hands them to
    [plcrash_async_mobject_free]. *)
Definition mapped_sections (context : plcrash_async_objc_cache_t) : list plcrash_async_mobject_t :=
  (if objcConstMobjInitialized context then [objcConstMobj context] else [])
  ++ (if classMobjInitialized context then [classMobj context] else [])
  ++ (if catMobjInitialized context then [catMobj context] else [])
  ++ (if objcDataMobjInitialized context then [objcDataMobj context] else []).

(** [plcrash_async_objc_cache_free]. The result is the cache as the call
    leaves it, the memory objects released, and the size handed to
    [vm_deallocate] ([None] when the arena pointer is null and the kernel is
    not called). The arena pointer itself is left as it is. *)
Definition plcrash_async_objc_cache_free (cache : plcrash_async_objc_cache_t)
  : plcrash_async_objc_cache_t * list plcrash_async_mobject_t * option Z :=
  let released := mapped_sections cache in
  let cache := free_mapped_sections cache in
  (cache, released,
   match classCacheKeys cache with
   | Some _ => Some (cache_allocation_size cache)
   | None => None
   end).

(** Two caches that differ in the class cache arena at most. *)
Definition same_sections (c c' : plcrash_async_objc_cache_t) : Prop :=
  gotObjC2Info c' = gotObjC2Info c
  /\ lastImage c' = lastImage c
  /\ objcConstMobjInitialized c' = objcConstMobjInitialized c
  /\ objcConstMobj c' = objcConstMobj c
  /\ classMobjInitialized c' = classMobjInitialized c
  /\ classMobj c' = classMobj c
  /\ catMobjInitialized c' = catMobjInitialized c
  /\ catMobj c' = catMobj c
  /\ objcDataMobjInitialized c' = objcDataMobjInitialized c
  /\ objcDataMobj c' = objcDataMobj c.

(** A cache that names an image holds the four sections. *)
Definition sections_ok (c : plcrash_async_objc_cache_t) : Prop :=
  lastImage c <> 0 ->
  objcConstMobjInitialized c = true /\ classMobjInitialized c = true
  /\ catMobjInitialized c = true /\ objcDataMobjInitialized c = true.

(** The number of successes a sequence of statuses begins with. *)
Fixpoint leading_successes (statuses : list plcrash_error_t) : nat :=
  match statuses with
  | PLCRASH_ESUCCESS :: rest => S (leading_successes rest)
  | _ => O
  end.

(** Handing the methods of [n] records to a callback up to the first record
    whose status is a failure: the status of that record, success when
    there is none, and the context the callback leaves. *)
Definition deliver_until_failure {Ctx : Type} (callback : plcrash_async_objc_found_method_cb Ctx)
    (status : nat -> plcrash_error_t) (method : nat -> found_method) (n : nat) (ctx : Ctx)
  : plcrash_error_t * Ctx :=
  let statuses := map status (seq 0 n) in
  let k := leading_successes statuses in
  (nth k statuses PLCRASH_ESUCCESS, fold_left (deliver callback) (map method (seq 0 k)) ctx).

(** The record [i] of the ObjC1 method list at [thisListPtr]: the status of
    reading it (the copy of the record, then its name), and the invocation it
    stands for. *)
Definition objc1_method_status (image : plcrash_async_macho_t) (thisListPtr i : Z) : plcrash_error_t :=
  let methodPtr := wrap64 (thisListPtr + sizeof_pl_objc1_method_list + i * sizeof_pl_objc1_method) in
  let '(err, method) := plcrash_async_task_memcpy image methodPtr sizeof_pl_objc1_method in
  if decide (err <> PLCRASH_ESUCCESS) then err else
  plcrash_async_macho_string_init image (swap32 (byteorder image) (pl_objc1_method_name method)).

Definition objc1_found_method (image : plcrash_async_macho_t) (isMetaClass : bool)
    (className : plcrash_async_macho_string_t) (thisListPtr i : Z) : found_method :=
  let methodPtr := wrap64 (thisListPtr + sizeof_pl_objc1_method_list + i * sizeof_pl_objc1_method) in
  let method := snd (plcrash_async_task_memcpy image methodPtr sizeof_pl_objc1_method) in
  {| fm_is_meta := isMetaClass; fm_class_name := className;
     fm_method_name := {| string_address := swap32 (byteorder image) (pl_objc1_method_name method) |};
     fm_imp := swap32 (byteorder image) (pl_objc1_method_imp method) |}.

(** The ObjC2 method record at a local pointer: the status of reading its
    name, and the invocation it stands for. *)
Definition objc2_method_status (image : plcrash_async_macho_t) (method : bytes) : plcrash_error_t :=
  plcrash_async_macho_string_init image
    (swap (byteorder image) (m64 image) (pl_objc2_method_name (m64 image) method)).

Definition objc2_found_method (image : plcrash_async_macho_t) (is_meta_class : bool)
    (class_name : plcrash_async_macho_string_t) (method : bytes) : found_method :=
  {| fm_is_meta := is_meta_class; fm_class_name := class_name;
     fm_method_name :=
       {| string_address := swap (byteorder image) (m64 image) (pl_objc2_method_name (m64 image) method) |};
     fm_imp := swap (byteorder image) (m64 image) (pl_objc2_method_imp (m64 image) method) |}.

(** The target holds, at [cursor], an array of the method-list pointers
    [ptrs] (none of them a terminator) followed by a terminator, 0 or
    [END_OF_METHODS_LIST], and every entry can be copied. *)
Fixpoint method_list_array (image : plcrash_async_macho_t) (cursor : Z) (ptrs : list Z) : bool :=
  let '(err, ptr) := plcrash_async_task_memcpy image cursor 4 in
  let thisListPtr := swap32 (byteorder image) (load32 ptr 0) in
  bool_decide (err = PLCRASH_ESUCCESS)
  && match ptrs with
     | [] => (thisListPtr =? 0) || (thisListPtr =? END_OF_METHODS_LIST)
     | p :: rest =>
         (thisListPtr =? p) && negb ((p =? 0) || (p =? END_OF_METHODS_LIST))
         && method_list_array image (wrap64 (cursor + 4)) rest
     end.

(** Parsing the method lists at [ptrs] one after the other, up to the first
    that fails. *)
Fixpoint parse_method_lists {Ctx : Type} (image : plcrash_async_macho_t)
    (callback : plcrash_async_objc_found_method_cb Ctx) (isMetaClass : bool)
    (className : plcrash_async_macho_string_t) (ptrs : list Z) (ctx : Ctx) : plcrash_error_t * Ctx :=
  match ptrs with
  | [] => (PLCRASH_ESUCCESS, ctx)
  | thisListPtr :: rest =>
      let '(err, ctx) := pl_async_parse_obj1_method_list image callback isMetaClass className thisListPtr ctx in
      if decide (err <> PLCRASH_ESUCCESS) then (err, ctx) else
      parse_method_lists image callback isMetaClass className rest ctx
  end.

(** The image seen over another cross-task copy: everything but
    [plcrash_async_task_memcpy] is kept. *)
Definition with_task_memcpy (copy : Z -> Z -> plcrash_error_t * bytes) (image : plcrash_async_macho_t)
  : plcrash_async_macho_t :=
  {| macho_address := macho_address image; m64 := m64 image; byteorder := byteorder image;
     plcrash_async_macho_map_section := plcrash_async_macho_map_section image;
     plcrash_async_task_memcpy := copy;
     plcrash_async_macho_string_init := plcrash_async_macho_string_init image |}.

(** The end of [pl_async_objc_parse_objc2_class], from the read-only data on:
    the name of the class and its methods. *)
Definition pl_async_objc_parse_objc2_class_ro {Ctx : Type} (image : plcrash_async_macho_t)
    (callback : plcrash_async_objc_found_method_cb Ctx) (is64 : bool)
    (objc_cache : plcrash_async_objc_cache_t) (cls_data_ro : bytes) (is_meta_class : bool) (ctx : Ctx)
  : plcrash_error_t * Ctx * plcrash_async_objc_cache_t :=
  let class_name_ptr := swap (byteorder image) is64 (pl_objc2_class_data_ro_name is64 cls_data_ro) in
  let err := plcrash_async_macho_string_init image class_name_ptr in
  if decide (err <> PLCRASH_ESUCCESS) then (err, ctx, objc_cache) else
  let class_name := {| string_address := class_name_ptr |} in
  let methods_ptr :=
    swap (byteorder image) is64 (pl_objc2_class_data_ro_baseMethods is64 cls_data_ro) in
  if methods_ptr =? 0 then (PLCRASH_ESUCCESS, ctx, objc_cache) else
  let '(err, ctx) :=
    pl_async_objc_parse_objc2_method_list image callback objc_cache class_name is_meta_class
      methods_ptr ctx in
  (err, ctx, objc_cache).

(** The parse of a class as it goes when the class cache is not asked: the
    [class_rw] is copied and checked, and the read-only data is taken where
    the [class_rw] says it is. *)
Definition pl_async_objc_parse_objc2_class_uncached {Ctx : Type} (image : plcrash_async_macho_t)
    (callback : plcrash_async_objc_found_method_cb Ctx) (is64 : bool)
    (objc_cache : plcrash_async_objc_cache_t) (cls : bytes) (is_meta_class : bool) (ctx : Ctx)
  : plcrash_error_t * Ctx :=
  let class_ro_length := sizeof_pl_objc2_class_data_ro is64 in
  let data_ptr := swap (byteorder image) is64 (pl_objc2_class_data_rw is64 cls) in
  let data_ptr := Z.land data_ptr (wrap64 (Z.lnot 3)) in
  let '(err, cls_data_rw) :=
    plcrash_async_task_memcpy image data_ptr (sizeof_pl_objc2_class_data_rw is64) in
  if decide (err <> PLCRASH_ESUCCESS) then (err, ctx) else
  if Z.land (pl_objc2_class_data_rw_flags cls_data_rw) RW_REALIZED =? 0
  then (PLCRASH_ENOTFOUND, ctx) else
  let data_ro_addr := swap (byteorder image) is64 (pl_objc2_class_data_rw_data_ro is64 cls_data_rw) in
  if negb (Z.land (pl_objc2_class_data_rw_flags cls_data_rw) RW_COPIED_RO =? 0) then
    let '(err, cls_copied_ro) := plcrash_async_task_memcpy image data_ro_addr class_ro_length in
    if decide (err <> PLCRASH_ESUCCESS) then (err, ctx) else
    fst (pl_async_objc_parse_objc2_class_ro image callback is64 objc_cache cls_copied_ro
           is_meta_class ctx)
  else
    match plcrash_async_mobject_remap_address (objcConstMobj objc_cache) data_ro_addr 0
            class_ro_length with
    | None => (PLCRASH_EINVAL, ctx)
    | Some cls_data_ro =>
        fst (pl_async_objc_parse_objc2_class_ro image callback is64 objc_cache cls_data_ro
               is_meta_class ctx)
    end.

(** A pair the class cache may hold for an image: the [class_rw] at
    [data_ptr] can be copied, is realized and names [data_ro], and the
    read-only data can be had where the parse of the class takes it from. *)
Definition class_ro_validated (image : plcrash_async_macho_t) (mobj : plcrash_async_mobject_t)
    (data_ptr data_ro : Z) : Prop :=
  let '(err, cls_data_rw) :=
    plcrash_async_task_memcpy image data_ptr (sizeof_pl_objc2_class_data_rw (m64 image)) in
  err = PLCRASH_ESUCCESS
  /\ Z.land (pl_objc2_class_data_rw_flags cls_data_rw) RW_REALIZED <> 0
  /\ data_ro = swap (byteorder image) (m64 image) (pl_objc2_class_data_rw_data_ro (m64 image) cls_data_rw)
  /\ (if Z.land (pl_objc2_class_data_rw_flags cls_data_rw) RW_COPIED_RO =? 0
      then is_Some (plcrash_async_mobject_remap_address mobj data_ro 0
                      (sizeof_pl_objc2_class_data_ro (m64 image)))
      else fst (plcrash_async_task_memcpy image data_ro (sizeof_pl_objc2_class_data_ro (m64 image)))
           = PLCRASH_ESUCCESS).

(** Every answer of the class cache is such a pair. *)
Definition class_cache_sound (image : plcrash_async_macho_t) (mobj : plcrash_async_mobject_t)
    (c : plcrash_async_objc_cache_t) : Prop :=
  forall key, cache_lookup c key <> 0 -> class_ro_validated image mobj key (cache_lookup c key).

(** The mapped section and the memory of the target agree on read-only class
    data: where the bytes of a [class_ro] are inside the mapping and can also
    be copied from the target, they are the same bytes. *)
Definition section_coherent (image : plcrash_async_macho_t) (mobj : plcrash_async_mobject_t) : Prop :=
  forall address p q,
    plcrash_async_mobject_remap_address mobj address 0 (sizeof_pl_objc2_class_data_ro (m64 image))
    = Some p ->
    plcrash_async_task_memcpy image address (sizeof_pl_objc2_class_data_ro (m64 image))
    = (PLCRASH_ESUCCESS, q) ->
    forall o, 0 <= o < sizeof_pl_objc2_class_data_ro (m64 image) -> p o = q o.

(** A cache as the class walk of an image wants it: the arena in one of its
    two states, every answer validated, and the memory objects of
    [__objc_const] and [__objc_data] those of the walk. *)
Definition class_walk_ready (image : plcrash_async_macho_t) (const data : plcrash_async_mobject_t)
    (c : plcrash_async_objc_cache_t) : Prop :=
  cache_arena_ok c /\ class_cache_sound image const c
  /\ objcConstMobj c = const /\ objcDataMobj c = data.

(** Two caches that hold the same four memory objects. *)
Definition same_mobjects (c c' : plcrash_async_objc_cache_t) : Prop :=
  objcConstMobj c' = objcConstMobj c /\ classMobj c' = classMobj c
  /\ catMobj c' = catMobj c /\ objcDataMobj c' = objcDataMobj c.

(* ===================================================================== *)
(** * Concrete targets *)
(* ===================================================================== *)

(** Little-endian target memory given by regions; the images built on it are
    the inputs of the examples below. *)
Module Target.

Definition region : Type := Z * list Z.
Definition memory : Type := list region.

Definition le16 (x : Z) : list Z := [x mod 256; (x / 2 ^ 8) mod 256].
Definition le32 (x : Z) : list Z := le16 (x mod 2 ^ 16) ++ le16 ((x / 2 ^ 16) mod 2 ^ 16).
Definition le64 (x : Z) : list Z := le32 (x mod 2 ^ 32) ++ le32 ((x / 2 ^ 32) mod 2 ^ 32).
Definition words32 (l : list Z) : list Z := concat (map le32 l).
Definition words64 (l : list Z) : list Z := concat (map le64 l).

Fixpoint read_byte (mem : memory) (a : Z) : option Z :=
  match mem with
  | [] => None
  | (base, bs) :: rest =>
      if (base <=? a) && (a <? base + Z.of_nat (length bs))
      then bs !! Z.to_nat (a - base)
      else read_byte rest a
  end.

Definition readable (mem : memory) (a len : Z) : bool :=
  forallb (fun k => match read_byte mem (a + Z.of_nat k) with Some _ => true | None => false end)
    (seq 0 (Z.to_nat len)).

(** A cross-task copy that succeeds on mapped ranges and fails with [fault]
    elsewhere. *)
Definition memcpy (mem : memory) (fault : plcrash_error_t) (a len : Z) : plcrash_error_t * bytes :=
  if readable mem a len
  then (PLCRASH_ESUCCESS, fun off => default 0 (read_byte mem (a + off)))
  else (fault, fun _ => 0).

(** A string can be read where its first byte is mapped. *)
Definition string_init (mem : memory) (fault : plcrash_error_t) (a : Z) : plcrash_error_t :=
  if readable mem a 1 then PLCRASH_ESUCCESS else fault.

(** The mapping of [len] bytes of [mem] at [base]: a local copy of the bytes. *)
Definition section (mem : memory) (base len : Z) : plcrash_async_mobject_t :=
  let local := map (fun k => default 0 (read_byte mem (base + Z.of_nat k))) (seq 0 (Z.to_nat len)) in
  {| mobj_task_address := base; mobj_length := len;
     mobj_contents := fun off => nth (Z.to_nat off) local 0 |}.

Definition no_section : plcrash_async_mobject_t :=
  {| mobj_task_address := 0; mobj_length := 0; mobj_contents := fun _ => 0 |}.

Fixpoint map_section (table : list (string * string * plcrash_async_mobject_t))
    (segname sectname : string) : plcrash_error_t * plcrash_async_mobject_t :=
  match table with
  | [] => (PLCRASH_ENOTFOUND, no_section)
  | (seg, sect, mobj) :: rest =>
      if (String.eqb seg segname) && (String.eqb sect sectname)
      then (PLCRASH_ESUCCESS, mobj)
      else map_section rest segname sectname
  end.

Definition host : host_t := {| arm64 := false; vm_allocate := KERN_SUCCESS |}.

(** A cache as [plcrash_async_objc_cache_init] leaves it. *)
Definition fresh_cache : plcrash_async_objc_cache_t :=
  snd (plcrash_async_objc_cache_init
         {| gotObjC2Info := true; lastImage := 0;
            objcConstMobjInitialized := true; objcConstMobj := no_section;
            classMobjInitialized := true; classMobj := no_section;
            catMobjInitialized := true; catMobj := no_section;
            objcDataMobjInitialized := true; objcDataMobj := no_section;
            classCacheSize := 0; classCacheKeys := None; classCacheValues := None |}).

(** ** An ObjC1 image: class [Foo] with [-bar] at 0x1000 and [-baz] at
    0x2000 in a method-list array, and [+qux] at 0x3000 in the single list
    of its metaclass. *)
Definition foo_memory : memory :=
  [ (0x1000, words32 [7; 16; 0x5040; 0x2000]);                        (* module *)
    (0x2000, words32 [0; 0] ++ le16 1 ++ le16 0 ++ words32 [0x3000]); (* symtab, class pointer *)
    (0x3000, words32 [0x3100; 0; 0x5000; 0; 0x1; 40; 0; 0x4000; 0; 0]);    (* class Foo *)
    (0x3100, words32 [0x3100; 0; 0x5000; 0; 0x4002; 40; 0; 0x4200; 0; 0]); (* metaclass *)
    (0x4000, words32 [0x4100; 0xFFFFFFFF]);                           (* method-list array *)
    (0x4100, words32 [0; 2; 0x5010; 0; 0x1000; 0x5020; 0; 0x2000]);   (* -bar, -baz *)
    (0x4200, words32 [0; 1; 0x5030; 0; 0x3000]);                      (* +qux *)
    (0x5000, [70; 111; 111; 0]); (0x5010, [98; 97; 114; 0]);
    (0x5020, [98; 97; 122; 0]); (0x5030, [113; 117; 120; 0]); (0x5040, [0]) ].

Definition objc1_image (mem : memory) : plcrash_async_macho_t :=
  {| macho_address := 0x7000; m64 := false; byteorder := plcrash_async_byteorder_direct;
     plcrash_async_macho_map_section :=
       map_section [ (kObjCSegmentName, kObjCModuleInfoSectionName, section mem 0x1000 16) ];
     plcrash_async_task_memcpy := memcpy mem PLCRASH_ENOTFOUND;
     plcrash_async_macho_string_init := string_init mem PLCRASH_ENOTFOUND |}.

Definition foo_image : plcrash_async_macho_t := objc1_image foo_memory.

Definition foo_name : plcrash_async_macho_string_t := {| string_address := 0x5000 |}.
Definition foo_bar : found_method :=
  {| fm_is_meta := false; fm_class_name := foo_name;
     fm_method_name := {| string_address := 0x5010 |}; fm_imp := 0x1000 |}.
Definition foo_baz : found_method :=
  {| fm_is_meta := false; fm_class_name := foo_name;
     fm_method_name := {| string_address := 0x5020 |}; fm_imp := 0x2000 |}.
Definition foo_qux : found_method :=
  {| fm_is_meta := true; fm_class_name := foo_name;
     fm_method_name := {| string_address := 0x5030 |}; fm_imp := 0x3000 |}.

(** Three methods of other classes at the IMPs of the methods of [Foo]. *)
Definition other_methods : list found_method :=
  [ {| fm_is_meta := true; fm_class_name := {| string_address := 0x9000 |};
       fm_method_name := {| string_address := 0x9010 |}; fm_imp := 0x1000 |};
    {| fm_is_meta := true; fm_class_name := {| string_address := 0x9100 |};
       fm_method_name := {| string_address := 0x9020 |}; fm_imp := 0x2000 |};
    {| fm_is_meta := false; fm_class_name := {| string_address := 0x9200 |};
       fm_method_name := {| string_address := 0x9030 |}; fm_imp := 0x3000 |} ].

(** ** The same ObjC1 layout with one class [Nil] whose only method, in the
    single list of the class, is at IMP 0; its metaclass has no methods. *)
Definition nil_memory : memory :=
  [ (0x1000, words32 [7; 16; 0x5040; 0x2000]);
    (0x2000, words32 [0; 0] ++ le16 1 ++ le16 0 ++ words32 [0x3000]);
    (0x3000, words32 [0x3100; 0; 0x5000; 0; 0x4001; 40; 0; 0x4100; 0; 0]);
    (0x3100, words32 [0x3100; 0; 0x5000; 0; 0x4002; 40; 0; 0; 0; 0]);
    (0x4100, words32 [0; 1; 0x5010; 0; 0]);
    (0x5000, [78; 105; 108; 0]); (0x5010, [122; 0]); (0x5040, [0]) ].

Definition nil_image : plcrash_async_macho_t := objc1_image nil_memory.

(** ** An ObjC1 class record with [methods == 0] and [CLS_NO_METHOD_ARRAY]
    unset, in a target whose page at address 0 is not mapped. *)
Definition empty_class_memory : memory :=
  [ (0x3000, words32 [0x3100; 0; 0x5000; 0; 0x1; 40; 0; 0; 0; 0]);
    (0x5000, [70; 111; 111; 0]) ].

Definition empty_class_image : plcrash_async_macho_t := objc1_image empty_class_memory.

Definition empty_class : bytes := snd (memcpy empty_class_memory PLCRASH_ENOTFOUND 0x3000 40).

(** ** A 64-bit ObjC2 target. Class [Bar] (at 0x12050) is realized and has
    [-hello] at 0xdeadbe00; class [A] (at 0x12000) and its metaclass have
    [RW_REALIZED] unset. The class list of the image is a parameter. *)
Definition objc2_memory (classlist : list Z) : memory :=
  [ (0x10000, words32 [0; 8; 8; 0] ++ words64 [0; 0x20000; 0x10080; 0; 0; 0; 0]);  (* class_ro of Bar *)
    (0x10080, words32 [24; 1] ++ words64 [0x20010; 0; 0xdeadbe00]);               (* its method list *)
    (0x10100, words32 [1; 40; 40; 0] ++ words64 [0; 0x20000; 0; 0; 0; 0; 0]);     (* class_ro of its metaclass *)
    (0x11000, words64 classlist);                                                 (* __objc_classlist *)
    (0x11100, words64 [0x120A0]);                                                 (* __objc_catlist *)
    (0x12000, words64 [0x12028; 0; 0; 0; 0x30000]);                               (* class A *)
    (0x12028, words64 [0x12028; 0; 0; 0; 0x30020]);                               (* metaclass of A *)
    (0x12050, words64 [0x12078; 0; 0; 0; 0x30040]);                               (* class Bar *)
    (0x12078, words64 [0x12078; 0; 0; 0; 0x30060]);                               (* metaclass of Bar *)
    (0x120A0, words32 [0x20020; 0x12050; 0; 0; 0; 0]);                            (* a category *)
    (0x20000, [66; 97; 114; 0]); (0x20010, [104; 101; 108; 108; 111; 0]); (0x20020, [67; 0]);
    (0x30000, words32 [0; 0] ++ words64 [0x10180]);                               (* class_rw of A *)
    (0x30020, words32 [0; 0] ++ words64 [0x10180]);
    (0x30040, words32 [0x80000000; 0] ++ words64 [0x10000]);                      (* class_rw of Bar *)
    (0x30060, words32 [0x80000000; 0] ++ words64 [0x10100]) ].

(** The image over a target memory [task] whose sections were mapped when
    the memory was [mapped]. *)
Definition objc2_image_of (mapped task : memory) (classes : Z) : plcrash_async_macho_t :=
  {| macho_address := 0x7000; m64 := true; byteorder := plcrash_async_byteorder_direct;
     plcrash_async_macho_map_section :=
       map_section
         [ (kDataSegmentName, kObjCConstSectionName, section mapped 0x10000 0x200);
           (kDataSegmentName, kClassListSectionName, section mapped 0x11000 (8 * classes));
           (kDataSegmentName, kCategoryListSectionName, section mapped 0x11100 8);
           (kDataSegmentName, kObjCDataSectionName, section mapped 0x12000 0xB8) ];
     plcrash_async_task_memcpy := memcpy task PLCRASH_ENOTFOUND;
     plcrash_async_macho_string_init := string_init task PLCRASH_ENOTFOUND |}.

Definition objc2_image (classlist : list Z) : plcrash_async_macho_t :=
  objc2_image_of (objc2_memory classlist) (objc2_memory classlist) (Z.of_nat (length classlist)).

Definition bar_hello : found_method :=
  {| fm_is_meta := false; fm_class_name := {| string_address := 0x20000 |};
     fm_method_name := {| string_address := 0x20010 |}; fm_imp := 0xdeadbe00 |}.

(** ** The same target after the runtime has replaced the read-only data of
    the metaclass of [Bar] by a heap copy ([RW_COPIED_RO]) that the task
    keeps at 0x10100, inside the range of [__objc_const]: a cross-task copy
    reads the heap copy (no methods), the section mapped earlier still shows
    the old record, whose method list lies outside the section. *)
Definition copied_ro_task : memory :=
  (0x30060, words32 [0x88000000; 0] ++ words64 [0x10100]) :: objc2_memory [0x12050].

Definition copied_ro_mapped : memory :=
  (0x10100, words32 [1; 40; 40; 0] ++ words64 [0; 0x20000; 0x99990; 0; 0; 0; 0])
    :: objc2_memory [0x12050].

Definition copied_ro_image : plcrash_async_macho_t :=
  objc2_image_of copied_ro_mapped copied_ro_task 1.

(** ** A 32-bit ObjC2 target with one class and one category. In
    [__objc_data] the category record comes first and the class record last;
    neither the class nor its metaclass has methods. *)
Definition category_memory : memory :=
  [ (0x3000, words32 [0x20010; 0x302C; 0; 0; 0; 0]);      (* the category *)
    (0x3018, words32 [0x3018; 0; 0; 0; 0x6010]);          (* the metaclass *)
    (0x302C, words32 [0x3018; 0; 0; 0; 0x6000]);          (* the class *)
    (0x6000, words32 [0x80000000; 0; 0x10000]);
    (0x6010, words32 [0x80000000; 0; 0x10040]);
    (0x10000, words32 [0; 4; 4; 0; 0x20000; 0; 0; 0; 0; 0]);
    (0x10040, words32 [1; 20; 20; 0; 0x20000; 0; 0; 0; 0; 0]);
    (0x11000, words32 [0x302C]);                          (* __objc_classlist *)
    (0x11100, words32 [0x3000]);                          (* __objc_catlist *)
    (0x20000, [70; 111; 111; 0]); (0x20010, [67; 0]) ].

Definition category_image : plcrash_async_macho_t :=
  {| macho_address := 0x7000; m64 := false; byteorder := plcrash_async_byteorder_direct;
     plcrash_async_macho_map_section :=
       map_section
         [ (kDataSegmentName, kObjCConstSectionName, section category_memory 0x10000 0x100);
           (kDataSegmentName, kClassListSectionName, section category_memory 0x11000 4);
           (kDataSegmentName, kCategoryListSectionName, section category_memory 0x11100 4);
           (kDataSegmentName, kObjCDataSectionName, section category_memory 0x3000 64) ];
     plcrash_async_task_memcpy := memcpy category_memory PLCRASH_ENOTFOUND;
     plcrash_async_macho_string_init := string_init category_memory PLCRASH_ENOTFOUND |}.

(** The caches the two enumerations of a search of [copied_ro_image] leave. *)
Definition copied_ro_cache1 : option plcrash_async_objc_cache_t :=
  match enumerate host 8 copied_ro_image (Some fresh_cache) with
  | Some (_, _, cache) => cache
  | None => None
  end.

Definition copied_ro_cache2 : option plcrash_async_objc_cache_t :=
  match enumerate host 8 copied_ro_image copied_ro_cache1 with
  | Some (_, _, cache) => cache
  | None => None
  end.

(** The cache after one parse of the ObjC2 image that has the class [Bar]. *)
Definition latched_cache : plcrash_async_objc_cache_t :=
  match enumerate host 8 (objc2_image [0x12050]) (Some fresh_cache) with
  | Some (_, _, Some cache) => cache
  | _ => fresh_cache
  end.

(** The class of [empty_class_memory] again, with [CLS_NO_METHOD_ARRAY] set. *)
Definition empty_class_single : bytes :=
  snd (memcpy [ (0x3000, words32 [0x3100; 0; 0x5000; 0; 0x4001; 40; 0; 0; 0; 0]) ]
         PLCRASH_ENOTFOUND 0x3000 40).

(** The cache that holds the mapped sections of [category_image], and the
    local pointers to its class list and to its category list. *)
Definition category_cache : plcrash_async_objc_cache_t :=
  snd (map_sections category_image fresh_cache).

Definition category_classPtrs : option bytes :=
  plcrash_async_mobject_remap_address (classMobj category_cache)
    (mobj_task_address (classMobj category_cache)) 0 (mobj_length (classMobj category_cache)).

Definition category_catPtrs : option bytes :=
  plcrash_async_mobject_remap_address (catMobj category_cache)
    (mobj_task_address (catMobj category_cache)) 0 (mobj_length (catMobj category_cache)).

(** ** An image that has [__objc_const] and [__objc_classlist] but no
    [__objc_catlist]. *)
Definition no_catlist_image : plcrash_async_macho_t :=
  {| macho_address := 0x7100; m64 := true; byteorder := plcrash_async_byteorder_direct;
     plcrash_async_macho_map_section :=
       map_section
         [ (kDataSegmentName, kObjCConstSectionName, section (objc2_memory [0x12050]) 0x10000 0x200);
           (kDataSegmentName, kClassListSectionName, section (objc2_memory [0x12050]) 0x11000 8);
           (kDataSegmentName, kObjCDataSectionName, section (objc2_memory [0x12050]) 0x12000 0xB8) ];
     plcrash_async_task_memcpy := memcpy (objc2_memory [0x12050]) PLCRASH_ENOTFOUND;
     plcrash_async_macho_string_init := string_init (objc2_memory [0x12050]) PLCRASH_ENOTFOUND |}.

(** ** An image without Objective-C sections of either kind. *)
Definition plain_image : plcrash_async_macho_t :=
  {| macho_address := 0x7200; m64 := true; byteorder := plcrash_async_byteorder_direct;
     plcrash_async_macho_map_section := map_section [];
     plcrash_async_task_memcpy := memcpy [] PLCRASH_ENOTFOUND;
     plcrash_async_macho_string_init := string_init [] PLCRASH_ENOTFOUND |}.

(** ** The ObjC1 image of [Foo] again, as another image object. *)
Definition foo_image_elsewhere : plcrash_async_macho_t :=
  {| macho_address := 0x7300; m64 := false; byteorder := plcrash_async_byteorder_direct;
     plcrash_async_macho_map_section := plcrash_async_macho_map_section foo_image;
     plcrash_async_task_memcpy := plcrash_async_task_memcpy foo_image;
     plcrash_async_macho_string_init := plcrash_async_macho_string_init foo_image |}.

(** The class record of [Foo] and the record of its metaclass. *)
Definition foo_class : bytes := snd (memcpy foo_memory PLCRASH_ENOTFOUND 0x3000 40).
Definition foo_metaclass : bytes := snd (memcpy foo_memory PLCRASH_ENOTFOUND 0x3100 40).

(** The class record of [Bar], and a cross-task copy that always fails. *)
Definition bar_class : bytes := snd (memcpy (objc2_memory [0x12050]) PLCRASH_ENOTFOUND 0x12050 40).
Definition no_copy : Z -> Z -> plcrash_error_t * bytes := fun _ _ => (PLCRASH_EUNKNOWN, fun _ => 0).

(** ** The ObjC2 target of [Bar] in an image that also has a
    [__OBJC,__module_info] section, of one module without a symtab. *)
Definition hybrid_memory : memory := (0x1000, words32 [7; 16; 0; 0]) :: objc2_memory [0x12050].

Definition hybrid_image : plcrash_async_macho_t :=
  {| macho_address := 0x7400; m64 := true; byteorder := plcrash_async_byteorder_direct;
     plcrash_async_macho_map_section :=
       map_section
         [ (kObjCSegmentName, kObjCModuleInfoSectionName, section hybrid_memory 0x1000 16);
           (kDataSegmentName, kObjCConstSectionName, section hybrid_memory 0x10000 0x200);
           (kDataSegmentName, kClassListSectionName, section hybrid_memory 0x11000 8);
           (kDataSegmentName, kCategoryListSectionName, section hybrid_memory 0x11100 8);
           (kDataSegmentName, kObjCDataSectionName, section hybrid_memory 0x12000 0xB8) ];
     plcrash_async_task_memcpy := memcpy hybrid_memory PLCRASH_ENOTFOUND;
     plcrash_async_macho_string_init := string_init hybrid_memory PLCRASH_ENOTFOUND |}.



(** A host whose kernel refuses the arena of the class cache. *)
Definition host_without_arena : host_t := {| arm64 := false; vm_allocate := 3 |}.

End Target.

(* ===================================================================== *)
(** * The class cache *)
(* ===================================================================== *)

Lemma bucket_of_range (k : Z) : 0 <= bucket_of k < 1024.
Proof. unfold bucket_of. apply Z.mod_pos_bound. lia. Qed.

Lemma array_get_set_eq (l : list Z) (i v : Z) :
  (Z.to_nat i < length l)%nat -> array_get (array_set (Some l) i v) i = v.
Proof.
  intros Hi. unfold array_get, array_set.
  rewrite list_lookup_insert_eq by exact Hi. reflexivity.
Qed.

Lemma array_get_set_ne (a : option (list Z)) (i j v : Z) :
  0 <= i -> 0 <= j -> i <> j -> array_get (array_set a i v) j = array_get a j.
Proof.
  intros Hi Hj Hne. destruct a as [l|]; [|reflexivity].
  unfold array_get, array_set.
  rewrite list_lookup_insert_ne by lia. reflexivity.
Qed.

Lemma cache_index_bucket_of (c : plcrash_async_objc_cache_t) (k : Z) :
  classCacheSize c = 1024 -> cache_index c k = bucket_of k.
Proof. intros Hs. unfold cache_index, bucket_of. rewrite Hs. reflexivity. Qed.

Section AllocatedArena.
Variable c : plcrash_async_objc_cache_t.
Variables ks vs : list Z.
Hypothesis Hkeys : classCacheKeys c = Some ks.
Hypothesis Hvalues : classCacheValues c = Some vs.
Hypothesis Hsize : classCacheSize c = 1024.
Hypothesis Hklen : length ks = 1024%nat.
Hypothesis Hvlen : length vs = 1024%nat.

Lemma cache_set_bucket_empty (k v : Z) :
  fst (bucket c (bucket_of k)) = 0 ->
  bucket (cache_set_bucket c k v) (bucket_of k) = (k, v)
  /\ (forall j, 0 <= j -> j <> bucket_of k -> bucket (cache_set_bucket c k v) j = bucket c j)
  /\ cache_arena_ok (cache_set_bucket c k v)
  /\ classCacheKeys (cache_set_bucket c k v) <> None.
Proof using Hkeys Hvalues Hsize Hklen Hvlen.
  intros Hempty. pose proof (bucket_of_range k) as Hr.
  unfold cache_set_bucket. rewrite (cache_index_bucket_of c k Hsize).
  unfold bucket in Hempty. simpl in Hempty. rewrite Hempty. simpl.
  unfold bucket. simpl. rewrite Hkeys, Hvalues.
  split; [|split; [|split]].
  - f_equal; apply array_get_set_eq; lia.
  - intros j Hj Hne. f_equal; apply array_get_set_ne; lia.
  - unfold cache_arena_ok. simpl. rewrite !length_insert. auto.
  - discriminate.
Qed.

Lemma cache_set_bucket_occupied (k v : Z) :
  fst (bucket c (bucket_of k)) <> 0 -> cache_set_bucket c k v = c.
Proof using Hsize.
  intros Hocc. unfold cache_set_bucket. rewrite (cache_index_bucket_of c k Hsize).
  unfold bucket in Hocc. simpl in Hocc.
  destruct (Z.eqb_spec (array_get (classCacheKeys c) (bucket_of k)) 0); [contradiction|reflexivity].
Qed.

Lemma cache_set_allocated (host : host_t) (k v : Z) :
  cache_set host c k v = cache_set_bucket c k v.
Proof using Hkeys. unfold cache_set. rewrite Hkeys. reflexivity. Qed.

Lemma cache_lookup_bucket (k : Z) :
  cache_lookup c k
  = if fst (bucket c (bucket_of k)) =? k then snd (bucket c (bucket_of k)) else 0.
Proof using Hsize.
  unfold cache_lookup. rewrite (cache_index_bucket_of c k Hsize), Hsize. reflexivity.
Qed.
End AllocatedArena.

Lemma cache_arena_allocated (c : plcrash_async_objc_cache_t) :
  cache_arena_ok c -> classCacheKeys c <> None ->
  exists ks vs, classCacheKeys c = Some ks /\ classCacheValues c = Some vs
                /\ classCacheSize c = 1024 /\ length ks = 1024%nat /\ length vs = 1024%nat.
Proof.
  unfold cache_arena_ok. intros Hok Hne.
  destruct (classCacheKeys c) as [ks|]; [|congruence].
  destruct (classCacheValues c) as [vs|]; [|contradiction].
  exists ks, vs. tauto.
Qed.

Lemma cache_set_all_cons (host : host_t) (k v : Z) (rest : list (Z * Z))
    (c : plcrash_async_objc_cache_t) :
  cache_set_all host ((k, v) :: rest) c = cache_set_all host rest (cache_set host c k v).
Proof. reflexivity. Qed.

Lemma first_stored_cons (i k v : Z) (rest : list (Z * Z)) :
  first_stored i ((k, v) :: rest) = if bucket_of k =? i then Some (k, v) else first_stored i rest.
Proof. reflexivity. Qed.

(** After any sequence of stores with nonzero keys, a bucket that was occupied
    keeps its entry and a bucket that was empty holds the first pair stored
    into it. *)
Lemma cache_set_all_bucket (host : host_t) (stores : list (Z * Z)) :
  Forall (fun kv => fst kv <> 0) stores ->
  forall c i,
    cache_arena_ok c -> classCacheKeys c <> None -> 0 <= i ->
    bucket (cache_set_all host stores c) i
    = if fst (bucket c i) =? 0
      then match first_stored i stores with Some kv => kv | None => bucket c i end
      else bucket c i.
Proof.
  induction 1 as [|[k v] rest Hk _ IH]; intros c i Hok Hal Hi.
  - unfold cache_set_all, first_stored. simpl. destruct (_ =? 0); reflexivity.
  - simpl in Hk. rewrite cache_set_all_cons, first_stored_cons.
    destruct (cache_arena_allocated c Hok Hal) as (ks & vs & Hks & Hvs & Hs & Hkl & Hvl).
    rewrite (cache_set_allocated c ks Hks).
    destruct (Z.eqb_spec (fst (bucket c (bucket_of k))) 0) as [Hempty|Hocc].
    + destruct (cache_set_bucket_empty c ks vs Hks Hvs Hs Hkl Hvl k v Hempty)
        as (Hnew & Hother & Hok' & Hal').
      rewrite (IH _ i Hok' Hal' Hi).
      destruct (Z.eqb_spec (bucket_of k) i) as [Heq|Hne].
      * subst i. rewrite Hnew, Hempty. simpl.
        destruct (Z.eqb_spec k 0); [contradiction|reflexivity].
      * rewrite (Hother i Hi (not_eq_sym Hne)).
        destruct (fst (bucket c i) =? 0); reflexivity.
    + rewrite (cache_set_bucket_occupied c Hs k v Hocc).
      rewrite (IH _ i Hok Hal Hi).
      destruct (Z.eqb_spec (bucket_of k) i) as [Heq|Hne]; [subst i|reflexivity].
      destruct (Z.eqb_spec (fst (bucket c (bucket_of k))) 0); [contradiction|reflexivity].
Qed.

Lemma cache_set_all_arena (host : host_t) (stores : list (Z * Z)) :
  forall c, cache_arena_ok c -> classCacheKeys c <> None ->
    cache_arena_ok (cache_set_all host stores c) /\ classCacheKeys (cache_set_all host stores c) <> None.
Proof.
  induction stores as [|[k v] rest IH]; intros c Hok Hal; [split; assumption|].
  rewrite cache_set_all_cons.
  destruct (cache_arena_allocated c Hok Hal) as (ks & vs & Hks & Hvs & Hs & Hkl & Hvl).
  rewrite (cache_set_allocated c ks Hks).
  destruct (Z.eq_dec (fst (bucket c (bucket_of k))) 0) as [Hempty|Hocc].
  - destruct (cache_set_bucket_empty c ks vs Hks Hvs Hs Hkl Hvl k v Hempty) as (_ & _ & Hok' & Hal').
    apply IH; assumption.
  - rewrite (cache_set_bucket_occupied c Hs k v Hocc). apply IH; assumption.
Qed.

(** The arena as [cache_set] allocates it: 1024 zeroed keys and values. *)
Lemma cache_set_unallocated (host : host_t) (c0 : plcrash_async_objc_cache_t) (k v : Z) :
  vm_allocate host = KERN_SUCCESS -> classCacheKeys c0 = None ->
  exists c, cache_arena_ok c /\ classCacheKeys c <> None
            /\ (forall i, bucket c i = (0, 0))
            /\ forall stores, cache_set_all host ((k, v) :: stores) c0 = cache_set_all host ((k, v) :: stores) c.
Proof.
  intros Hvm Hnone.
  exists (set_classCacheValues (Some (replicate 1024 0))
            (set_classCacheKeys (Some (replicate 1024 0)) (set_classCacheSize 1024 c0))).
  split; [|split; [|split]].
  - unfold cache_arena_ok. cbn [classCacheKeys classCacheValues classCacheSize
      set_classCacheValues set_classCacheKeys set_classCacheSize].
    rewrite !length_replicate. auto.
  - discriminate.
  - intros i. unfold bucket, array_get.
    cbn [classCacheKeys classCacheValues set_classCacheValues set_classCacheKeys set_classCacheSize].
    destruct (replicate 1024 0 !! Z.to_nat i) as [x|] eqn:Hx; [|reflexivity].
    apply lookup_replicate in Hx as [-> _]. reflexivity.
  - intros stores. rewrite !cache_set_all_cons. f_equal.
    unfold cache_set at 1. rewrite Hnone, Hvm. reflexivity.
Qed.

Lemma cache_set_refused (host : host_t) (c : plcrash_async_objc_cache_t) (k v : Z) :
  vm_allocate host <> KERN_SUCCESS -> classCacheKeys c = None ->
  cache_set host c k v = set_classCacheSize 0 (set_classCacheSize 1024 c).
Proof.
  intros Hvm Hnone. unfold cache_set. rewrite Hnone.
  destruct (Z.eqb_spec (vm_allocate host) KERN_SUCCESS); [contradiction|reflexivity].
Qed.

Lemma cache_set_each_cons (host : host_t) (k v : Z) (rest : list (host_t * (Z * Z)))
    (c : plcrash_async_objc_cache_t) :
  cache_set_each ((host, (k, v)) :: rest) c = cache_set_each rest (cache_set host c k v).
Proof. reflexivity. Qed.

(** Once the arena exists the kernel is not asked again: the stores are those
    of any one host. *)
Lemma cache_set_each_allocated (host : host_t) (stores : list (host_t * (Z * Z))) :
  forall c, cache_arena_ok c -> classCacheKeys c <> None ->
    cache_set_each stores c = cache_set_all host (map snd stores) c.
Proof.
  induction stores as [|[h [k v]] rest IH]; intros c Hok Hal; [reflexivity|].
  rewrite cache_set_each_cons. cbn [map snd]. rewrite cache_set_all_cons.
  destruct (cache_arena_allocated c Hok Hal) as (ks & vs & Hks & _).
  rewrite (cache_set_allocated c ks Hks h), <- (cache_set_allocated c ks Hks host).
  destruct (cache_set_all_arena host [(k, v)] c Hok Hal) as [Hok' Hal'].
  change (cache_set_all host [(k, v)] c) with (cache_set host c k v) in Hok', Hal'.
  apply IH; assumption.
Qed.

(** The lookup after a sequence of stores with nonzero keys into a zeroed
    arena. *)
Lemma cache_lookup_after_stores (host : host_t) (stores : list (Z * Z))
    (c : plcrash_async_objc_cache_t) (key : Z) :
  Forall (fun kv => fst kv <> 0) stores ->
  cache_arena_ok c -> classCacheKeys c <> None -> (forall i, bucket c i = (0, 0)) ->
  cache_lookup (cache_set_all host stores c) key
  = match first_stored (bucket_of key) stores with
    | Some (k0, v0) => if k0 =? key then v0 else 0
    | None => 0
    end.
Proof.
  intros Hkeys Hok Hal Hzero.
  destruct (cache_set_all_arena host stores c Hok Hal) as (Hok' & Hal').
  destruct (cache_arena_allocated _ Hok' Hal') as (ks & vs & _ & _ & Hs & _).
  rewrite (cache_lookup_bucket _ Hs).
  pose proof (bucket_of_range key) as Hr.
  rewrite (cache_set_all_bucket host _ Hkeys c (bucket_of key) Hok Hal (proj1 Hr)).
  rewrite Hzero. cbn [fst Z.eqb].
  destruct (first_stored (bucket_of key) stores) as [[k0 v0]|]; [reflexivity|].
  cbn [fst snd]. destruct (0 =? key); reflexivity.
Qed.

(** C5 (amended). The Class-RO cache. On an allocated arena a store of
    [(k, v)] goes to the bucket [(k >> 2) mod 1024]; it writes that bucket, and
    nothing else, when the key of the bucket is 0, and changes nothing when the
    bucket is occupied; a lookup of [k] gives the value of the bucket of [k]
    when the key of the bucket is [k], else 0. On a cache without arena a
    store asks the kernel first: when the kernel refuses, nothing is stored,
    the cache stays without arena and every lookup gives 0; when it grants,
    the store is made into a zeroed arena. Hence, after any sequence of stores
    with nonzero keys into a cache without arena (its size 0, as
    [plcrash_async_objc_cache_init] leaves it), whatever the kernel answers at
    each store, the lookup of any key [k] gives 0 or the value of the first
    store into the bucket of [k] among the stores from the first granted one
    on: that value when the key of that store is [k], and 0 otherwise. *)
Theorem class_cache_first_writer_wins :
  (forall (host : host_t) (c : plcrash_async_objc_cache_t) (k v : Z),
      cache_arena_ok c -> classCacheKeys c <> None ->
      cache_index c k = bucket_of k
      /\ (fst (bucket c (bucket_of k)) = 0 ->
          bucket (cache_set host c k v) (bucket_of k) = (k, v)
          /\ forall j, 0 <= j -> j <> bucket_of k -> bucket (cache_set host c k v) j = bucket c j)
      /\ (fst (bucket c (bucket_of k)) <> 0 -> cache_set host c k v = c)
      /\ cache_lookup c k
         = (if fst (bucket c (bucket_of k)) =? k then snd (bucket c (bucket_of k)) else 0))
  /\ (forall (host : host_t) (c : plcrash_async_objc_cache_t) (k v : Z),
        classCacheKeys c = None ->
        (vm_allocate host <> KERN_SUCCESS ->
         classCacheKeys (cache_set host c k v) = None
         /\ cache_arena_ok (cache_set host c k v)
         /\ forall key, cache_lookup (cache_set host c k v) key = 0)
        /\ (vm_allocate host = KERN_SUCCESS ->
            classCacheKeys (cache_set host c k v) <> None
            /\ cache_arena_ok (cache_set host c k v)
            /\ bucket (cache_set host c k v) (bucket_of k) = (k, v)
            /\ forall j, 0 <= j -> j <> bucket_of k -> bucket (cache_set host c k v) j = (0, 0)))
  /\ (forall (stores : list (host_t * (Z * Z))) (c0 : plcrash_async_objc_cache_t) (k : Z),
        cache_arena_ok c0 -> classCacheKeys c0 = None ->
        Forall (fun s => fst (snd s) <> 0) stores ->
        cache_lookup (cache_set_each stores c0) k
        = match first_stored (bucket_of k) (accepted_stores stores) with
          | Some (k0, v0) => if k0 =? k then v0 else 0
          | None => 0
          end).
Proof.
  assert (Hrefused : forall host c k v,
             classCacheKeys c = None -> vm_allocate host <> KERN_SUCCESS ->
             classCacheKeys (cache_set host c k v) = None
             /\ cache_arena_ok (cache_set host c k v)
             /\ forall key, cache_lookup (cache_set host c k v) key = 0).
  { intros host c k v Hnone Hvm. rewrite (cache_set_refused host c k v Hvm Hnone).
    split; [exact Hnone|]. split.
    - unfold cache_arena_ok. cbn [classCacheKeys classCacheSize set_classCacheSize].
      rewrite Hnone. reflexivity.
    - intros key. reflexivity. }
  assert (Hgranted : forall host c k v,
             classCacheKeys c = None -> vm_allocate host = KERN_SUCCESS ->
             exists c1, cache_arena_ok c1 /\ classCacheKeys c1 <> None
                        /\ (forall i, bucket c1 i = (0, 0))
                        /\ cache_set host c k v = cache_set host c1 k v).
  { intros host c k v Hnone Hvm.
    destruct (cache_set_unallocated host c k v Hvm Hnone) as (c1 & Hok & Hal & Hzero & Hrun).
    exists c1. split; [exact Hok|]. split; [exact Hal|]. split; [exact Hzero|].
    exact (Hrun []). }
  split; [|split].
  - intros host c k v Hok Hal.
    destruct (cache_arena_allocated c Hok Hal) as (ks & vs & Hks & Hvs & Hs & Hkl & Hvl).
    split; [exact (cache_index_bucket_of c k Hs)|].
    rewrite (cache_set_allocated c ks Hks).
    split; [|split].
    + intros Hempty.
      destruct (cache_set_bucket_empty c ks vs Hks Hvs Hs Hkl Hvl k v Hempty) as (Hnew & Hother & _).
      split; assumption.
    + apply cache_set_bucket_occupied; assumption.
    + apply cache_lookup_bucket; assumption.
  - intros host c k v Hnone. split.
    + intros Hvm. apply Hrefused; assumption.
    + intros Hvm.
      destruct (Hgranted host c k v Hnone Hvm) as (c1 & Hok & Hal & Hzero & ->).
      destruct (cache_arena_allocated c1 Hok Hal) as (ks & vs & Hks & Hvs & Hs & Hkl & Hvl).
      rewrite (cache_set_allocated c1 ks Hks).
      assert (Hempty : fst (bucket c1 (bucket_of k)) = 0) by (rewrite Hzero; reflexivity).
      destruct (cache_set_bucket_empty c1 ks vs Hks Hvs Hs Hkl Hvl k v Hempty)
        as (Hnew & Hother & Hok' & Hal').
      split; [exact Hal'|]. split; [exact Hok'|]. split; [exact Hnew|].
      intros j Hj Hne. rewrite (Hother j Hj Hne). apply Hzero.
  - intros stores.
    induction stores as [|[host [k1 v1]] rest IH]; intros c0 k Hok Hnone Hkeys.
    + cbn [cache_set_each fold_left accepted_stores first_stored find].
      unfold cache_lookup. unfold cache_arena_ok in Hok. rewrite Hnone in Hok. rewrite Hok.
      reflexivity.
    + rewrite cache_set_each_cons. cbn [accepted_stores].
      apply Forall_cons in Hkeys as [Hk1 Hkeys]. cbn [fst snd] in Hk1.
      destruct (Z.eqb_spec (vm_allocate host) KERN_SUCCESS) as [Hvm|Hvm].
      * destruct (Hgranted host c0 k1 v1 Hnone Hvm) as (c1 & Hok1 & Hal1 & Hzero & ->).
        destruct (cache_set_all_arena host [(k1, v1)] c1 Hok1 Hal1) as [Hok' Hal'].
        change (cache_set_all host [(k1, v1)] c1) with (cache_set host c1 k1 v1) in Hok', Hal'.
        rewrite (cache_set_each_allocated host rest _ Hok' Hal').
        change (cache_set_all host (map snd rest) (cache_set host c1 k1 v1))
          with (cache_set_all host ((k1, v1) :: map snd rest) c1).
        apply cache_lookup_after_stores; try assumption.
        constructor; [exact Hk1|].
        apply Forall_map. exact Hkeys.
      * destruct (Hrefused host c0 k1 v1 Hnone Hvm) as (Hnone' & Hok' & _).
        apply IH; assumption.
Qed.

(** C5, two instances. Two stores that share bucket 16, the arena granted at
    the first: the first one stays. The same stores, the arena refused at the
    first and granted at the second: the second one is the first to reach the
    arena, and it stays. *)
Lemma class_cache_first_writer_wins_witness :
  (cache_lookup
     (cache_set_each [(Target.host, (0x30040, 0x10000)); (Target.host, (0x31040, 0x999))]
        Target.fresh_cache) 0x30040 = 0x10000
   /\ cache_lookup
        (cache_set_each [(Target.host, (0x30040, 0x10000)); (Target.host, (0x31040, 0x999))]
           Target.fresh_cache) 0x31040 = 0)
  /\ (cache_lookup
        (cache_set_each
           [(Target.host_without_arena, (0x30040, 0x10000)); (Target.host, (0x31040, 0x999))]
           Target.fresh_cache) 0x30040 = 0
      /\ cache_lookup
           (cache_set_each
              [(Target.host_without_arena, (0x30040, 0x10000)); (Target.host, (0x31040, 0x999))]
              Target.fresh_cache) 0x31040 = 0x999).
Proof.
  assert (Hok : cache_arena_ok Target.fresh_cache) by reflexivity.
  assert (Hnone : classCacheKeys Target.fresh_cache = None) by reflexivity.
  assert (Hkeys : forall h1 h2 : host_t,
             Forall (fun s : host_t * (Z * Z) => fst (snd s) <> 0)
               [(h1, (0x30040, 0x10000)); (h2, (0x31040, 0x999))])
    by (intros h1 h2; repeat constructor; cbn; lia).
  split; [split|split];
    rewrite (proj2 (proj2 class_cache_first_writer_wins) _ Target.fresh_cache _ Hok Hnone
               (Hkeys _ _));
    reflexivity.
Defined.

(** C5 as stated fails for the key 0, which the table also uses to mark an
    empty bucket: after [store(0, 5)] and [store(0, 7)] the lookup of the
    stored key 0 gives 7, neither the first-stored value 5 nor 0. *)
Lemma class_cache_key_zero_overwritten :
  ~ lookup_first_stored_or_zero Target.host Target.fresh_cache [(0, 5); (0, 7)] 0.
Proof.
  unfold lookup_first_stored_or_zero. vm_compute.
  intros [H|(k0 & v0 & Hfirst & H)]; [discriminate H|].
  injection Hfirst as <- <-. discriminate H.
Qed.

(* ===================================================================== *)
(** * The section map cache *)
(* ===================================================================== *)

(** What [free_mapped_sections] touches and what it leaves. *)
Lemma free_mapped_sections_spec (c : plcrash_async_objc_cache_t) :
  free_mapped_sections c
  = {| gotObjC2Info := gotObjC2Info c; lastImage := lastImage c;
       objcConstMobjInitialized := false; objcConstMobj := objcConstMobj c;
       classMobjInitialized := false; classMobj := classMobj c;
       catMobjInitialized := false; catMobj := catMobj c;
       objcDataMobjInitialized := false; objcDataMobj := objcDataMobj c;
       classCacheSize := classCacheSize c; classCacheKeys := classCacheKeys c;
       classCacheValues := classCacheValues c |}.
Proof.
  destruct c as [g l [|] m1 [|] m2 [|] m3 [|] m4 sz ks vs]; reflexivity.
Qed.

(** [map_sections] leaves the format latch and the class cache alone. *)
Lemma map_sections_frame (image : plcrash_async_macho_t) (c : plcrash_async_objc_cache_t) :
  gotObjC2Info (snd (map_sections image c)) = gotObjC2Info c
  /\ classCacheSize (snd (map_sections image c)) = classCacheSize c
  /\ classCacheKeys (snd (map_sections image c)) = classCacheKeys c
  /\ classCacheValues (snd (map_sections image c)) = classCacheValues c.
Proof.
  unfold map_sections.
  destruct (macho_address image =? lastImage c); [auto|].
  rewrite free_mapped_sections_spec.
  repeat (destruct (plcrash_async_macho_map_section image _ _) as [? ?];
          destruct (decide (_ <> PLCRASH_ESUCCESS)); [simpl; auto|]).
  simpl; auto.
Qed.

(** C4. [map_sections] returns success at once, the cache untouched, when the
    image is the one of [lastImage]. Otherwise the four sections are mapped in
    order up to the first failure: the status is that failure (success when
    there is none), [lastImage] is the image when all four mappings succeeded
    and null otherwise, and exactly the slots mapped before the failure are
    initialized, holding the mappings they were given. *)
Theorem map_sections_last_image (image : plcrash_async_macho_t) (context : plcrash_async_objc_cache_t) :
  (macho_address image = lastImage context ->
   map_sections image context = (PLCRASH_ESUCCESS, context))
  /\ (macho_address image <> lastImage context ->
      let n := mapped_before_failure (mapping_statuses image) in
      let context' := snd (map_sections image context) in
      fst (map_sections image context) = nth n (mapping_statuses image) PLCRASH_ESUCCESS
      /\ lastImage context' = (if (n =? 4)%nat then macho_address image else 0)
      /\ objcConstMobjInitialized context' = (1 <=? n)%nat
      /\ classMobjInitialized context' = (2 <=? n)%nat
      /\ catMobjInitialized context' = (3 <=? n)%nat
      /\ objcDataMobjInitialized context' = (4 <=? n)%nat
      /\ ((1 <= n)%nat -> objcConstMobj context'
            = snd (plcrash_async_macho_map_section image kDataSegmentName kObjCConstSectionName))
      /\ ((2 <= n)%nat -> classMobj context'
            = snd (plcrash_async_macho_map_section image kDataSegmentName kClassListSectionName))
      /\ ((3 <= n)%nat -> catMobj context'
            = snd (plcrash_async_macho_map_section image kDataSegmentName kCategoryListSectionName))
      /\ ((4 <= n)%nat -> objcDataMobj context'
            = snd (plcrash_async_macho_map_section image kDataSegmentName kObjCDataSectionName))).
Proof.
  split.
  - intros Hsame. unfold map_sections.
    rewrite (proj2 (Z.eqb_eq _ _) Hsame). reflexivity.
  - intros Hother. unfold map_sections, mapping_statuses.
    rewrite (proj2 (Z.eqb_neq _ _) Hother).
    rewrite free_mapped_sections_spec.
    destruct (plcrash_async_macho_map_section image kDataSegmentName kObjCConstSectionName)
      as [e1 m1].
    destruct (decide (e1 <> PLCRASH_ESUCCESS)) as [H1|H1];
      [destruct e1; try congruence; simpl; repeat split; intros; lia|].
    apply dec_stable in H1. subst e1.
    destruct (plcrash_async_macho_map_section image kDataSegmentName kClassListSectionName)
      as [e2 m2].
    destruct (decide (e2 <> PLCRASH_ESUCCESS)) as [H2|H2];
      [destruct e2; try congruence; simpl; repeat split; intros; solve [reflexivity|lia]|].
    apply dec_stable in H2. subst e2.
    destruct (plcrash_async_macho_map_section image kDataSegmentName kCategoryListSectionName)
      as [e3 m3].
    destruct (decide (e3 <> PLCRASH_ESUCCESS)) as [H3|H3];
      [destruct e3; try congruence; simpl; repeat split; intros; solve [reflexivity|lia]|].
    apply dec_stable in H3. subst e3.
    destruct (plcrash_async_macho_map_section image kDataSegmentName kObjCDataSectionName)
      as [e4 m4].
    destruct (decide (e4 <> PLCRASH_ESUCCESS)) as [H4|H4];
      [destruct e4; try congruence; simpl; repeat split; intros; solve [reflexivity|lia]|].
    apply dec_stable in H4. subst e4.
    simpl. repeat split; intros; reflexivity.
Qed.

(** C4, two instances: an image whose third mapping fails, on a fresh cache,
    and the image the cache already holds. *)
Lemma map_sections_last_image_witness :
  (let context' := snd (map_sections Target.no_catlist_image Target.fresh_cache) in
   fst (map_sections Target.no_catlist_image Target.fresh_cache) = PLCRASH_ENOTFOUND
   /\ lastImage context' = 0
   /\ objcConstMobjInitialized context' = true
   /\ classMobjInitialized context' = true
   /\ catMobjInitialized context' = false
   /\ objcDataMobjInitialized context' = false)
  /\ map_sections Target.no_catlist_image (set_lastImage 0x7100 Target.fresh_cache)
     = (PLCRASH_ESUCCESS, set_lastImage 0x7100 Target.fresh_cache).
Proof.
  split.
  - assert (Hother : macho_address Target.no_catlist_image <> lastImage Target.fresh_cache)
      by (simpl; lia).
    destruct (proj2 (map_sections_last_image Target.no_catlist_image Target.fresh_cache) Hother)
      as (He & Hl & H1 & H2 & H3 & H4 & _).
    cbv zeta. rewrite He, Hl, H1, H2, H3, H4.
    repeat split; reflexivity.
  - apply (proj1 (map_sections_last_image Target.no_catlist_image
                    (set_lastImage 0x7100 Target.fresh_cache))).
    reflexivity.
Defined.

(* ===================================================================== *)
(** * The walkers do not look at what the callback does *)
(* ===================================================================== *)

(** The walkers hand every method to the callback and never read the context
    back: run with two callbacks that keep a relation [R] between their
    contexts, a walker returns the same status, leaves the same cache, and
    leaves contexts related by [R]. *)

Lemma bounded_rel_bind {A1 A2 B1 B2 : Type} (P : A1 -> A2 -> Prop) (Q : B1 -> B2 -> Prop)
    (m1 : option A1) (m2 : option A2) (k1 : A1 -> option B1) (k2 : A2 -> option B2) :
  bounded_rel P m1 m2 ->
  (forall a1 a2, P a1 a2 -> bounded_rel Q (k1 a1) (k2 a2)) ->
  bounded_rel Q (m1 ≫= k1) (m2 ≫= k2).
Proof.
  intros Hm Hk. destruct m1 as [a1|], m2 as [a2|]; simpl in *; try contradiction; auto.
Qed.

Section Parametricity.
Context {Ctx1 Ctx2 : Type}.
Variable R : Ctx1 -> Ctx2 -> Prop.
Variable cb1 : plcrash_async_objc_found_method_cb Ctx1.
Variable cb2 : plcrash_async_objc_found_method_cb Ctx2.
Hypothesis Hcb :
  forall b cn mn imp s1 s2, R s1 s2 -> R (cb1 b cn mn imp s1) (cb2 b cn mn imp s2).
Variable host : host_t.
Variable image : plcrash_async_macho_t.

(** Two results known to be related: name their parts and identify the statuses. *)
Ltac related H :=
  let e1 := fresh "e" in let s1 := fresh "s" in
  let e2 := fresh "e" in let s2 := fresh "s" in
  let He := fresh "He" in let Hs := fresh "Hs" in
  match type of H with
  | walk_rel _ ?r1 ?r2 =>
      destruct r1 as [e1 s1]; destruct r2 as [e2 s2]; destruct H as [He Hs];
      simpl in He, Hs; subst e2
  end.

Ltac finish := first [ split; [reflexivity | assumption] | exact I ].

Lemma pl_async_parse_obj1_methods_rel (isMetaClass : bool) (className : plcrash_async_macho_string_t)
    (thisListPtr : Z) (n : nat) :
  forall i s1 s2, R s1 s2 ->
    walk_rel R (pl_async_parse_obj1_methods image cb1 isMetaClass className thisListPtr n i s1)
               (pl_async_parse_obj1_methods image cb2 isMetaClass className thisListPtr n i s2).
Proof using Hcb.
  induction n as [|n IH]; intros i s1 s2 Hs; simpl; [finish|].
  destruct (plcrash_async_task_memcpy image _ _) as [err method].
  destruct (decide (err <> PLCRASH_ESUCCESS)); [finish|].
  destruct (decide (_ <> PLCRASH_ESUCCESS)); [finish|].
  apply IH, Hcb, Hs.
Qed.

Lemma pl_async_parse_obj1_method_list_rel (isMetaClass : bool)
    (className : plcrash_async_macho_string_t) (thisListPtr : Z) (s1 : Ctx1) (s2 : Ctx2) :
  R s1 s2 ->
  walk_rel R (pl_async_parse_obj1_method_list image cb1 isMetaClass className thisListPtr s1)
             (pl_async_parse_obj1_method_list image cb2 isMetaClass className thisListPtr s2).
Proof using Hcb.
  intros Hs. unfold pl_async_parse_obj1_method_list.
  destruct (plcrash_async_task_memcpy image _ _) as [err methodList].
  destruct (decide (err <> PLCRASH_ESUCCESS)); [finish|].
  apply pl_async_parse_obj1_methods_rel, Hs.
Qed.

Lemma pl_async_parse_obj1_class_loop_rel (isMetaClass : bool)
    (className : plcrash_async_macho_string_t) (hasMultipleMethodLists : bool) (fuel : nat) :
  forall err cursor s1 s2, R s1 s2 ->
    bounded_rel (walk_rel R)
      (pl_async_parse_obj1_class_loop image cb1 fuel isMetaClass className hasMultipleMethodLists
         err cursor s1)
      (pl_async_parse_obj1_class_loop image cb2 fuel isMetaClass className hasMultipleMethodLists
         err cursor s2).
Proof using Hcb.
  induction fuel as [|fuel IH]; intros err cursor s1 s2 Hs; simpl; [exact I|].
  destruct hasMultipleMethodLists.
  - destruct (plcrash_async_task_memcpy image cursor 4) as [err' ptr].
    destruct (decide (err' <> PLCRASH_ESUCCESS)); [finish|].
    destruct (_ || _); [finish|].
    pose proof (pl_async_parse_obj1_method_list_rel isMetaClass className
                  (swap32 (byteorder image) (load32 ptr 0)) s1 s2 Hs) as Hl.
    related Hl.
    destruct (decide (_ <> PLCRASH_ESUCCESS)); [finish|].
    apply IH; assumption.
  - destruct (cursor =? 0); [finish|].
    pose proof (pl_async_parse_obj1_method_list_rel isMetaClass className cursor s1 s2 Hs) as Hl.
    related Hl. finish.
Qed.

Lemma pl_async_parse_obj1_class_rel (fuel : nat) (cls : bytes) (isMetaClass : bool)
    (s1 : Ctx1) (s2 : Ctx2) :
  R s1 s2 ->
  bounded_rel (walk_rel R)
    (pl_async_parse_obj1_class image cb1 fuel cls isMetaClass s1)
    (pl_async_parse_obj1_class image cb2 fuel cls isMetaClass s2).
Proof using Hcb.
  intros Hs. unfold pl_async_parse_obj1_class.
  destruct (decide (_ <> PLCRASH_ESUCCESS)); [finish|].
  apply pl_async_parse_obj1_class_loop_rel, Hs.
Qed.

Lemma pl_async_objc_parse_symtab_classes_rel (fuel : nat) (symtabPtr : Z) (n : nat) :
  forall i s1 s2, R s1 s2 ->
    bounded_rel (walk_rel R)
      (pl_async_objc_parse_symtab_classes image cb1 fuel symtabPtr n i s1)
      (pl_async_objc_parse_symtab_classes image cb2 fuel symtabPtr n i s2).
Proof using Hcb.
  induction n as [|n IH]; intros i s1 s2 Hs; simpl; [finish|].
  destruct (plcrash_async_task_memcpy image _ 4) as [err classPtr].
  destruct (decide (err <> PLCRASH_ESUCCESS)); [finish|].
  destruct (plcrash_async_task_memcpy image _ sizeof_pl_objc1_class) as [err' cls].
  destruct (decide (err' <> PLCRASH_ESUCCESS)); [finish|].
  eapply bounded_rel_bind; [apply pl_async_parse_obj1_class_rel, Hs|].
  intros r1 r2 Hr. related Hr.
  destruct (decide (_ <> PLCRASH_ESUCCESS)); [finish|].
  destruct (plcrash_async_task_memcpy image _ sizeof_pl_objc1_class) as [err'' metaclass].
  destruct (decide (err'' <> PLCRASH_ESUCCESS)); [finish|].
  eapply bounded_rel_bind; [apply pl_async_parse_obj1_class_rel; eassumption|].
  intros r1 r2 Hr. related Hr.
  destruct (decide (_ <> PLCRASH_ESUCCESS)); [finish|].
  apply IH; assumption.
Qed.

Lemma pl_async_objc_parse_modules_rel (fuel : nat) (moduleData : bytes) (n : nat) :
  forall moduleIndex s1 s2, R s1 s2 ->
    bounded_rel (walk_rel R)
      (pl_async_objc_parse_modules image cb1 fuel moduleData n moduleIndex s1)
      (pl_async_objc_parse_modules image cb2 fuel moduleData n moduleIndex s2).
Proof using Hcb.
  induction n as [|n IH]; intros moduleIndex s1 s2 Hs; simpl; [finish|].
  destruct (_ =? 0); [apply IH, Hs|].
  destruct (plcrash_async_task_memcpy image _ sizeof_pl_objc1_symtab) as [err symtab].
  destruct (decide (err <> PLCRASH_ESUCCESS)); [finish|].
  eapply bounded_rel_bind; [apply pl_async_objc_parse_symtab_classes_rel, Hs|].
  intros r1 r2 Hr. related Hr.
  destruct (decide (_ <> PLCRASH_ESUCCESS)); [finish|].
  apply IH; assumption.
Qed.

Lemma pl_async_objc_parse_from_module_info_rel (fuel : nat) (s1 : Ctx1) (s2 : Ctx2) :
  R s1 s2 ->
  bounded_rel (walk_rel R)
    (pl_async_objc_parse_from_module_info image cb1 fuel s1)
    (pl_async_objc_parse_from_module_info image cb2 fuel s2).
Proof using Hcb.
  intros Hs. unfold pl_async_objc_parse_from_module_info.
  destruct (plcrash_async_macho_map_section image _ _) as [err moduleMobj].
  destruct (decide (err <> PLCRASH_ESUCCESS)); [finish|].
  destruct (plcrash_async_mobject_remap_address _ _ _ _); [|finish].
  apply pl_async_objc_parse_modules_rel, Hs.
Qed.

Lemma pl_async_objc_parse_objc2_methods_rel (class_name : plcrash_async_macho_string_t)
    (is_meta_class : bool) (entsize : Z) (n : nat) :
  forall cursor s1 s2, R s1 s2 ->
    walk_rel R
      (pl_async_objc_parse_objc2_methods image cb1 class_name is_meta_class entsize n cursor s1)
      (pl_async_objc_parse_objc2_methods image cb2 class_name is_meta_class entsize n cursor s2).
Proof using Hcb.
  induction n as [|n IH]; intros cursor s1 s2 Hs; simpl; [finish|].
  destruct (decide (_ <> PLCRASH_ESUCCESS)); [finish|].
  apply IH, Hcb, Hs.
Qed.

Lemma pl_async_objc_parse_objc2_method_list_rel (objc_cache : plcrash_async_objc_cache_t)
    (class_name : plcrash_async_macho_string_t) (is_meta_class : bool) (method_list_addr : Z)
    (s1 : Ctx1) (s2 : Ctx2) :
  R s1 s2 ->
  walk_rel R
    (pl_async_objc_parse_objc2_method_list image cb1 objc_cache class_name is_meta_class
       method_list_addr s1)
    (pl_async_objc_parse_objc2_method_list image cb2 objc_cache class_name is_meta_class
       method_list_addr s2).
Proof using Hcb.
  intros Hs. unfold pl_async_objc_parse_objc2_method_list.
  destruct (plcrash_async_mobject_remap_address _ method_list_addr _ _) as [header|]; [|finish].
  destruct (plcrash_async_mobject_remap_address _ _ _ _) as [cursor|]; [|finish].
  apply pl_async_objc_parse_objc2_methods_rel, Hs.
Qed.

Lemma pl_async_objc_parse_objc2_class_rel (is64 : bool) (objc_cache : plcrash_async_objc_cache_t)
    (cls : bytes) (is_meta_class : bool) (s1 : Ctx1) (s2 : Ctx2) :
  R s1 s2 ->
  walk_rel_cache R
    (pl_async_objc_parse_objc2_class host image cb1 is64 objc_cache cls is_meta_class s1)
    (pl_async_objc_parse_objc2_class host image cb2 is64 objc_cache cls is_meta_class s2).
Proof using Hcb.
  intros Hs.
  assert (Hro : forall c ro,
    walk_rel_cache R
      (let class_name_ptr := swap (byteorder image) is64 (pl_objc2_class_data_ro_name is64 ro) in
       let err := plcrash_async_macho_string_init image class_name_ptr in
       if decide (err <> PLCRASH_ESUCCESS) then (err, s1, c) else
       let class_name := {| string_address := class_name_ptr |} in
       let methods_ptr := swap (byteorder image) is64 (pl_objc2_class_data_ro_baseMethods is64 ro) in
       if methods_ptr =? 0 then (PLCRASH_ESUCCESS, s1, c) else
       let '(err, ctx) :=
         pl_async_objc_parse_objc2_method_list image cb1 c class_name is_meta_class methods_ptr s1 in
       (err, ctx, c))
      (let class_name_ptr := swap (byteorder image) is64 (pl_objc2_class_data_ro_name is64 ro) in
       let err := plcrash_async_macho_string_init image class_name_ptr in
       if decide (err <> PLCRASH_ESUCCESS) then (err, s2, c) else
       let class_name := {| string_address := class_name_ptr |} in
       let methods_ptr := swap (byteorder image) is64 (pl_objc2_class_data_ro_baseMethods is64 ro) in
       if methods_ptr =? 0 then (PLCRASH_ESUCCESS, s2, c) else
       let '(err, ctx) :=
         pl_async_objc_parse_objc2_method_list image cb2 c class_name is_meta_class methods_ptr s2 in
       (err, ctx, c))).
  { intros c ro. cbv zeta.
    destruct (decide (_ <> PLCRASH_ESUCCESS)); [repeat split; assumption|].
    destruct (_ =? 0); [repeat split; assumption|].
    pose proof (pl_async_objc_parse_objc2_method_list_rel c
                  {| string_address := swap (byteorder image) is64 (pl_objc2_class_data_ro_name is64 ro) |}
                  is_meta_class
                  (swap (byteorder image) is64 (pl_objc2_class_data_ro_baseMethods is64 ro))
                  s1 s2 Hs) as Hl.
    related Hl. repeat split; assumption. }
  unfold pl_async_objc_parse_objc2_class. cbv zeta.
  destruct (cache_lookup objc_cache _ =? 0).
  - destruct (plcrash_async_task_memcpy image _ (sizeof_pl_objc2_class_data_rw is64)) as [err rw].
    destruct (decide (err <> PLCRASH_ESUCCESS)); [repeat split; assumption|].
    destruct (Z.land _ RW_REALIZED =? 0); [repeat split; assumption|].
    destruct (negb _).
    + destruct (plcrash_async_task_memcpy image _ (sizeof_pl_objc2_class_data_ro is64)) as [err' ro].
      destruct (decide (err' <> PLCRASH_ESUCCESS)); [repeat split; assumption|].
      apply Hro.
    + destruct (plcrash_async_mobject_remap_address _ _ _ _) as [ro|]; [|repeat split; assumption].
      apply Hro.
  - destruct (plcrash_async_mobject_remap_address _ _ _ _) as [ro|]; [apply Hro|].
    destruct (plcrash_async_task_memcpy image _ (sizeof_pl_objc2_class_data_ro is64)) as [err' ro].
    destruct (decide (err' = PLCRASH_ESUCCESS)); [apply Hro|repeat split; assumption].
Qed.

Ltac related_cache H :=
  let e1 := fresh "e" in let s1 := fresh "s" in let c1 := fresh "c" in
  let e2 := fresh "e" in let s2 := fresh "s" in let c2 := fresh "c" in
  let He := fresh "He" in let Hs := fresh "Hs" in let Hc := fresh "Hc" in
  match type of H with
  | walk_rel_cache _ ?r1 ?r2 =>
      destruct r1 as [[e1 s1] c1]; destruct r2 as [[e2 s2] c2]; destruct H as (He & Hs & Hc);
      simpl in He, Hs, Hc; subst e2 c2
  end.

Lemma pl_async_objc_parse_classes_rel (classPtrs_32 classPtrs_64 : bytes) (n : nat) :
  forall i s1 s2 c, R s1 s2 ->
    walk_rel_cache R
      (pl_async_objc_parse_classes host image cb1 classPtrs_32 classPtrs_64 n i s1 c)
      (pl_async_objc_parse_classes host image cb2 classPtrs_32 classPtrs_64 n i s2 c).
Proof using Hcb.
  induction n as [|n IH]; intros i s1 s2 c Hs; simpl; [repeat split; assumption|].
  destruct (plcrash_async_mobject_remap_address _ _ _ _) as [classPtr|]; [|repeat split; assumption].
  pose proof (pl_async_objc_parse_objc2_class_rel (m64 image) c classPtr false s1 s2 Hs) as Hc.
  related_cache Hc.
  destruct (decide (_ <> PLCRASH_ESUCCESS)); [repeat split; assumption|].
  destruct (plcrash_async_mobject_remap_address _ _ _ _) as [metaclassPtr|];
    [|repeat split; assumption].
  match goal with
  | Hr : R ?a ?b |- context [pl_async_objc_parse_objc2_class _ _ cb1 _ ?c' metaclassPtr true ?a] =>
      pose proof (pl_async_objc_parse_objc2_class_rel (m64 image) c' metaclassPtr true a b Hr) as Hm
  end.
  related_cache Hm.
  destruct (decide (_ <> PLCRASH_ESUCCESS)); [repeat split; assumption|].
  apply IH; assumption.
Qed.

Lemma pl_async_objc_parse_categories_rel (objcContext : plcrash_async_objc_cache_t)
    (catPtrs_32 catPtrs_64 : bytes) (n : nat) :
  forall i s1 s2, R s1 s2 ->
    walk_rel R
      (pl_async_objc_parse_categories (Ctx:=Ctx1) image objcContext catPtrs_32 catPtrs_64 n i s1)
      (pl_async_objc_parse_categories (Ctx:=Ctx2) image objcContext catPtrs_32 catPtrs_64 n i s2).
Proof using Type.
  induction n as [|n IH]; intros i s1 s2 Hs; simpl; [finish|].
  destruct (plcrash_async_mobject_remap_address _ _ _ _) as [catPtr|]; [|finish].
  apply IH, Hs.
Qed.

Lemma pl_async_objc_parse_from_data_section_rel (c : plcrash_async_objc_cache_t)
    (s1 : Ctx1) (s2 : Ctx2) :
  R s1 s2 ->
  walk_rel_cache R
    (pl_async_objc_parse_from_data_section host image cb1 c s1)
    (pl_async_objc_parse_from_data_section host image cb2 c s2).
Proof using Hcb.
  intros Hs. unfold pl_async_objc_parse_from_data_section.
  destruct (map_sections image c) as [err c'].
  destruct (decide (err <> PLCRASH_ESUCCESS)); [repeat split; assumption|].
  destruct (plcrash_async_mobject_remap_address (classMobj c') _ _ _) as [classPtrs|];
    [|repeat split; assumption].
  cbv zeta.
  match goal with
  | |- context [pl_async_objc_parse_classes _ _ cb1 ?p32 ?p64 ?n ?i s1 c'] =>
      pose proof (pl_async_objc_parse_classes_rel p32 p64 n i s1 s2 c' Hs) as Hc
  end.
  related_cache Hc.
  destruct (decide (_ <> PLCRASH_ESUCCESS)); [repeat split; assumption|].
  destruct (plcrash_async_mobject_remap_address (catMobj _) _ _ _) as [catPtrs|];
    [|repeat split; assumption].
  match goal with
  | Hr : R ?a ?b |- context [pl_async_objc_parse_categories _ ?c'' ?p32 ?p64 ?n ?i ?a] =>
      pose proof (pl_async_objc_parse_categories_rel c'' p32 p64 n i a b Hr) as Hk
  end.
  related Hk. repeat split; assumption.
Qed.

(** The unified parser: same status, same cache, related contexts. *)
Lemma plcrash_async_objc_parse_rel (fuel : nat) (cache : option plcrash_async_objc_cache_t)
    (s1 : Ctx1) (s2 : Ctx2) :
  R s1 s2 ->
  bounded_rel (walk_rel_cache R)
    (plcrash_async_objc_parse host fuel image cache cb1 s1)
    (plcrash_async_objc_parse host fuel image cache cb2 s2).
Proof using Hcb.
  intros Hs. unfold plcrash_async_objc_parse.
  destruct cache as [c|]; [|repeat split; assumption].
  eapply (bounded_rel_bind (walk_rel R)).
  - destruct (negb (gotObjC2Info c)); [|finish].
    apply pl_async_objc_parse_from_module_info_rel, Hs.
  - intros r1 r2 Hr. related Hr.
    destruct (decide (_ = PLCRASH_ENOTFOUND)); [|repeat split; assumption].
    match goal with
    | Hr : R ?a ?b |- _ =>
        pose proof (pl_async_objc_parse_from_data_section_rel c a b Hr) as Hd
    end.
    related_cache Hd.
    destruct (decide (_ = PLCRASH_ESUCCESS)); repeat split; assumption.
Qed.
End Parametricity.

(* ===================================================================== *)
(** * Enumerations and the two callbacks of the search *)
(* ===================================================================== *)

(** A parse with any callback is the enumeration, its methods handed to the
    callback in order. *)
Lemma plcrash_async_objc_parse_enumerate {Ctx : Type} (host : host_t) (fuel : nat)
    (image : plcrash_async_macho_t) (cache : option plcrash_async_objc_cache_t)
    (callback : plcrash_async_objc_found_method_cb Ctx) (ctx : Ctx) :
  plcrash_async_objc_parse host fuel image cache callback ctx
  = match enumerate host fuel image cache with
    | Some (err, methods, cache') => Some (err, fold_left (deliver callback) methods ctx, cache')
    | None => None
    end.
Proof.
  unfold enumerate.
  pose proof (plcrash_async_objc_parse_rel
                (fun log s => s = fold_left (deliver callback) log ctx)
                record_callback callback) as Hrel.
  specialize (Hrel ltac:(intros b cn mn imp log s ->; unfold record_callback;
                          rewrite fold_left_app; reflexivity)
                host image fuel cache [] ctx eq_refl).
  destruct (plcrash_async_objc_parse host fuel image cache record_callback [])
    as [[[e1 log] c1]|];
    destruct (plcrash_async_objc_parse host fuel image cache callback ctx) as [[[e2 s] c2]|];
    cbv [bounded_rel walk_rel_cache fst snd] in Hrel; try contradiction; [|reflexivity].
  destruct Hrel as (He & Hs & Hc). subst e2 s c2. reflexivity.
Qed.

Lemma max_imp_le_nonneg (target : Z) (imps : list Z) : 0 <= max_imp_le target imps.
Proof.
  induction imps as [|imp rest IH]; simpl; [lia|].
  destruct (imp <=? target); lia.
Qed.


Lemma max_imp_le_attained (target : Z) (imps : list Z) :
  max_imp_le target imps = 0
  \/ (max_imp_le target imps <= target /\ In (max_imp_le target imps) imps).
Proof.
  induction imps as [|i rest IH]; simpl; [left; reflexivity|].
  destruct (Z.leb_spec i target) as [Hle|Hgt].
  - destruct (Z.max_spec i (max_imp_le target rest)) as [[Hlt ->]|[Hge ->]].
    + destruct IH as [H0|[Hb Hin]]; [left; exact H0|right; split; [exact Hb|right; exact Hin]].
    + right. split; [exact Hle|left; reflexivity].
  - destruct IH as [H0|[Hb Hin]]; [left; exact H0|right; split; [exact Hb|right; exact Hin]].
Qed.

Lemma max_imp_le_all_zero (target : Z) (imps : list Z) :
  (forall imp, In imp imps -> imp <= target -> imp = 0) -> max_imp_le target imps = 0.
Proof.
  induction imps as [|i rest IH]; intros Hz; simpl; [reflexivity|].
  rewrite IH by (intros; apply Hz; [right|]; assumption).
  destruct (Z.leb_spec i target) as [Hle|Hgt]; [|reflexivity].
  rewrite (Hz i (or_introl eq_refl) Hle). reflexivity.
Qed.

(** The search callback, folded over a sequence of invocations, keeps the
    greatest IMP not above the target. *)
Lemma search_callback_fold (target : Z) (methods : list found_method) :
  forall best, 0 <= best ->
    fold_left (deliver pl_async_objc_find_method_search_callback) methods
      {| searchIMP := target; bestIMP := best |}
    = {| searchIMP := target; bestIMP := Z.max best (max_imp_le target (map fm_imp methods)) |}.
Proof.
  induction methods as [|m rest IH]; intros best Hbest; simpl.
  - f_equal. lia.
  - unfold deliver at 2, pl_async_objc_find_method_search_callback. simpl.
    pose proof (max_imp_le_nonneg target (map fm_imp rest)) as Hnn.
    destruct (Z.geb_spec (fm_imp m) best) as [Hge|Hlt];
      destruct (Z.leb_spec (fm_imp m) target) as [Hle|Hgt]; simpl;
      rewrite IH by lia; f_equal; lia.
Qed.

Lemma search_pass_best (target : Z) (methods : list found_method) :
  search_pass target methods
  = {| searchIMP := target; bestIMP := max_imp_le target (map fm_imp methods) |}.
Proof.
  unfold search_pass. rewrite search_callback_fold by lia.
  f_equal. pose proof (max_imp_le_nonneg target (map fm_imp methods)). lia.
Qed.

(** Once the call callback has fired it stays silent. *)
Lemma call_callback_fired {Ctx : Type} (best : Z) (ctx : Ctx) (methods : list found_method) :
  fold_left (deliver pl_async_objc_find_method_call_callback) methods
    {| call_searchIMP := best; outerCallback := None; outerCallbackCtx := ctx |}
  = {| call_searchIMP := best; outerCallback := None; outerCallbackCtx := ctx |}.
Proof. induction methods as [|m rest IH]; simpl; [reflexivity|exact IH]. Qed.

(** The call callback, folded over a sequence of invocations, hands the first
    method at the searched IMP to the outer callback, and nothing else. *)
Lemma call_callback_fold {Ctx : Type} (best : Z) (callback : plcrash_async_objc_found_method_cb Ctx)
    (methods : list found_method) (ctx : Ctx) :
  outerCallbackCtx
    (fold_left (deliver pl_async_objc_find_method_call_callback) methods
       {| call_searchIMP := best; outerCallback := Some callback; outerCallbackCtx := ctx |})
  = match first_with_imp best methods with
    | Some m => deliver callback ctx m
    | None => ctx
    end.
Proof.
  induction methods as [|m rest IH]; [reflexivity|].
  cbn [fold_left first_with_imp find].
  change (deliver pl_async_objc_find_method_call_callback
            {| call_searchIMP := best; outerCallback := Some callback; outerCallbackCtx := ctx |} m)
    with (if fm_imp m =? best
          then {| call_searchIMP := best; outerCallback := None;
                  outerCallbackCtx := deliver callback ctx m |}
          else {| call_searchIMP := best; outerCallback := Some callback;
                  outerCallbackCtx := ctx |}).
  destruct (fm_imp m =? best).
  - rewrite call_callback_fired. reflexivity.
  - exact IH.
Qed.


Lemma first_with_imp_member (best : Z) (methods : list found_method) :
  In best (map fm_imp methods) -> exists m, first_with_imp best methods = Some m.
Proof.
  unfold first_with_imp.
  induction methods as [|x rest IH]; simpl; [contradiction|].
  destruct (Z.eqb_spec (fm_imp x) best) as [Heq|Hne]; [eauto|].
  intros [Heq|Hin]; [contradiction|auto].
Qed.

(** [plcrash_async_objc_find_method] in terms of the two enumerations it runs. *)
Lemma plcrash_async_objc_find_method_enumerate {Ctx : Type} (host : host_t) (fuel : nat)
    (image : plcrash_async_macho_t) (cache : option plcrash_async_objc_cache_t) (target : Z)
    (callback : plcrash_async_objc_found_method_cb Ctx) (ctx : Ctx) :
  plcrash_async_objc_find_method host fuel image cache target callback ctx
  = match enumerate host fuel image cache with
    | None => None
    | Some (err1, methods1, cache1) =>
        if decide (err1 <> PLCRASH_ESUCCESS) then Some (err1, ctx, cache1) else
        let best := max_imp_le target (map fm_imp methods1) in
        if best =? 0 then Some (PLCRASH_ENOTFOUND, ctx, cache1) else
        match enumerate host fuel image cache1 with
        | None => None
        | Some (err2, methods2, cache2) =>
            Some (err2,
                  match first_with_imp best methods2 with
                  | Some m => deliver callback ctx m
                  | None => ctx
                  end,
                  cache2)
        end
    end.
Proof.
  unfold plcrash_async_objc_find_method.
  rewrite plcrash_async_objc_parse_enumerate.
  destruct (enumerate host fuel image cache) as [[[err1 methods1] cache1]|]; [|reflexivity].
  simpl. fold (search_pass target methods1). rewrite search_pass_best. simpl.
  destruct (decide (err1 <> PLCRASH_ESUCCESS)); [reflexivity|].
  destruct (_ =? 0); [reflexivity|].
  rewrite plcrash_async_objc_parse_enumerate.
  destruct (enumerate host fuel image cache1) as [[[err2 methods2] cache2]|]; [|reflexivity].
  simpl. rewrite call_callback_fold. reflexivity.
Qed.

(* ===================================================================== *)
(** * The best-IMP search *)
(* ===================================================================== *)

(** C8 (amended). A method whose IMP is 0 is never found: when every
    enumerated method at or below the target has IMP 0, the search pass ends
    with [bestIMP] 0 and [plcrash_async_objc_find_method] never invokes the
    user callback. It returns not-found when the walk of the search pass
    succeeds, just as for an image that has no method at or below the target,
    and the status of that walk when it fails: the failure is returned before
    the best IMP is looked at. *)
Theorem imp_zero_never_found {Ctx : Type} (host : host_t) (fuel : nat)
    (image : plcrash_async_macho_t) (cache : option plcrash_async_objc_cache_t) (target : Z)
    (callback : plcrash_async_objc_found_method_cb Ctx) (ctx : Ctx) (err : plcrash_error_t)
    (methods : list found_method) (cache1 : option plcrash_async_objc_cache_t) :
  enumerate host fuel image cache = Some (err, methods, cache1) ->
  (forall m, In m methods -> fm_imp m <= target -> fm_imp m = 0) ->
  pass1_best host fuel image cache target = Some 0
  /\ plcrash_async_objc_find_method host fuel image cache target callback ctx
     = Some (if decide (err = PLCRASH_ESUCCESS) then PLCRASH_ENOTFOUND else err, ctx, cache1).
Proof.
  intros Henum Hzero.
  assert (Hbest : max_imp_le target (map fm_imp methods) = 0).
  { apply max_imp_le_all_zero. intros imp Hin Hle.
    apply in_map_iff in Hin as (m & <- & Hm). exact (Hzero m Hm Hle). }
  split.
  - unfold pass1_best. rewrite plcrash_async_objc_parse_enumerate, Henum. simpl.
    fold (search_pass target methods). rewrite search_pass_best. simpl. rewrite Hbest. reflexivity.
  - rewrite plcrash_async_objc_find_method_enumerate, Henum. cbv zeta. rewrite Hbest.
    destruct (decide (err <> PLCRASH_ESUCCESS)) as [He|He];
      destruct (decide (err = PLCRASH_ESUCCESS)) as [He'|He']; try contradiction; reflexivity.
Qed.

(** C8, an instance: the only method of class [Nil] is at IMP 0; a search for
    0x500 enumerates it and returns not-found. *)
Lemma imp_zero_never_found_witness :
  (exists m, In m [ {| fm_is_meta := false; fm_class_name := {| string_address := 0x5000 |};
                       fm_method_name := {| string_address := 0x5010 |}; fm_imp := 0 |} ]
             /\ fm_imp m <= 0x500)
  /\ plcrash_async_objc_find_method Target.host 8 Target.nil_image (Some Target.fresh_cache) 0x500
       record_callback []
     = Some (PLCRASH_ENOTFOUND, [], Some Target.fresh_cache).
Proof.
  split.
  - eexists. split; [left; reflexivity|simpl; lia].
  - refine (proj2 (imp_zero_never_found Target.host 8 Target.nil_image (Some Target.fresh_cache)
                     0x500 record_callback [] PLCRASH_ESUCCESS
                     [ {| fm_is_meta := false; fm_class_name := {| string_address := 0x5000 |};
                          fm_method_name := {| string_address := 0x5010 |}; fm_imp := 0 |} ]
                     (Some Target.fresh_cache) _ _)).
    + vm_compute. reflexivity.
    + intros m [<-|[]] _. reflexivity.
Defined.

(** C8 as stated fails when the walk of the search pass fails. The walk of
    the 32-bit image with one class and one category ends with
    [PLCRASH_EINVAL] and has enumerated no method, so every enumerated method
    at or below the target has IMP 0; the search returns [PLCRASH_EINVAL], not
    not-found. (A null cache does the same with [PLCRASH_EACCESS].) *)
Lemma imp_zero_walk_failure_returned :
  ~ imp_zero_gives_not_found Target.host 8 Target.category_image (Some Target.fresh_cache) 0x500.
Proof.
  intros Hclaim.
  assert (Hwalk : outcome (enumerate Target.host 8 Target.category_image (Some Target.fresh_cache))
                  = Some (PLCRASH_EINVAL, []))
    by (vm_compute; reflexivity).
  assert (Hfound : outcome (plcrash_async_objc_find_method Target.host 8 Target.category_image
                              (Some Target.fresh_cache) 0x500 record_callback [])
                   = Some (PLCRASH_EINVAL, []))
    by (vm_compute; reflexivity).
  destruct (enumerate Target.host 8 Target.category_image (Some Target.fresh_cache))
    as [[[err methods] cache1]|] eqn:Henum; [|discriminate Hwalk].
  cbn [outcome] in Hwalk. injection Hwalk as -> ->.
  assert (Hzero : forall m : found_method, In m [] -> fm_imp m <= 0x500 -> fm_imp m = 0)
    by (intros m []).
  specialize (Hclaim _ _ _ Henum Hzero).
  rewrite Hfound in Hclaim. discriminate Hclaim.
Qed.

(** C9. The status of [plcrash_async_objc_find_method] is the status of the
    pass-2 walk, unchanged: when pass 2 fails after it has enumerated a method
    at the best IMP, the user callback has been invoked on that method and the
    failure is returned all the same. *)
Theorem find_method_error_after_callback {Ctx : Type} (host : host_t) (fuel : nat)
    (image : plcrash_async_macho_t) (cache : option plcrash_async_objc_cache_t) (target : Z)
    (callback : plcrash_async_objc_found_method_cb Ctx) (ctx : Ctx)
    (methods1 methods2 : list found_method) (cache1 cache2 : option plcrash_async_objc_cache_t)
    (err2 : plcrash_error_t) (m : found_method) :
  enumerate host fuel image cache = Some (PLCRASH_ESUCCESS, methods1, cache1) ->
  max_imp_le target (map fm_imp methods1) <> 0 ->
  enumerate host fuel image cache1 = Some (err2, methods2, cache2) ->
  err2 <> PLCRASH_ESUCCESS ->
  first_with_imp (max_imp_le target (map fm_imp methods1)) methods2 = Some m ->
  plcrash_async_objc_find_method host fuel image cache target callback ctx
  = Some (err2, deliver callback ctx m, cache2).
Proof.
  intros Henum1 Hbest Henum2 _ Hfirst.
  rewrite plcrash_async_objc_find_method_enumerate, Henum1. cbv zeta.
  destruct (decide (PLCRASH_ESUCCESS <> PLCRASH_ESUCCESS)); [congruence|].
  rewrite (proj2 (Z.eqb_neq _ _) Hbest), Henum2, Hfirst. reflexivity.
Qed.

(** C10. The best IMP of the search pass depends on the IMPs presented to the
    search callback only: two sequences of invocations with the same IMPs in
    the same order, whatever their class names, method names and metaclass
    flags, leave the same search context, and two enumerations with the same
    IMPs give [plcrash_async_objc_find_method] the same best IMP. *)
Theorem best_imp_depends_on_imps_only (target : Z) (methods1 methods2 : list found_method) :
  map fm_imp methods1 = map fm_imp methods2 ->
  search_pass target methods1 = search_pass target methods2
  /\ forall host1 fuel1 image1 cache1 err1 cache1' host2 fuel2 image2 cache2 err2 cache2',
       enumerate host1 fuel1 image1 cache1 = Some (err1, methods1, cache1') ->
       enumerate host2 fuel2 image2 cache2 = Some (err2, methods2, cache2') ->
       pass1_best host1 fuel1 image1 cache1 target = pass1_best host2 fuel2 image2 cache2 target.
Proof.
  intros Himps. split.
  - rewrite !search_pass_best, Himps. reflexivity.
  - intros host1 fuel1 image1 cache1 err1 cache1' host2 fuel2 image2 cache2 err2 cache2' H1 H2.
    unfold pass1_best. rewrite !plcrash_async_objc_parse_enumerate, H1, H2. simpl.
    fold (search_pass target methods1). fold (search_pass target methods2).
    rewrite !search_pass_best, Himps. reflexivity.
Qed.

(** C10, an instance: the methods of [Foo], and three methods of other
    classes with other names and flags at the same IMPs. *)
Lemma best_imp_depends_on_imps_only_witness :
  search_pass 0x2FFF [Target.foo_bar; Target.foo_baz; Target.foo_qux]
  = search_pass 0x2FFF Target.other_methods.
Proof.
  apply (proj1 (best_imp_depends_on_imps_only 0x2FFF
                  [Target.foo_bar; Target.foo_baz; Target.foo_qux] Target.other_methods eq_refl)).
Defined.

(** C9, an instance: the metaclass of [Bar] has a heap copy of its read-only
    data. Pass 1 reads the copy from the task; pass 2 finds the address in the
    class cache, reads the record through the mapped section instead and fails
    on its method list, after [-hello] has been handed to the callback. *)
Lemma find_method_error_after_callback_witness :
  outcome (plcrash_async_objc_find_method Target.host 8 Target.copied_ro_image
             (Some Target.fresh_cache) 0xdeadbe50 record_callback [])
  = Some (PLCRASH_EINVAL, [Target.bar_hello]).
Proof.
  rewrite (find_method_error_after_callback Target.host 8 Target.copied_ro_image
             (Some Target.fresh_cache) 0xdeadbe50 record_callback []
             [Target.bar_hello] [Target.bar_hello]
             Target.copied_ro_cache1 Target.copied_ro_cache2 PLCRASH_EINVAL Target.bar_hello).
  - reflexivity.
  - vm_compute. reflexivity.
  - vm_compute. discriminate.
  - vm_compute. reflexivity.
  - discriminate.
  - reflexivity.
Defined.

(* ===================================================================== *)
(** * The format latch of the unified parser *)
(* ===================================================================== *)

Lemma cache_set_gotObjC2Info (host : host_t) (c : plcrash_async_objc_cache_t) (k v : Z) :
  gotObjC2Info (cache_set host c k v) = gotObjC2Info c.
Proof.
  unfold cache_set, cache_set_bucket.
  repeat case_match; reflexivity.
Qed.

Lemma pl_async_objc_parse_objc2_class_gotObjC2Info {Ctx : Type} (host : host_t)
    (image : plcrash_async_macho_t) (callback : plcrash_async_objc_found_method_cb Ctx)
    (is64 : bool) (c : plcrash_async_objc_cache_t) (cls : bytes) (is_meta_class : bool) (ctx : Ctx) :
  gotObjC2Info (snd (pl_async_objc_parse_objc2_class host image callback is64 c cls is_meta_class ctx))
  = gotObjC2Info c.
Proof.
  unfold pl_async_objc_parse_objc2_class. cbv zeta.
  repeat case_match; simpl; try reflexivity; apply cache_set_gotObjC2Info.
Qed.

Lemma pl_async_objc_parse_classes_gotObjC2Info {Ctx : Type} (host : host_t)
    (image : plcrash_async_macho_t) (callback : plcrash_async_objc_found_method_cb Ctx)
    (classPtrs_32 classPtrs_64 : bytes) (n : nat) :
  forall i ctx c,
    gotObjC2Info (snd (pl_async_objc_parse_classes host image callback classPtrs_32 classPtrs_64
                         n i ctx c))
    = gotObjC2Info c.
Proof.
  induction n as [|n IH]; intros i ctx c; simpl; [reflexivity|].
  destruct (plcrash_async_mobject_remap_address _ _ _ _) as [classPtr|]; [|reflexivity].
  pose proof (pl_async_objc_parse_objc2_class_gotObjC2Info host image callback (m64 image) c
                classPtr false ctx) as Hc.
  destruct (pl_async_objc_parse_objc2_class host image callback (m64 image) c classPtr false ctx)
    as [[e s] c1].
  simpl in Hc.
  destruct (decide (e <> PLCRASH_ESUCCESS)); [exact Hc|].
  destruct (plcrash_async_mobject_remap_address _ _ _ _) as [metaclassPtr|]; [|exact Hc].
  pose proof (pl_async_objc_parse_objc2_class_gotObjC2Info host image callback (m64 image) c1
                metaclassPtr true s) as Hm.
  destruct (pl_async_objc_parse_objc2_class host image callback (m64 image) c1 metaclassPtr true s)
    as [[e' s'] c2].
  simpl in Hm.
  destruct (decide (e' <> PLCRASH_ESUCCESS)); [simpl; congruence|].
  rewrite IH. congruence.
Qed.

(** The ObjC2 walk leaves the latch as it found it. *)
Lemma pl_async_objc_parse_from_data_section_gotObjC2Info {Ctx : Type} (host : host_t)
    (image : plcrash_async_macho_t) (callback : plcrash_async_objc_found_method_cb Ctx)
    (c : plcrash_async_objc_cache_t) (ctx : Ctx) :
  gotObjC2Info (snd (pl_async_objc_parse_from_data_section host image callback c ctx))
  = gotObjC2Info c.
Proof.
  unfold pl_async_objc_parse_from_data_section.
  pose proof (proj1 (map_sections_frame image c)) as Hmap.
  destruct (map_sections image c) as [err c0]. simpl in Hmap.
  destruct (decide (err <> PLCRASH_ESUCCESS)); [exact Hmap|].
  destruct (plcrash_async_mobject_remap_address (classMobj c0) _ _ _) as [classPtrs|];
    [|exact Hmap].
  cbv zeta.
  match goal with
  | |- context [pl_async_objc_parse_classes host image callback ?p32 ?p64 ?n ?i ctx c0] =>
      pose proof (pl_async_objc_parse_classes_gotObjC2Info host image callback p32 p64 n i ctx c0)
        as Hc;
      destruct (pl_async_objc_parse_classes host image callback p32 p64 n i ctx c0) as [[e s] c1]
  end.
  simpl in Hc.
  destruct (decide (e <> PLCRASH_ESUCCESS)); [simpl; congruence|].
  destruct (plcrash_async_mobject_remap_address (catMobj c1) _ _ _) as [catPtrs|];
    [|simpl; congruence].
  destruct (pl_async_objc_parse_categories _ _ _ _ _ _ _) as [e' s'].
  simpl. congruence.
Qed.

(** The ObjC2 attempt returns, and its latch is set when it was set before or
    the walk succeeded. *)
Lemma objc2_attempt_latch {Ctx : Type} (host : host_t) (image : plcrash_async_macho_t)
    (c : plcrash_async_objc_cache_t) (callback : plcrash_async_objc_found_method_cb Ctx) (ctx : Ctx) :
  exists err2 ctx2 c',
    objc2_attempt host image c callback ctx = Some (err2, ctx2, Some c')
    /\ err2 = fst (fst (pl_async_objc_parse_from_data_section host image callback c ctx))
    /\ (gotObjC2Info c' = true <-> gotObjC2Info c = true \/ err2 = PLCRASH_ESUCCESS).
Proof.
  unfold objc2_attempt.
  pose proof (pl_async_objc_parse_from_data_section_gotObjC2Info host image callback c ctx) as Hg.
  destruct (pl_async_objc_parse_from_data_section host image callback c ctx) as [[e s] c1].
  simpl in Hg. eexists _, _, _. split; [reflexivity|]. split; [reflexivity|].
  destruct (decide (e = PLCRASH_ESUCCESS)) as [He|He]; simpl.
  - tauto.
  - rewrite Hg. tauto.
Qed.

Lemma plcrash_async_objc_parse_latched {Ctx : Type} (host : host_t) (fuel : nat)
    (image : plcrash_async_macho_t) (c : plcrash_async_objc_cache_t)
    (callback : plcrash_async_objc_found_method_cb Ctx) (ctx : Ctx) :
  gotObjC2Info c = true ->
  plcrash_async_objc_parse host fuel image (Some c) callback ctx
  = objc2_attempt host image c callback ctx.
Proof.
  intros Hg. unfold plcrash_async_objc_parse, objc2_attempt. rewrite Hg. simpl.
  destruct (pl_async_objc_parse_from_data_section host image callback c ctx) as [[e s] c1].
  destruct (decide (e = PLCRASH_ESUCCESS)); reflexivity.
Qed.

Lemma parse_calls_latched (host : host_t) (calls : list (nat * plcrash_async_macho_t)) :
  forall c, gotObjC2Info c = true ->
    exists c', parse_calls host calls (Some c) = Some (Some c') /\ gotObjC2Info c' = true.
Proof.
  induction calls as [|[fuel image] rest IH]; intros c Hg; [exists c; split; [reflexivity|exact Hg]|].
  cbn [parse_calls]. unfold enumerate. rewrite (plcrash_async_objc_parse_latched _ _ _ _ _ _ Hg).
  destruct (objc2_attempt_latch host image c record_callback []) as (e & s & c1 & -> & _ & Hlatch).
  simpl. apply IH. apply Hlatch. left. exact Hg.
Qed.

Lemma parse_calls_app (host : host_t) (calls1 calls2 : list (nat * plcrash_async_macho_t)) :
  forall cache,
    parse_calls host (calls1 ++ calls2) cache
    = parse_calls host calls1 cache ≫= parse_calls host calls2.
Proof.
  induction calls1 as [|[fuel image] rest IH]; intros cache; [reflexivity|].
  cbn [parse_calls app]. destruct (enumerate host fuel image cache) as [[[e l] c]|]; [|reflexivity].
  simpl. apply IH.
Qed.

(** C6. The latch [gotObjC2Info] is monotonic: once it is set after some parse
    calls on a cache, it is set after any further calls. In one call, a set
    latch means that ObjC1 is not attempted and the call is the ObjC2 attempt;
    with the latch clear ObjC1 is attempted, any status of it other than
    not-found is returned with the cache untouched, and on not-found the call
    goes on with the ObjC2 attempt; the ObjC2 attempt leaves the latch set
    exactly when it was set before or the ObjC2 walk returned success. *)
Theorem gotObjC2Info_latch :
  (forall (host : host_t) (calls1 calls2 : list (nat * plcrash_async_macho_t))
          (c c1 : plcrash_async_objc_cache_t),
      parse_calls host calls1 (Some c) = Some (Some c1) ->
      gotObjC2Info c1 = true ->
      exists c2, parse_calls host (calls1 ++ calls2) (Some c) = Some (Some c2)
                 /\ gotObjC2Info c2 = true)
  /\ (forall (Ctx : Type) (host : host_t) (fuel : nat) (image : plcrash_async_macho_t)
             (c : plcrash_async_objc_cache_t) (callback : plcrash_async_objc_found_method_cb Ctx)
             (ctx : Ctx),
      (gotObjC2Info c = true ->
       plcrash_async_objc_parse host fuel image (Some c) callback ctx
       = objc2_attempt host image c callback ctx)
      /\ (gotObjC2Info c = false ->
          forall err ctx1,
            pl_async_objc_parse_from_module_info image callback fuel ctx = Some (err, ctx1) ->
            (err <> PLCRASH_ENOTFOUND ->
             plcrash_async_objc_parse host fuel image (Some c) callback ctx = Some (err, ctx1, Some c))
            /\ (err = PLCRASH_ENOTFOUND ->
                plcrash_async_objc_parse host fuel image (Some c) callback ctx
                = objc2_attempt host image c callback ctx1))
      /\ exists err2 ctx2 c',
           objc2_attempt host image c callback ctx = Some (err2, ctx2, Some c')
           /\ err2 = fst (fst (pl_async_objc_parse_from_data_section host image callback c ctx))
           /\ (gotObjC2Info c' = true <-> gotObjC2Info c = true \/ err2 = PLCRASH_ESUCCESS)).
Proof.
  split.
  - intros host calls1 calls2 c c1 Hcalls Hg.
    rewrite parse_calls_app, Hcalls. simpl.
    apply parse_calls_latched, Hg.
  - intros Ctx host fuel image c callback ctx.
    split; [apply plcrash_async_objc_parse_latched|].
    split; [|apply objc2_attempt_latch].
    intros Hg err ctx1 Hobjc1.
    unfold plcrash_async_objc_parse, objc2_attempt. rewrite Hg. simpl. rewrite Hobjc1. simpl.
    split; intros Herr.
    + destruct (decide (err = PLCRASH_ENOTFOUND)); [contradiction|reflexivity].
    + destruct (decide (err = PLCRASH_ENOTFOUND)); [|contradiction].
      destruct (pl_async_objc_parse_from_data_section host image callback c ctx1)
        as [[err2 ctx2] c2].
      destruct (decide (err2 = PLCRASH_ESUCCESS)); reflexivity.
Qed.

(** C6, an instance: a fresh cache parses the ObjC2 image of [Bar], which sets
    the latch; after two more calls, on an ObjC1 image and on an image without
    a category list, the latch is still set. *)
Lemma gotObjC2Info_latch_witness :
  exists c2,
    parse_calls Target.host
      ([(8%nat, Target.objc2_image [0x12050])]
         ++ [(8%nat, Target.foo_image); (8%nat, Target.no_catlist_image)])
      (Some Target.fresh_cache)
    = Some (Some c2)
    /\ gotObjC2Info c2 = true.
Proof.
  apply (proj1 gotObjC2Info_latch Target.host [(8%nat, Target.objc2_image [0x12050])]
           [(8%nat, Target.foo_image); (8%nat, Target.no_catlist_image)]
           Target.fresh_cache Target.latched_cache).
  - vm_compute. reflexivity.
  - vm_compute. reflexivity.
Defined.

(* ===================================================================== *)
(** * Where the walkers depart from the specification *)
(* ===================================================================== *)

(** An ObjC2 class that is not realized, met on a cache miss, is answered with
    not-found and no callback; the class loop returns that status at once,
    whatever classes follow. *)
Lemma pl_async_objc_parse_classes_unrealized {Ctx : Type} (host : host_t)
    (image : plcrash_async_macho_t) (callback : plcrash_async_objc_found_method_cb Ctx)
    (classPtrs_32 classPtrs_64 : bytes) (n : nat) (i : Z) (ctx : Ctx)
    (c : plcrash_async_objc_cache_t) (classPtr cls_data_rw : bytes) :
  plcrash_async_mobject_remap_address (objcDataMobj c)
    (read_list_pointer image classPtrs_32 classPtrs_64 i) 0 (sizeof_pl_objc2_class (m64 image))
  = Some classPtr ->
  let data_ptr :=
    Z.land (swap (byteorder image) (m64 image) (pl_objc2_class_data_rw (m64 image) classPtr))
      (wrap64 (Z.lnot 3)) in
  cache_lookup c data_ptr = 0 ->
  plcrash_async_task_memcpy image data_ptr (sizeof_pl_objc2_class_data_rw (m64 image))
  = (PLCRASH_ESUCCESS, cls_data_rw) ->
  Z.land (pl_objc2_class_data_rw_flags cls_data_rw) RW_REALIZED = 0 ->
  pl_async_objc_parse_objc2_class host image callback (m64 image) c classPtr false ctx
  = (PLCRASH_ENOTFOUND, ctx, c)
  /\ pl_async_objc_parse_classes host image callback classPtrs_32 classPtrs_64 (S n) i ctx c
     = (PLCRASH_ENOTFOUND, ctx, c).
Proof.
  intros Hremap data_ptr Hmiss Hcopy Hflags.
  assert (Hclass : pl_async_objc_parse_objc2_class host image callback (m64 image) c classPtr
                     false ctx = (PLCRASH_ENOTFOUND, ctx, c)).
  { unfold pl_async_objc_parse_objc2_class. cbv zeta. fold data_ptr.
    rewrite Hmiss, Hcopy. simpl. rewrite Hflags. reflexivity. }
  split; [exact Hclass|].
  simpl. rewrite Hremap, Hclass. reflexivity.
Qed.

(** C2 (the code departs from it). An image whose class list holds the
    unrealized class [A] before the realized class [Bar]: the walk ends at [A]
    with not-found, and [-hello] of [Bar] is never enumerated, while the same
    image without [A] in its class list enumerates it. With [A] after [Bar] the
    search for an address inside [-hello] returns not-found as well. *)
Theorem unrealized_class_ends_walk :
  outcome (enumerate Target.host 8 (Target.objc2_image [0x12000; 0x12050])
             (Some Target.fresh_cache))
  = Some (PLCRASH_ENOTFOUND, [])
  /\ outcome (enumerate Target.host 8 (Target.objc2_image [0x12050]) (Some Target.fresh_cache))
     = Some (PLCRASH_ESUCCESS, [Target.bar_hello])
  /\ outcome (plcrash_async_objc_find_method Target.host 8 (Target.objc2_image [0x12050; 0x12000])
                (Some Target.fresh_cache) 0xdeadbe50 record_callback [])
     = Some (PLCRASH_ENOTFOUND, []).
Proof.
  split; [vm_compute; reflexivity|].
  split; vm_compute; reflexivity.
Qed.

(** C3 (the code departs from it). An image with one class and one category:
    the pointer the category loop reads at index 0 is the class pointer
    0x302C, the entry of the class list, not the entry 0x3000 of the mapped
    category list; the category record at 0x3000 lies inside [__objc_data],
    but 24 bytes from 0x302C do not, and the walk of this image fails. *)
Theorem category_pointer_read_from_classlist :
  (p ← Target.category_classPtrs; Some (read_list_pointer Target.category_image p p 0))
  = Some 0x302C
  /\ (p ← Target.category_catPtrs; Some (spec_category_pointer Target.category_image p 0))
     = Some 0x3000
  /\ is_Some (plcrash_async_mobject_remap_address (objcDataMobj Target.category_cache) 0x3000 0
                (sizeof_pl_objc2_category false))
  /\ plcrash_async_mobject_remap_address (objcDataMobj Target.category_cache) 0x302C 0
       (sizeof_pl_objc2_category false) = None
  /\ fst (pl_async_objc_parse_from_data_section Target.host Target.category_image
            record_callback Target.fresh_cache [])
     = (PLCRASH_EINVAL, [])
  /\ outcome (enumerate Target.host 8 Target.category_image (Some Target.fresh_cache))
     = Some (PLCRASH_EINVAL, []).
Proof.
  split; [vm_compute; reflexivity|].
  split; [vm_compute; reflexivity|].
  split; [vm_compute; eauto|].
  split; [vm_compute; reflexivity|].
  split; vm_compute; reflexivity.
Qed.

(** An ObjC1 class with [methods == 0] and [CLS_NO_METHOD_ARRAY] unset: the
    walk copies a method-list pointer from address 0 of the target, and a
    failure of that copy is the status of the class. *)
Lemma pl_async_parse_obj1_class_null_array {Ctx : Type} (image : plcrash_async_macho_t)
    (callback : plcrash_async_objc_found_method_cb Ctx) (fuel : nat) (cls : bytes)
    (isMetaClass : bool) (ctx : Ctx) (err : plcrash_error_t) (ptr : bytes) :
  plcrash_async_macho_string_init image (swap32 (byteorder image) (pl_objc1_class_name cls))
  = PLCRASH_ESUCCESS ->
  swap32 (byteorder image) (pl_objc1_class_methods cls) = 0 ->
  Z.land (swap32 (byteorder image) (pl_objc1_class_info cls)) CLS_NO_METHOD_ARRAY = 0 ->
  plcrash_async_task_memcpy image 0 4 = (err, ptr) ->
  err <> PLCRASH_ESUCCESS ->
  pl_async_parse_obj1_class image callback (S fuel) cls isMetaClass ctx = Some (err, ctx).
Proof.
  intros Hname Hmethods Hinfo Hcopy Herr.
  unfold pl_async_parse_obj1_class. rewrite Hname, Hmethods, Hinfo. simpl.
  rewrite Hcopy. destruct (decide (err <> PLCRASH_ESUCCESS)); [reflexivity|contradiction].
Qed.

(** C7 (the code departs from it). The class [Foo] with [methods == 0] and
    [CLS_NO_METHOD_ARRAY] unset, in a target whose address 0 is not mapped:
    the parse of the class returns the failure of the copy from address 0. With
    the flag set, the same null pointer ends the parse at once, with success. *)
Theorem obj1_null_method_array_is_read :
  fst (plcrash_async_task_memcpy Target.empty_class_image 0 4) = PLCRASH_ENOTFOUND
  /\ swap32 (byteorder Target.empty_class_image) (pl_objc1_class_methods Target.empty_class) = 0
  /\ Z.land (swap32 (byteorder Target.empty_class_image) (pl_objc1_class_info Target.empty_class))
       CLS_NO_METHOD_ARRAY = 0
  /\ pl_async_parse_obj1_class Target.empty_class_image record_callback 8 Target.empty_class
       false []
     = Some (PLCRASH_ENOTFOUND, [])
  /\ pl_async_parse_obj1_class Target.empty_class_image record_callback 8
       Target.empty_class_single false []
     = Some (PLCRASH_ESUCCESS, []).
Proof.
  split; [vm_compute; reflexivity|].
  split; [vm_compute; reflexivity|].
  split; [vm_compute; reflexivity|].
  split; vm_compute; reflexivity.
Qed.

(* ===================================================================== *)
(** * What every call keeps true of the cache *)
(* ===================================================================== *)

(** A property of caches that [cache_set] keeps is kept by the ObjC2 class
    walk; one that [map_sections] and the setting of the latch keep as well is
    kept by the unified parser and by the search. *)
Section CacheInvariant.
Variable P : plcrash_async_objc_cache_t -> Prop.
Variable host : host_t.
Hypothesis Hset : forall c k v, P c -> P (cache_set host c k v).

Lemma pl_async_objc_parse_objc2_class_keeps {Ctx : Type} (image : plcrash_async_macho_t)
    (callback : plcrash_async_objc_found_method_cb Ctx) (is64 : bool)
    (c : plcrash_async_objc_cache_t) (cls : bytes) (is_meta_class : bool) (ctx : Ctx) :
  P c -> P (snd (pl_async_objc_parse_objc2_class host image callback is64 c cls is_meta_class ctx)).
Proof using Hset.
  intros Hc. unfold pl_async_objc_parse_objc2_class. cbv zeta.
  repeat case_match; simpl; auto.
Qed.

Lemma pl_async_objc_parse_classes_keeps {Ctx : Type} (image : plcrash_async_macho_t)
    (callback : plcrash_async_objc_found_method_cb Ctx) (classPtrs_32 classPtrs_64 : bytes) (n : nat) :
  forall i ctx c,
    P c ->
    P (snd (pl_async_objc_parse_classes host image callback classPtrs_32 classPtrs_64 n i ctx c)).
Proof using Hset.
  induction n as [|n IH]; intros i ctx c Hc; simpl; [exact Hc|].
  destruct (plcrash_async_mobject_remap_address _ _ _ _) as [classPtr|]; [|exact Hc].
  pose proof (pl_async_objc_parse_objc2_class_keeps image callback (m64 image) c classPtr false ctx Hc)
    as H1.
  destruct (pl_async_objc_parse_objc2_class host image callback (m64 image) c classPtr false ctx)
    as [[e s] c1].
  simpl in H1.
  destruct (decide (e <> PLCRASH_ESUCCESS)); [exact H1|].
  destruct (plcrash_async_mobject_remap_address _ _ _ _) as [metaclassPtr|]; [|exact H1].
  pose proof (pl_async_objc_parse_objc2_class_keeps image callback (m64 image) c1 metaclassPtr true s H1)
    as H2.
  destruct (pl_async_objc_parse_objc2_class host image callback (m64 image) c1 metaclassPtr true s)
    as [[e' s'] c2].
  simpl in H2.
  destruct (decide (e' <> PLCRASH_ESUCCESS)); [exact H2|].
  apply IH. exact H2.
Qed.

Lemma pl_async_objc_parse_from_data_section_keeps {Ctx : Type} (image : plcrash_async_macho_t)
    (callback : plcrash_async_objc_found_method_cb Ctx) (c : plcrash_async_objc_cache_t) (ctx : Ctx) :
  P (snd (map_sections image c)) ->
  P (snd (pl_async_objc_parse_from_data_section host image callback c ctx)).
Proof using Hset.
  unfold pl_async_objc_parse_from_data_section.
  destruct (map_sections image c) as [err c0]. simpl. intros Hc.
  destruct (decide (err <> PLCRASH_ESUCCESS)); [exact Hc|].
  destruct (plcrash_async_mobject_remap_address (classMobj c0) _ _ _) as [classPtrs|]; [|exact Hc].
  cbv zeta.
  match goal with
  | |- context [pl_async_objc_parse_classes host image callback ?p32 ?p64 ?n ?i ctx c0] =>
      pose proof (pl_async_objc_parse_classes_keeps image callback p32 p64 n i ctx c0 Hc) as H1;
      destruct (pl_async_objc_parse_classes host image callback p32 p64 n i ctx c0) as [[e s] c1]
  end.
  simpl in H1.
  destruct (decide (e <> PLCRASH_ESUCCESS)); [exact H1|].
  destruct (plcrash_async_mobject_remap_address (catMobj c1) _ _ _) as [catPtrs|]; [|exact H1].
  destruct (pl_async_objc_parse_categories _ _ _ _ _ _ _) as [e' s'].
  exact H1.
Qed.

Hypothesis Hmap : forall image c, P c -> P (snd (map_sections image c)).
Hypothesis Hlatch : forall c, P c -> P (set_gotObjC2Info true c).

Lemma plcrash_async_objc_parse_keeps {Ctx : Type} (fuel : nat) (image : plcrash_async_macho_t)
    (c : plcrash_async_objc_cache_t) (callback : plcrash_async_objc_found_method_cb Ctx) (ctx : Ctx)
    (e : plcrash_error_t) (s : Ctx) (r : option plcrash_async_objc_cache_t) :
  P c ->
  plcrash_async_objc_parse host fuel image (Some c) callback ctx = Some (e, s, r) ->
  exists c', r = Some c' /\ P c'.
Proof using Hset Hmap Hlatch.
  intros Hc. unfold plcrash_async_objc_parse.
  destruct (if negb (gotObjC2Info c) then _ else _) as [[e1 s1]|]; simpl; [|discriminate].
  destruct (decide (e1 = PLCRASH_ENOTFOUND)).
  - pose proof (pl_async_objc_parse_from_data_section_keeps image callback c s1 (Hmap image c Hc))
      as H2.
    destruct (pl_async_objc_parse_from_data_section host image callback c s1) as [[e2 s2] c2].
    simpl in H2.
    destruct (decide (e2 = PLCRASH_ESUCCESS)); intros [= <- <- <-]; eauto.
  - intros [= <- <- <-]. eauto.
Qed.

Lemma plcrash_async_objc_find_method_keeps {Ctx : Type} (fuel : nat) (image : plcrash_async_macho_t)
    (c : plcrash_async_objc_cache_t) (imp : Z) (callback : plcrash_async_objc_found_method_cb Ctx)
    (ctx : Ctx) (e : plcrash_error_t) (s : Ctx) (r : option plcrash_async_objc_cache_t) :
  P c ->
  plcrash_async_objc_find_method host fuel image (Some c) imp callback ctx = Some (e, s, r) ->
  exists c', r = Some c' /\ P c'.
Proof using Hset Hmap Hlatch.
  intros Hc. unfold plcrash_async_objc_find_method.
  destruct (plcrash_async_objc_parse host fuel image (Some c)
              pl_async_objc_find_method_search_callback _) as [[[e1 s1] r1]|] eqn:H1;
    simpl; [|discriminate].
  destruct (plcrash_async_objc_parse_keeps _ _ _ _ _ _ _ _ Hc H1) as (c1 & -> & Hc1).
  destruct (decide (e1 <> PLCRASH_ESUCCESS)); [intros [= <- <- <-]; eauto|].
  destruct (bestIMP s1 =? 0); [intros [= <- <- <-]; eauto|].
  destruct (plcrash_async_objc_parse host fuel image (Some c1)
              pl_async_objc_find_method_call_callback _) as [[[e2 s2] r2]|] eqn:H2;
    simpl; [|discriminate].
  intros [= <- <- <-].
  exact (plcrash_async_objc_parse_keeps _ _ _ _ _ _ _ _ Hc1 H2).
Qed.
End CacheInvariant.

Lemma cache_set_arena (host : host_t) (c : plcrash_async_objc_cache_t) (k v : Z) :
  cache_arena_ok c -> cache_arena_ok (cache_set host c k v).
Proof.
  assert (Hbucket : forall c', cache_arena_ok c' -> classCacheKeys c' <> None ->
                               cache_arena_ok (cache_set_bucket c' k v)).
  { intros c' Hok Hal.
    destruct (cache_arena_allocated c' Hok Hal) as (ks & vs & Hks & Hvs & Hs & Hkl & Hvl).
    destruct (Z.eq_dec (fst (bucket c' (bucket_of k))) 0) as [Hempty|Hocc].
    - apply (cache_set_bucket_empty c' ks vs Hks Hvs Hs Hkl Hvl k v Hempty).
    - rewrite (cache_set_bucket_occupied c' Hs k v Hocc). exact Hok. }
  intros Hok. unfold cache_set.
  destruct (classCacheKeys c) as [ks|] eqn:Hks.
  - apply Hbucket; [exact Hok|congruence].
  - cbv zeta. destruct (vm_allocate host =? KERN_SUCCESS).
    + apply Hbucket; [|discriminate].
      unfold cache_arena_ok.
      cbn [classCacheKeys classCacheValues classCacheSize
           set_classCacheValues set_classCacheKeys set_classCacheSize].
      rewrite !length_replicate. auto.
    + unfold cache_arena_ok.
      cbn [classCacheKeys classCacheValues classCacheSize set_classCacheSize].
      rewrite Hks. reflexivity.
Qed.

Lemma map_sections_arena (image : plcrash_async_macho_t) (c : plcrash_async_objc_cache_t) :
  cache_arena_ok c -> cache_arena_ok (snd (map_sections image c)).
Proof.
  destruct (map_sections_frame image c) as (_ & Hs & Hk & Hv).
  unfold cache_arena_ok. rewrite Hs, Hk, Hv. auto.
Qed.

(** X1. The class cache arena is always in one of two states: absent, with
    size 0, or two arrays of 1024 entries with size 1024.
    [plcrash_async_objc_cache_init] gives the first; [cache_set] keeps the
    property whatever the kernel answers; so do the unified parser and
    [plcrash_async_objc_find_method], for every image, callback and number of
    rounds. Hence whenever [cache_lookup] sees a positive size, the index it
    computes is inside both arrays. *)
Theorem class_cache_arena_invariant :
  (forall c, cache_arena_ok (snd (plcrash_async_objc_cache_init c)))
  /\ (forall host c k v, cache_arena_ok c -> cache_arena_ok (cache_set host c k v))
  /\ (forall (Ctx : Type) host fuel image c (callback : plcrash_async_objc_found_method_cb Ctx)
        ctx e s r,
        cache_arena_ok c ->
        plcrash_async_objc_parse host fuel image (Some c) callback ctx = Some (e, s, r) ->
        exists c', r = Some c' /\ cache_arena_ok c')
  /\ (forall (Ctx : Type) host fuel image c imp (callback : plcrash_async_objc_found_method_cb Ctx)
        ctx e s r,
        cache_arena_ok c ->
        plcrash_async_objc_find_method host fuel image (Some c) imp callback ctx = Some (e, s, r) ->
        exists c', r = Some c' /\ cache_arena_ok c')
  /\ (forall c key,
        cache_arena_ok c -> 0 < classCacheSize c ->
        exists ks vs,
          classCacheKeys c = Some ks /\ classCacheValues c = Some vs
          /\ is_Some (ks !! Z.to_nat (cache_index c key))
          /\ is_Some (vs !! Z.to_nat (cache_index c key))).
Proof.
  assert (Hlatch : forall c, cache_arena_ok c -> cache_arena_ok (set_gotObjC2Info true c))
    by (intros c Hc; exact Hc).
  split; [|split; [|split; [|split]]].
  - intros c. reflexivity.
  - exact cache_set_arena.
  - intros Ctx host fuel image c callback ctx e s r.
    exact (plcrash_async_objc_parse_keeps cache_arena_ok host (cache_set_arena host)
             map_sections_arena Hlatch fuel image c callback ctx e s r).
  - intros Ctx host fuel image c imp callback ctx e s r.
    exact (plcrash_async_objc_find_method_keeps cache_arena_ok host (cache_set_arena host)
             map_sections_arena Hlatch fuel image c imp callback ctx e s r).
  - intros c key Hok Hpos.
    assert (Hal : classCacheKeys c <> None).
    { intros Hnone. unfold cache_arena_ok in Hok. rewrite Hnone in Hok. lia. }
    destruct (cache_arena_allocated c Hok Hal) as (ks & vs & Hks & Hvs & Hs & Hkl & Hvl).
    exists ks, vs. split; [exact Hks|]. split; [exact Hvs|].
    rewrite (cache_index_bucket_of c key Hs).
    pose proof (bucket_of_range key) as Hr.
    split; apply lookup_lt_is_Some; lia.
Qed.

(** X1, an instance: the cache a parse of the ObjC2 image of [Bar] leaves on a
    fresh cache has its arena, of 1024 entries. *)
Lemma class_cache_arena_invariant_witness :
  cache_arena_ok Target.latched_cache /\ classCacheSize Target.latched_cache = 1024.
Proof.
  split; [|vm_compute; reflexivity].
  assert (Hfresh : cache_arena_ok Target.fresh_cache) by reflexivity.
  assert (Hrun : plcrash_async_objc_parse Target.host 8%nat (Target.objc2_image [0x12050])
                   (Some Target.fresh_cache) record_callback []
                 = Some (PLCRASH_ESUCCESS, [Target.bar_hello], Some Target.latched_cache))
    by (vm_compute; reflexivity).
  destruct (proj1 (proj2 (proj2 class_cache_arena_invariant)) _ _ _ _ _ _ _ _ _ _ Hfresh Hrun)
    as (c' & Heq & Hok).
  apply (inj Some) in Heq. subst c'. exact Hok.
Defined.

Lemma cache_set_same_sections (host : host_t) (c0 c : plcrash_async_objc_cache_t) (k v : Z) :
  same_sections c0 c -> same_sections c0 (cache_set host c k v).
Proof.
  unfold same_sections, cache_set, cache_set_bucket. intros H.
  repeat case_match; exact H.
Qed.

(** X2. The ObjC2 walk writes nothing but the class cache: parsing a class
    leaves the latch, [lastImage], the four section flags and the four memory
    objects as they were, and so does the whole walk of the data section once
    [map_sections] has run. The local pointers the walk holds into the mapped
    sections therefore stay pointers into the sections of the cache. *)
Theorem objc2_walk_writes_class_cache_only {Ctx : Type} (host : host_t)
    (image : plcrash_async_macho_t) (callback : plcrash_async_objc_found_method_cb Ctx)
    (c : plcrash_async_objc_cache_t) (ctx : Ctx) :
  (forall is64 cls is_meta_class,
      same_sections c
        (snd (pl_async_objc_parse_objc2_class host image callback is64 c cls is_meta_class ctx)))
  /\ same_sections (snd (map_sections image c))
       (snd (pl_async_objc_parse_from_data_section host image callback c ctx)).
Proof.
  assert (Hrefl : forall c0, same_sections c0 c0) by (intros c0; repeat split).
  split.
  - intros is64 cls is_meta_class.
    apply (pl_async_objc_parse_objc2_class_keeps (same_sections c) host
             (cache_set_same_sections host c)).
    apply Hrefl.
  - apply (pl_async_objc_parse_from_data_section_keeps (same_sections (snd (map_sections image c)))
             host (cache_set_same_sections host _)).
    apply Hrefl.
Qed.

Lemma cache_set_sections_ok (host : host_t) (c : plcrash_async_objc_cache_t) (k v : Z) :
  sections_ok c -> sections_ok (cache_set host c k v).
Proof.
  unfold sections_ok, cache_set, cache_set_bucket. intros H.
  repeat case_match; exact H.
Qed.

(** What [map_sections] leaves in the section slots: after a failure no image
    is named; after a success the image is named, and the four slots are
    initialized unless the call has returned at once. *)
Lemma map_sections_slots (image : plcrash_async_macho_t) (c : plcrash_async_objc_cache_t) :
  let c' := snd (map_sections image c) in
  (macho_address image = lastImage c /\ map_sections image c = (PLCRASH_ESUCCESS, c))
  \/ (macho_address image <> lastImage c
      /\ ((fst (map_sections image c) <> PLCRASH_ESUCCESS /\ lastImage c' = 0)
          \/ (fst (map_sections image c) = PLCRASH_ESUCCESS
              /\ lastImage c' = macho_address image
              /\ objcConstMobjInitialized c' = true /\ classMobjInitialized c' = true
              /\ catMobjInitialized c' = true /\ objcDataMobjInitialized c' = true))).
Proof.
  unfold map_sections.
  destruct (Z.eqb_spec (macho_address image) (lastImage c)) as [Heq|Hne]; [left; auto|].
  right. split; [exact Hne|].
  rewrite free_mapped_sections_spec.
  repeat (destruct (plcrash_async_macho_map_section image _ _) as [? ?];
          destruct (decide (_ <> PLCRASH_ESUCCESS)); [left; simpl; auto|]).
  right. simpl. repeat split; try reflexivity.
  apply dec_stable. assumption.
Qed.

Lemma map_sections_sections_ok (image : plcrash_async_macho_t) (c : plcrash_async_objc_cache_t) :
  sections_ok c -> sections_ok (snd (map_sections image c)).
Proof.
  intros Hok.
  destruct (map_sections_slots image c) as [[_ ->]|[_ [[_ H0]|(_ & _ & H)]]].
  - exact Hok.
  - intros Hne. contradiction.
  - intros _. exact H.
Qed.

(** X3. A cache that names an image holds the four sections of an image:
    [lastImage] is non-null only when the four slots are initialized. The
    property holds after [plcrash_async_objc_cache_init] and is kept by the
    unified parser and by [plcrash_async_objc_find_method]. It is what makes
    the shortcut of [map_sections] sound: when the cache has the property and
    [map_sections] returns success for an image that is not at the null
    address, the four slots are initialized, also when the call returned at
    once. *)
Theorem last_image_implies_sections_mapped :
  (forall c, sections_ok (snd (plcrash_async_objc_cache_init c)))
  /\ (forall (Ctx : Type) host fuel image c (callback : plcrash_async_objc_found_method_cb Ctx)
        ctx e s r,
        sections_ok c ->
        plcrash_async_objc_parse host fuel image (Some c) callback ctx = Some (e, s, r) ->
        exists c', r = Some c' /\ sections_ok c')
  /\ (forall (Ctx : Type) host fuel image c imp (callback : plcrash_async_objc_found_method_cb Ctx)
        ctx e s r,
        sections_ok c ->
        plcrash_async_objc_find_method host fuel image (Some c) imp callback ctx = Some (e, s, r) ->
        exists c', r = Some c' /\ sections_ok c')
  /\ (forall image c,
        sections_ok c -> macho_address image <> 0 ->
        fst (map_sections image c) = PLCRASH_ESUCCESS ->
        let c' := snd (map_sections image c) in
        lastImage c' = macho_address image
        /\ objcConstMobjInitialized c' = true /\ classMobjInitialized c' = true
        /\ catMobjInitialized c' = true /\ objcDataMobjInitialized c' = true).
Proof.
  assert (Hlatch : forall c, sections_ok c -> sections_ok (set_gotObjC2Info true c))
    by (intros c Hc; exact Hc).
  split; [|split; [|split]].
  - intros c Hne. simpl in Hne. contradiction.
  - intros Ctx host fuel image c callback ctx e s r.
    exact (plcrash_async_objc_parse_keeps sections_ok host (cache_set_sections_ok host)
             map_sections_sections_ok Hlatch fuel image c callback ctx e s r).
  - intros Ctx host fuel image c imp callback ctx e s r.
    exact (plcrash_async_objc_find_method_keeps sections_ok host (cache_set_sections_ok host)
             map_sections_sections_ok Hlatch fuel image c imp callback ctx e s r).
  - intros image c Hok Hnz Hsucc.
    destruct (map_sections_slots image c) as [[Heq Hres]|[_ [[Hfail _]|(_ & H)]]].
    + cbv zeta. rewrite Hres. simpl. split; [symmetry; exact Heq|].
      apply Hok. congruence.
    + contradiction.
    + exact H.
Qed.

(** X3, an instance: the search of the ObjC2 image of [Bar] on a fresh cache
    leaves a cache with the property, and a second [map_sections] for the
    image returns at once on initialized slots. *)
Lemma last_image_implies_sections_mapped_witness :
  sections_ok Target.latched_cache
  /\ objcDataMobjInitialized (snd (map_sections (Target.objc2_image [0x12050]) Target.latched_cache))
     = true.
Proof.
  assert (Hfresh : sections_ok Target.fresh_cache)
    by (intros Hne; simpl in Hne; contradiction).
  assert (Hrun : plcrash_async_objc_parse Target.host 8%nat (Target.objc2_image [0x12050])
                   (Some Target.fresh_cache) record_callback []
                 = Some (PLCRASH_ESUCCESS, [Target.bar_hello], Some Target.latched_cache))
    by (vm_compute; reflexivity).
  assert (Hok : sections_ok Target.latched_cache).
  { destruct (proj1 (proj2 last_image_implies_sections_mapped) _ _ _ _ _ _ _ _ _ _ Hfresh Hrun)
      as (c' & Heq & Hok).
    apply (inj Some) in Heq. subst c'. exact Hok. }
  split; [exact Hok|].
  assert (Hnz : macho_address (Target.objc2_image [0x12050]) <> 0) by (simpl; lia).
  assert (Hsucc : fst (map_sections (Target.objc2_image [0x12050]) Target.latched_cache)
                  = PLCRASH_ESUCCESS) by (vm_compute; reflexivity).
  apply (proj2 (proj2 (proj2 last_image_implies_sections_mapped)) _ _ Hok Hnz Hsucc).
Defined.

(* ===================================================================== *)
(** * Images without the data the parser looks for *)
(* ===================================================================== *)

Lemma plcrash_async_objc_parse_no_data {Ctx : Type} (host : host_t) (fuel : nat)
    (image : plcrash_async_macho_t) (c : plcrash_async_objc_cache_t)
    (callback : plcrash_async_objc_found_method_cb Ctx) (ctx : Ctx) (e : plcrash_error_t) :
  gotObjC2Info c = true
  \/ fst (plcrash_async_macho_map_section image kObjCSegmentName kObjCModuleInfoSectionName)
     = PLCRASH_ENOTFOUND ->
  macho_address image <> lastImage c ->
  fst (plcrash_async_macho_map_section image kDataSegmentName kObjCConstSectionName) = e ->
  e <> PLCRASH_ESUCCESS ->
  plcrash_async_objc_parse host fuel image (Some c) callback ctx
  = Some (e, ctx, Some (set_lastImage 0 (free_mapped_sections c))).
Proof.
  intros Hobjc1 Hother He Hfail.
  assert (Hstage1 :
            (if negb (gotObjC2Info c)
             then pl_async_objc_parse_from_module_info image callback fuel ctx
             else Some (PLCRASH_ENOTFOUND, ctx)) = Some (PLCRASH_ENOTFOUND, ctx)).
  { destruct (gotObjC2Info c); [reflexivity|].
    destruct Hobjc1 as [Hg|Hm]; [discriminate|].
    cbn [negb]. unfold pl_async_objc_parse_from_module_info.
    destruct (plcrash_async_macho_map_section image kObjCSegmentName kObjCModuleInfoSectionName)
      as [err m].
    cbn [fst] in Hm. subst err.
    destruct (decide (PLCRASH_ENOTFOUND <> PLCRASH_ESUCCESS)) as [_|Hn]; [reflexivity|].
    exfalso. apply Hn. discriminate. }
  assert (Hstage2 :
            pl_async_objc_parse_from_data_section host image callback c ctx
            = (e, ctx, set_lastImage 0 (free_mapped_sections c))).
  { unfold pl_async_objc_parse_from_data_section, map_sections.
    rewrite (proj2 (Z.eqb_neq _ _) Hother).
    destruct (plcrash_async_macho_map_section image kDataSegmentName kObjCConstSectionName)
      as [err m].
    cbn [fst] in He. subst err.
    destruct (decide (e <> PLCRASH_ESUCCESS)); [|contradiction].
    destruct (decide (e <> PLCRASH_ESUCCESS)); [reflexivity|contradiction]. }
  unfold plcrash_async_objc_parse. rewrite Hstage1. cbn [mbind option_bind].
  destruct (decide (PLCRASH_ENOTFOUND = PLCRASH_ENOTFOUND)); [|contradiction].
  rewrite Hstage2.
  destruct (decide (e = PLCRASH_ESUCCESS)); [contradiction|reflexivity].
Qed.

(** X4. An image without Objective-C data is reported as such, and the
    callback is not invoked. When the ObjC1 walk is not run (the latch is set)
    or finds no [__OBJC,__module_info], and the image is not the one the cache
    names, a failure [e] to map [__DATA,__objc_const] is the status of the
    unified parser and of [plcrash_async_objc_find_method], for every number of
    rounds; the callback context is returned as it was given, and the cache
    names no image and holds no section. In particular, once the latch is set,
    an image that has ObjC1 data only is no longer enumerated. *)
Theorem image_without_objc_data_is_reported {Ctx : Type} (host : host_t) (fuel : nat)
    (image : plcrash_async_macho_t) (c : plcrash_async_objc_cache_t) (imp : Z)
    (callback : plcrash_async_objc_found_method_cb Ctx) (ctx : Ctx) (e : plcrash_error_t) :
  gotObjC2Info c = true
  \/ fst (plcrash_async_macho_map_section image kObjCSegmentName kObjCModuleInfoSectionName)
     = PLCRASH_ENOTFOUND ->
  macho_address image <> lastImage c ->
  fst (plcrash_async_macho_map_section image kDataSegmentName kObjCConstSectionName) = e ->
  e <> PLCRASH_ESUCCESS ->
  let c' := set_lastImage 0 (free_mapped_sections c) in
  plcrash_async_objc_parse host fuel image (Some c) callback ctx = Some (e, ctx, Some c')
  /\ plcrash_async_objc_find_method host fuel image (Some c) imp callback ctx = Some (e, ctx, Some c')
  /\ mapped_sections c' = [].
Proof.
  intros Hobjc1 Hother He Hfail. cbv zeta.
  split; [|split].
  - apply plcrash_async_objc_parse_no_data; assumption.
  - unfold plcrash_async_objc_find_method.
    rewrite (plcrash_async_objc_parse_no_data host fuel image c _ _ e Hobjc1 Hother He Hfail).
    cbn [mbind option_bind].
    destruct (decide (e <> PLCRASH_ESUCCESS)); [reflexivity|contradiction].
  - rewrite free_mapped_sections_spec. reflexivity.
Qed.

(** X4, two instances: an image without Objective-C sections on a fresh
    cache, and the ObjC1 image of [Foo] on a cache whose latch is set (on a
    fresh cache its three methods are enumerated). *)
Lemma image_without_objc_data_is_reported_witness :
  plcrash_async_objc_find_method Target.host 8 Target.plain_image (Some Target.fresh_cache) 0x1234
    record_callback []
  = Some (PLCRASH_ENOTFOUND, [], Some (set_lastImage 0 (free_mapped_sections Target.fresh_cache)))
  /\ enumerate Target.host 8 Target.foo_image_elsewhere (Some Target.latched_cache)
     = Some (PLCRASH_ENOTFOUND, [],
             Some (set_lastImage 0 (free_mapped_sections Target.latched_cache)))
  /\ outcome (enumerate Target.host 8 Target.foo_image_elsewhere (Some Target.fresh_cache))
     = Some (PLCRASH_ESUCCESS, [Target.foo_bar; Target.foo_baz; Target.foo_qux]).
Proof.
  split; [|split].
  - assert (H1 : gotObjC2Info Target.fresh_cache = true
                 \/ fst (plcrash_async_macho_map_section Target.plain_image kObjCSegmentName
                           kObjCModuleInfoSectionName) = PLCRASH_ENOTFOUND)
      by (right; reflexivity).
    assert (H2 : macho_address Target.plain_image <> lastImage Target.fresh_cache)
      by (simpl; lia).
    assert (H3 : fst (plcrash_async_macho_map_section Target.plain_image kDataSegmentName
                        kObjCConstSectionName) = PLCRASH_ENOTFOUND) by reflexivity.
    assert (H4 : PLCRASH_ENOTFOUND <> PLCRASH_ESUCCESS) by discriminate.
    exact (proj1 (proj2 (image_without_objc_data_is_reported Target.host 8 Target.plain_image
                           Target.fresh_cache 0x1234 record_callback [] PLCRASH_ENOTFOUND
                           H1 H2 H3 H4))).
  - assert (H1 : gotObjC2Info Target.latched_cache = true
                 \/ fst (plcrash_async_macho_map_section Target.foo_image_elsewhere kObjCSegmentName
                           kObjCModuleInfoSectionName) = PLCRASH_ENOTFOUND)
      by (left; vm_compute; reflexivity).
    assert (H2 : macho_address Target.foo_image_elsewhere <> lastImage Target.latched_cache)
      by (vm_compute; discriminate).
    assert (H3 : fst (plcrash_async_macho_map_section Target.foo_image_elsewhere kDataSegmentName
                        kObjCConstSectionName) = PLCRASH_ENOTFOUND) by reflexivity.
    assert (H4 : PLCRASH_ENOTFOUND <> PLCRASH_ESUCCESS) by discriminate.
    exact (proj1 (image_without_objc_data_is_reported Target.host 8 Target.foo_image_elsewhere
                    Target.latched_cache 0 record_callback [] PLCRASH_ENOTFOUND H1 H2 H3 H4)).
  - vm_compute. reflexivity.
Defined.

(** X5. On an image whose ObjC1 walk succeeds, searched with a cache whose
    latch is clear, [plcrash_async_objc_find_method] is walk-then-find over the
    methods of that walk, with nothing assumed of the second pass: the callback
    is invoked once, on the first method at the greatest IMP not above the
    target, and the status is success; when there is no such IMP but 0 the
    status is not-found and the callback is not invoked. The cache is returned
    as it was given: the ObjC1 walker never writes to it. *)
Theorem objc1_search_is_walk_then_find {Ctx : Type} (host : host_t) (fuel : nat)
    (image : plcrash_async_macho_t) (c : plcrash_async_objc_cache_t) (target : Z)
    (callback : plcrash_async_objc_found_method_cb Ctx) (ctx : Ctx) (methods : list found_method) :
  gotObjC2Info c = false ->
  pl_async_objc_parse_from_module_info image record_callback fuel []
  = Some (PLCRASH_ESUCCESS, methods) ->
  enumerate host fuel image (Some c) = Some (PLCRASH_ESUCCESS, methods, Some c)
  /\ plcrash_async_objc_find_method host fuel image (Some c) target callback ctx
     = Some (match walk_then_find target methods with
             | Some m => (PLCRASH_ESUCCESS, deliver callback ctx m, Some c)
             | None => (PLCRASH_ENOTFOUND, ctx, Some c)
             end).
Proof.
  intros Hg Hwalk.
  assert (Henum : enumerate host fuel image (Some c) = Some (PLCRASH_ESUCCESS, methods, Some c)).
  { unfold enumerate, plcrash_async_objc_parse. rewrite Hg. cbn [negb]. rewrite Hwalk.
    cbn [mbind option_bind].
    destruct (decide (PLCRASH_ESUCCESS = PLCRASH_ENOTFOUND)); [discriminate|reflexivity]. }
  split; [exact Henum|].
  rewrite plcrash_async_objc_find_method_enumerate, Henum.
  destruct (decide (PLCRASH_ESUCCESS <> PLCRASH_ESUCCESS)); [contradiction|].
  cbv zeta. unfold walk_then_find.
  destruct (Z.eqb_spec (max_imp_le target (map fm_imp methods)) 0) as [Hzero|Hbest];
    [reflexivity|].
  rewrite Henum.
  destruct (max_imp_le_attained target (map fm_imp methods)) as [H0|[_ Hin]]; [contradiction|].
  destruct (first_with_imp_member _ _ Hin) as [m ->]. reflexivity.
Qed.

(** X5, two instances on the ObjC1 image of [Foo]: the search for 0x2FFF
    hands [-baz] to the callback; the search for 0xFFF finds nothing. *)
Lemma objc1_search_is_walk_then_find_witness :
  plcrash_async_objc_find_method Target.host 8 Target.foo_image (Some Target.fresh_cache) 0x2FFF
    record_callback []
  = Some (PLCRASH_ESUCCESS, [Target.foo_baz], Some Target.fresh_cache)
  /\ plcrash_async_objc_find_method Target.host 8 Target.foo_image (Some Target.fresh_cache) 0xFFF
       record_callback []
     = Some (PLCRASH_ENOTFOUND, [], Some Target.fresh_cache).
Proof.
  assert (Hg : gotObjC2Info Target.fresh_cache = false) by reflexivity.
  assert (Hwalk : pl_async_objc_parse_from_module_info Target.foo_image record_callback 8 []
                  = Some (PLCRASH_ESUCCESS, [Target.foo_bar; Target.foo_baz; Target.foo_qux]))
    by (vm_compute; reflexivity).
  split.
  - exact (proj2 (objc1_search_is_walk_then_find Target.host 8 Target.foo_image Target.fresh_cache
                    0x2FFF record_callback [] _ Hg Hwalk)).
  - exact (proj2 (objc1_search_is_walk_then_find Target.host 8 Target.foo_image Target.fresh_cache
                    0xFFF record_callback [] _ Hg Hwalk)).
Defined.

(* ===================================================================== *)
(** * Mapping again, and releasing *)
(* ===================================================================== *)

(** X6. [map_sections] is idempotent for an image that is not at the null
    address: a second call for the same image gives the status and the cache
    of the first. After a success the second call returns at once; after a
    failure it maps again, up to the same failure, and leaves the slots as the
    first call left them. *)
Theorem map_sections_idempotent (image : plcrash_async_macho_t) (c : plcrash_async_objc_cache_t) :
  macho_address image <> 0 ->
  map_sections image (snd (map_sections image c)) = map_sections image c.
Proof.
  intros Hnz.
  destruct (Z.eqb_spec (macho_address image) (lastImage c)) as [Heq|Hne].
  - assert (H : map_sections image c = (PLCRASH_ESUCCESS, c))
      by (unfold map_sections; rewrite (proj2 (Z.eqb_eq _ _) Heq); reflexivity).
    rewrite H. exact H.
  - destruct (map_sections image c) as [e c1] eqn:Hr. cbn [snd].
    unfold map_sections in Hr. rewrite (proj2 (Z.eqb_neq _ _) Hne) in Hr.
    rewrite free_mapped_sections_spec in Hr.
    unfold map_sections.
    destruct (plcrash_async_macho_map_section image kDataSegmentName kObjCConstSectionName)
      as [e1 m1].
    destruct (decide (e1 <> PLCRASH_ESUCCESS)) as [H1|H1].
    { injection Hr as <- <-. simpl. rewrite (proj2 (Z.eqb_neq _ _) Hnz). reflexivity. }
    destruct (plcrash_async_macho_map_section image kDataSegmentName kClassListSectionName)
      as [e2 m2].
    destruct (decide (e2 <> PLCRASH_ESUCCESS)) as [H2|H2].
    { injection Hr as <- <-. simpl. rewrite (proj2 (Z.eqb_neq _ _) Hnz). reflexivity. }
    destruct (plcrash_async_macho_map_section image kDataSegmentName kCategoryListSectionName)
      as [e3 m3].
    destruct (decide (e3 <> PLCRASH_ESUCCESS)) as [H3|H3].
    { injection Hr as <- <-. simpl. rewrite (proj2 (Z.eqb_neq _ _) Hnz). reflexivity. }
    destruct (plcrash_async_macho_map_section image kDataSegmentName kObjCDataSectionName)
      as [e4 m4].
    destruct (decide (e4 <> PLCRASH_ESUCCESS)) as [H4|H4].
    { injection Hr as <- <-. simpl. rewrite (proj2 (Z.eqb_neq _ _) Hnz). reflexivity. }
    injection Hr as <- <-. simpl. rewrite Z.eqb_refl.
    apply dec_stable in H4. subst e4. reflexivity.
Qed.

(** X6, an instance: the image without [__objc_catlist], whose third mapping
    fails, mapped twice from a fresh cache. *)
Lemma map_sections_idempotent_witness :
  map_sections Target.no_catlist_image (snd (map_sections Target.no_catlist_image Target.fresh_cache))
  = map_sections Target.no_catlist_image Target.fresh_cache
  /\ fst (map_sections Target.no_catlist_image Target.fresh_cache) = PLCRASH_ENOTFOUND.
Proof.
  split; [|vm_compute; reflexivity].
  apply (map_sections_idempotent Target.no_catlist_image Target.fresh_cache).
  simpl. lia.
Defined.

Lemma mapped_sections_freed (c : plcrash_async_objc_cache_t) :
  mapped_sections (free_mapped_sections c) = [].
Proof. rewrite free_mapped_sections_spec. reflexivity. Qed.

Lemma free_mapped_sections_idempotent (c : plcrash_async_objc_cache_t) :
  free_mapped_sections (free_mapped_sections c) = free_mapped_sections c.
Proof. rewrite !free_mapped_sections_spec. reflexivity. Qed.

(** X7. [plcrash_async_objc_cache_free] releases what the cache holds and
    nothing else. On a cache just initialized it releases no section and does
    not call [vm_deallocate]. On a cache whose arena is in one of its two
    states it hands 16384 bytes (1024 keys and 1024 values of 8 bytes) to
    [vm_deallocate] when the arena exists and does not call it otherwise. The
    sections released are those of the initialized slots, after a successful
    [map_sections] the four sections of the image in the order they were
    mapped. The call leaves no slot initialized but leaves the arena pointer
    set: a second call releases no section and hands the same arena to
    [vm_deallocate] again. *)
Theorem cache_free_releases_what_is_held :
  (forall c,
      plcrash_async_objc_cache_free (snd (plcrash_async_objc_cache_init c))
      = (snd (plcrash_async_objc_cache_init c), [], None))
  /\ (forall c,
        cache_arena_ok c ->
        snd (plcrash_async_objc_cache_free c)
        = match classCacheKeys c with Some _ => Some 16384 | None => None end)
  /\ (forall image c,
        macho_address image <> lastImage c ->
        fst (map_sections image c) = PLCRASH_ESUCCESS ->
        snd (fst (plcrash_async_objc_cache_free (snd (map_sections image c))))
        = [ snd (plcrash_async_macho_map_section image kDataSegmentName kObjCConstSectionName);
            snd (plcrash_async_macho_map_section image kDataSegmentName kClassListSectionName);
            snd (plcrash_async_macho_map_section image kDataSegmentName kCategoryListSectionName);
            snd (plcrash_async_macho_map_section image kDataSegmentName kObjCDataSectionName) ])
  /\ (forall c,
        let '(c1, released, size) := plcrash_async_objc_cache_free c in
        mapped_sections c1 = []
        /\ classCacheKeys c1 = classCacheKeys c
        /\ plcrash_async_objc_cache_free c1 = (c1, [], size)).
Proof.
  split; [|split; [|split]].
  - intros c. reflexivity.
  - intros c Hok. unfold plcrash_async_objc_cache_free. cbn [snd].
    rewrite free_mapped_sections_spec. cbn [classCacheKeys].
    destruct (classCacheKeys c) as [ks|] eqn:Hks; [|reflexivity].
    destruct (cache_arena_allocated c Hok ltac:(congruence)) as (ks' & vs & _ & _ & Hs & _).
    unfold cache_allocation_size. cbn [classCacheSize]. rewrite Hs. reflexivity.
  - intros image c Hne Hsucc.
    unfold plcrash_async_objc_cache_free. cbn [fst snd].
    revert Hsucc. unfold map_sections. rewrite (proj2 (Z.eqb_neq _ _) Hne).
    rewrite free_mapped_sections_spec.
    repeat (destruct (plcrash_async_macho_map_section image _ _) as [? ?];
            destruct (decide (_ <> PLCRASH_ESUCCESS)); [simpl; intros ?; contradiction|]).
    intros _. reflexivity.
  - intros c. unfold plcrash_async_objc_cache_free.
    split; [apply mapped_sections_freed|].
    split; [rewrite free_mapped_sections_spec; reflexivity|].
    rewrite mapped_sections_freed, free_mapped_sections_idempotent. reflexivity.
Qed.

(** X7, an instance: releasing the cache a parse of the ObjC2 image of [Bar]
    has left hands the arena of 16384 bytes to the kernel. *)
Lemma cache_free_releases_what_is_held_witness :
  snd (plcrash_async_objc_cache_free Target.latched_cache) = Some 16384
  /\ length (snd (fst (plcrash_async_objc_cache_free Target.latched_cache))) = 4%nat.
Proof.
  split; [|vm_compute; reflexivity].
  assert (Hfresh : cache_arena_ok Target.fresh_cache) by reflexivity.
  assert (Hrun : plcrash_async_objc_parse Target.host 8%nat (Target.objc2_image [0x12050])
                   (Some Target.fresh_cache) record_callback []
                 = Some (PLCRASH_ESUCCESS, [Target.bar_hello], Some Target.latched_cache))
    by (vm_compute; reflexivity).
  destruct (plcrash_async_objc_parse_keeps cache_arena_ok Target.host (cache_set_arena Target.host)
              map_sections_arena (fun c H => H) _ _ _ _ _ _ _ _ Hfresh Hrun) as (c' & Heq & Hok).
  apply (inj Some) in Heq. subst c'.
  rewrite (proj1 (proj2 cache_free_releases_what_is_held) Target.latched_cache Hok).
  vm_compute. reflexivity.
Defined.

(* ===================================================================== *)
(** * The methods of a list, in order *)
(* ===================================================================== *)

Lemma map_seq_S {A : Type} (f : nat -> A) (n : nat) :
  map f (seq 0 (S n)) = f O :: map (fun j => f (S j)) (seq 0 n).
Proof. cbn [seq map]. rewrite <- seq_shift, map_map. reflexivity. Qed.

Lemma leading_successes_failure (e : plcrash_error_t) (rest : list plcrash_error_t) :
  e <> PLCRASH_ESUCCESS -> leading_successes (e :: rest) = O.
Proof. destruct e; intros He; try reflexivity. contradiction. Qed.

(** The statuses before the first failure are successes, and the status at
    it, when there is one, is not. *)
Lemma leading_successes_spec (statuses : list plcrash_error_t) :
  (leading_successes statuses <= length statuses)%nat
  /\ (forall j, (j < leading_successes statuses)%nat ->
                nth j statuses PLCRASH_ESUCCESS = PLCRASH_ESUCCESS)
  /\ ((leading_successes statuses < length statuses)%nat ->
      nth (leading_successes statuses) statuses PLCRASH_ESUCCESS <> PLCRASH_ESUCCESS).
Proof.
  induction statuses as [|e rest (IH1 & IH2 & IH3)]; [simpl; repeat split; intros; lia|].
  destruct (decide (e = PLCRASH_ESUCCESS)) as [->|He].
  - cbn [leading_successes length]. split; [lia|]. split.
    + intros [|j] Hj; [reflexivity|]. cbn [nth]. apply IH2. lia.
    + intros Hlt. cbn [nth]. apply IH3. lia.
  - rewrite (leading_successes_failure e rest He). cbn [length nth].
    split; [lia|]. split; [intros j Hj; lia|]. intros _. exact He.
Qed.

Lemma deliver_until_failure_step {Ctx : Type} (callback : plcrash_async_objc_found_method_cb Ctx)
    (status : nat -> plcrash_error_t) (method : nat -> found_method) (n : nat) (ctx : Ctx) :
  deliver_until_failure callback status method (S n) ctx
  = if decide (status O <> PLCRASH_ESUCCESS) then (status O, ctx)
    else deliver_until_failure callback (fun j => status (S j)) (fun j => method (S j)) n
           (deliver callback ctx (method O)).
Proof.
  unfold deliver_until_failure. cbv zeta. rewrite map_seq_S.
  destruct (decide (status O <> PLCRASH_ESUCCESS)) as [Hs|Hs].
  - rewrite (leading_successes_failure _ _ Hs). reflexivity.
  - apply dec_stable in Hs. rewrite Hs. cbn [leading_successes nth].
    rewrite map_seq_S. reflexivity.
Qed.

Lemma deliver_until_failure_ext {Ctx : Type} (callback : plcrash_async_objc_found_method_cb Ctx)
    (status status' : nat -> plcrash_error_t) (method method' : nat -> found_method)
    (n : nat) (ctx : Ctx) :
  (forall j, status j = status' j) -> (forall j, method j = method' j) ->
  deliver_until_failure callback status method n ctx
  = deliver_until_failure callback status' method' n ctx.
Proof.
  intros Hs Hm. unfold deliver_until_failure.
  rewrite (map_ext status status' Hs), (map_ext method method' Hm). reflexivity.
Qed.

Lemma pl_async_parse_obj1_methods_in_order {Ctx : Type} (image : plcrash_async_macho_t)
    (callback : plcrash_async_objc_found_method_cb Ctx) (isMetaClass : bool)
    (className : plcrash_async_macho_string_t) (thisListPtr : Z) (n : nat) :
  forall i ctx,
    pl_async_parse_obj1_methods image callback isMetaClass className thisListPtr n i ctx
    = deliver_until_failure callback
        (fun j => objc1_method_status image thisListPtr (i + Z.of_nat j))
        (fun j => objc1_found_method image isMetaClass className thisListPtr (i + Z.of_nat j))
        n ctx.
Proof.
  induction n as [|n IH]; intros i ctx; [reflexivity|].
  rewrite deliver_until_failure_step.
  cbn [pl_async_parse_obj1_methods]. cbv zeta.
  change (Z.of_nat 0) with 0. rewrite Z.add_0_r.
  rewrite (deliver_until_failure_ext callback
             (fun j => objc1_method_status image thisListPtr (i + Z.of_nat (S j)))
             (fun j => objc1_method_status image thisListPtr (i + 1 + Z.of_nat j))
             (fun j => objc1_found_method image isMetaClass className thisListPtr (i + Z.of_nat (S j)))
             (fun j => objc1_found_method image isMetaClass className thisListPtr
                         (i + 1 + Z.of_nat j)))
    by (intros j; f_equal; lia).
  remember (objc1_method_status image thisListPtr i) as s0 eqn:Hs0.
  remember (objc1_found_method image isMetaClass className thisListPtr i) as m0 eqn:Hm0.
  unfold objc1_method_status in Hs0. unfold objc1_found_method in Hm0. cbv zeta in Hs0, Hm0.
  destruct (plcrash_async_task_memcpy image _ sizeof_pl_objc1_method) as [err method].
  cbn [snd] in Hm0.
  destruct (decide (err <> PLCRASH_ESUCCESS)) as [Herr|Herr].
  { subst s0. destruct (decide (err <> PLCRASH_ESUCCESS)); [reflexivity|contradiction]. }
  subst s0.
  destruct (decide (plcrash_async_macho_string_init image _ <> PLCRASH_ESUCCESS)) as [Hname|Hname];
    [reflexivity|].
  subst m0. unfold deliver at 1. cbn [fm_is_meta fm_class_name fm_method_name fm_imp].
  apply IH.
Qed.

(** X8. The methods of an ObjC1 method list are handed to the callback in
    the order of the list, each once, up to the first record that cannot be
    read. When the list header cannot be copied its status is returned and
    the callback is not invoked. Otherwise, with [count] the count of the
    header and [k] the number of records, from the first on, whose copy and
    whose name both succeed, the callback receives the records 0 to [k - 1],
    in this order, with the class name and the metaclass flag of the call;
    the status is success when [k] is [count] and the status of the record
    [k] otherwise. *)
Theorem objc1_method_list_in_order {Ctx : Type} (image : plcrash_async_macho_t)
    (callback : plcrash_async_objc_found_method_cb Ctx) (isMetaClass : bool)
    (className : plcrash_async_macho_string_t) (thisListPtr : Z) (ctx : Ctx) :
  pl_async_parse_obj1_method_list image callback isMetaClass className thisListPtr ctx
  = let '(err, methodList) := plcrash_async_task_memcpy image thisListPtr sizeof_pl_objc1_method_list in
    if decide (err <> PLCRASH_ESUCCESS) then (err, ctx) else
    let count := Z.to_nat (swap32 (byteorder image) (pl_objc1_method_list_count methodList)) in
    deliver_until_failure callback
      (fun j => objc1_method_status image thisListPtr (Z.of_nat j))
      (fun j => objc1_found_method image isMetaClass className thisListPtr (Z.of_nat j))
      count ctx.
Proof.
  unfold pl_async_parse_obj1_method_list.
  destruct (plcrash_async_task_memcpy image thisListPtr sizeof_pl_objc1_method_list)
    as [err methodList].
  destruct (decide (err <> PLCRASH_ESUCCESS)); [reflexivity|].
  rewrite pl_async_parse_obj1_methods_in_order. reflexivity.
Qed.

(** X8, an instance: the list of [Foo] at 0x4100 gives [-bar], then [-baz]. *)
Lemma objc1_method_list_in_order_witness :
  pl_async_parse_obj1_method_list Target.foo_image record_callback false Target.foo_name 0x4100 []
  = (PLCRASH_ESUCCESS, [Target.foo_bar; Target.foo_baz]).
Proof.
  rewrite (objc1_method_list_in_order Target.foo_image record_callback false Target.foo_name
             0x4100 []).
  vm_compute. reflexivity.
Defined.

Lemma pl_async_parse_obj1_class_loop_array {Ctx : Type} (image : plcrash_async_macho_t)
    (callback : plcrash_async_objc_found_method_cb Ctx) (isMetaClass : bool)
    (className : plcrash_async_macho_string_t) (ptrs : list Z) :
  forall fuel cursor err ctx,
    method_list_array image cursor ptrs = true ->
    (length ptrs < fuel)%nat ->
    pl_async_parse_obj1_class_loop image callback fuel isMetaClass className true err cursor ctx
    = Some (parse_method_lists image callback isMetaClass className ptrs ctx).
Proof.
  induction ptrs as [|p rest IH]; intros fuel cursor err ctx Harray Hfuel;
    (destruct fuel as [|fuel]; [cbn [length] in Hfuel; lia|]);
    cbn [pl_async_parse_obj1_class_loop parse_method_lists];
    cbn [method_list_array] in Harray;
    destruct (plcrash_async_task_memcpy image cursor 4) as [e ptr];
    apply andb_true_iff in Harray as [He Harray];
    apply bool_decide_eq_true in He; subst e;
    (destruct (decide (PLCRASH_ESUCCESS <> PLCRASH_ESUCCESS)); [contradiction|]).
  - rewrite Harray. reflexivity.
  - apply andb_true_iff in Harray as [Harray Hrest].
    apply andb_true_iff in Harray as [Hp Hterm].
    apply Z.eqb_eq in Hp. rewrite Hp.
    apply negb_true_iff in Hterm. rewrite Hterm.
    destruct (pl_async_parse_obj1_method_list image callback isMetaClass className p ctx)
      as [e1 ctx1].
    destruct (decide (e1 <> PLCRASH_ESUCCESS)); [reflexivity|].
    apply IH; [exact Hrest|cbn [length] in Hfuel; lia].
Qed.

(** X9. A terminated array of method lists is walked to its end. When the
    class has [CLS_NO_METHOD_ARRAY] unset, its name can be read, and its
    [methods] field points to an array of [k] method-list pointers followed by
    a terminator, 0 or [END_OF_METHODS_LIST], then the parse of the class
    returns within [k + 1] rounds of its loop: the lists are parsed in the
    order of the array, up to the first that fails, whose status is returned;
    when none fails the status is success. Both terminators end the walk. *)
Theorem objc1_method_list_array_is_walked {Ctx : Type} (image : plcrash_async_macho_t)
    (callback : plcrash_async_objc_found_method_cb Ctx) (fuel : nat) (cls : bytes)
    (isMetaClass : bool) (ctx : Ctx) (ptrs : list Z) :
  let namePtr := swap32 (byteorder image) (pl_objc1_class_name cls) in
  plcrash_async_macho_string_init image namePtr = PLCRASH_ESUCCESS ->
  Z.land (swap32 (byteorder image) (pl_objc1_class_info cls)) CLS_NO_METHOD_ARRAY = 0 ->
  method_list_array image (swap32 (byteorder image) (pl_objc1_class_methods cls)) ptrs = true ->
  (length ptrs < fuel)%nat ->
  pl_async_parse_obj1_class image callback fuel cls isMetaClass ctx
  = Some (parse_method_lists image callback isMetaClass {| string_address := namePtr |} ptrs ctx).
Proof.
  intros namePtr Hname Hflag Harray Hfuel.
  unfold pl_async_parse_obj1_class. fold namePtr. rewrite Hname, Hflag.
  destruct (decide (PLCRASH_ESUCCESS <> PLCRASH_ESUCCESS)); [contradiction|].
  cbv zeta. rewrite Z.eqb_refl.
  apply pl_async_parse_obj1_class_loop_array; assumption.
Qed.

(** X9, an instance: the class [Foo], whose array holds one list and the
    terminator [END_OF_METHODS_LIST], is parsed within two rounds. *)
Lemma objc1_method_list_array_is_walked_witness :
  pl_async_parse_obj1_class Target.foo_image record_callback 2 Target.foo_class false []
  = Some (PLCRASH_ESUCCESS, [Target.foo_bar; Target.foo_baz]).
Proof.
  assert (Hname : plcrash_async_macho_string_init Target.foo_image
                    (swap32 (byteorder Target.foo_image) (pl_objc1_class_name Target.foo_class))
                  = PLCRASH_ESUCCESS) by (vm_compute; reflexivity).
  assert (Hflag : Z.land (swap32 (byteorder Target.foo_image) (pl_objc1_class_info Target.foo_class))
                    CLS_NO_METHOD_ARRAY = 0) by (vm_compute; reflexivity).
  assert (Harray : method_list_array Target.foo_image
                     (swap32 (byteorder Target.foo_image) (pl_objc1_class_methods Target.foo_class))
                     [0x4100] = true) by (vm_compute; reflexivity).
  assert (Hfuel : (length [0x4100%Z] < 2)%nat) by (simpl; lia).
  rewrite (objc1_method_list_array_is_walked Target.foo_image record_callback 2 Target.foo_class
             false [] [0x4100] Hname Hflag Harray Hfuel).
  vm_compute. reflexivity.
Defined.

Lemma load8_ext (p q : bytes) (off : Z) : (forall o, p o = q o) -> load8 p off = load8 q off.
Proof. intros H. unfold load8. rewrite H. reflexivity. Qed.

Lemma load16_ext (p q : bytes) (off : Z) : (forall o, p o = q o) -> load16 p off = load16 q off.
Proof. intros H. unfold load16. rewrite !(load8_ext p q _ H). reflexivity. Qed.

Lemma load32_ext (p q : bytes) (off : Z) : (forall o, p o = q o) -> load32 p off = load32 q off.
Proof. intros H. unfold load32. rewrite !(load16_ext p q _ H). reflexivity. Qed.

Lemma load64_ext (p q : bytes) (off : Z) : (forall o, p o = q o) -> load64 p off = load64 q off.
Proof. intros H. unfold load64. rewrite !(load32_ext p q _ H). reflexivity. Qed.

Lemma objc2_found_method_ext (image : plcrash_async_macho_t) (is_meta_class : bool)
    (class_name : plcrash_async_macho_string_t) (p q : bytes) :
  (forall o, p o = q o) ->
  objc2_method_status image p = objc2_method_status image q
  /\ objc2_found_method image is_meta_class class_name p
     = objc2_found_method image is_meta_class class_name q.
Proof.
  intros H.
  unfold objc2_method_status, objc2_found_method, pl_objc2_method_name, pl_objc2_method_imp.
  destruct (m64 image);
    rewrite ?(load64_ext p q _ H), ?(load32_ext p q _ H); split; reflexivity.
Qed.

Lemma pl_async_objc_parse_objc2_methods_in_order {Ctx : Type}
    (image : plcrash_async_macho_t) (callback : plcrash_async_objc_found_method_cb Ctx)
    (class_name : plcrash_async_macho_string_t) (is_meta_class : bool) (entsize : Z) (n : nat) :
  forall cursor ctx,
    pl_async_objc_parse_objc2_methods image callback class_name is_meta_class entsize n cursor ctx
    = deliver_until_failure callback
        (fun j => objc2_method_status image (offset_ptr cursor (Z.of_nat j * entsize)))
        (fun j => objc2_found_method image is_meta_class class_name
                    (offset_ptr cursor (Z.of_nat j * entsize)))
        n ctx.
Proof.
  induction n as [|n IH]; intros cursor ctx; [reflexivity|].
  rewrite deliver_until_failure_step.
  cbn [pl_async_objc_parse_objc2_methods]. cbv zeta.
  change (objc2_method_status image (offset_ptr cursor (Z.of_nat 0 * entsize)))
    with (plcrash_async_macho_string_init image
            (swap (byteorder image) (m64 image) (pl_objc2_method_name (m64 image) cursor))).
  destruct (decide (plcrash_async_macho_string_init image _ <> PLCRASH_ESUCCESS)); [reflexivity|].
  rewrite IH.
  assert (Hptr : forall (j : nat) o,
             offset_ptr (offset_ptr cursor entsize) (Z.of_nat j * entsize) o
             = offset_ptr cursor (Z.of_nat (S j) * entsize) o)
    by (intros j o; unfold offset_ptr; f_equal; lia).
  apply deliver_until_failure_ext; intros j.
  - exact (proj1 (objc2_found_method_ext image is_meta_class class_name _ _ (Hptr j))).
  - exact (proj2 (objc2_found_method_ext image is_meta_class class_name _ _ (Hptr j))).
Qed.

Lemma entsize_aligned (x : Z) : Z.land x (wrap32 (Z.lnot 3)) mod 4 = 0.
Proof.
  change 4 with (2 ^ 2). rewrite <- Z.land_ones by lia.
  rewrite <- Z.land_assoc.
  replace (Z.land (wrap32 (Z.lnot 3)) (Z.ones 2)) with 0 by (vm_compute; reflexivity).
  apply Z.land_0_r.
Qed.

(** X10. The methods of an ObjC2 method list are handed to the callback in
    the order of the list, each once, up to the first method whose name cannot
    be read, whose status is returned. The method [j] is read at [j] times the
    stride after the 8-byte header, where the stride is the [entsize] of the
    header with its two low bits cleared (a multiple of 4), whatever the size
    of the method record. A header that is not inside the mapped
    [__objc_const], or a body of [count] strides that is not, gives
    [PLCRASH_EINVAL] before any method is handed to the callback. *)
Theorem objc2_method_list_in_order {Ctx : Type} (image : plcrash_async_macho_t)
    (callback : plcrash_async_objc_found_method_cb Ctx) (objc_cache : plcrash_async_objc_cache_t)
    (class_name : plcrash_async_macho_string_t) (is_meta_class : bool) (method_list_addr : Z)
    (ctx : Ctx) :
  pl_async_objc_parse_objc2_method_list image callback objc_cache class_name is_meta_class
    method_list_addr ctx
  = match plcrash_async_mobject_remap_address (objcConstMobj objc_cache) method_list_addr 0
            sizeof_pl_objc2_list_header with
    | None => (PLCRASH_EINVAL, ctx)
    | Some header =>
        let stride :=
          Z.land (swap32 (byteorder image) (pl_objc2_list_header_entsize header)) (wrap32 (Z.lnot 3)) in
        let count := swap32 (byteorder image) (pl_objc2_list_header_count header) in
        match plcrash_async_mobject_remap_address (objcConstMobj objc_cache)
                (wrap64 (method_list_addr + sizeof_pl_objc2_list_header)) 0 (stride * count) with
        | None => (PLCRASH_EINVAL, ctx)
        | Some first =>
            deliver_until_failure callback
              (fun j => objc2_method_status image (offset_ptr first (Z.of_nat j * stride)))
              (fun j => objc2_found_method image is_meta_class class_name
                          (offset_ptr first (Z.of_nat j * stride)))
              (Z.to_nat count) ctx
        end
    end
  /\ forall entsize, Z.land entsize (wrap32 (Z.lnot 3)) mod 4 = 0.
Proof.
  split; [|exact entsize_aligned].
  unfold pl_async_objc_parse_objc2_method_list.
  destruct (plcrash_async_mobject_remap_address _ method_list_addr _ _) as [header|]; [|reflexivity].
  cbv zeta.
  destruct (plcrash_async_mobject_remap_address _ (wrap64 _) _ _) as [first|]; [|reflexivity].
  apply pl_async_objc_parse_objc2_methods_in_order.
Qed.

(** X10, an instance: the method list of [Bar] at 0x10080, of one method with
    a stride of 24 bytes, gives [-hello]. *)
Lemma objc2_method_list_in_order_witness :
  pl_async_objc_parse_objc2_method_list (Target.objc2_image [0x12050]) record_callback
    Target.latched_cache {| string_address := 0x20000 |} false 0x10080 []
  = (PLCRASH_ESUCCESS, [Target.bar_hello]).
Proof.
  rewrite (proj1 (objc2_method_list_in_order (Target.objc2_image [0x12050])
                    record_callback Target.latched_cache {| string_address := 0x20000 |} false
                    0x10080 [])).
  vm_compute. reflexivity.
Defined.

(* ===================================================================== *)
(** * A class the cache knows *)
(* ===================================================================== *)

Lemma pl_async_objc_parse_objc2_methods_copy {Ctx : Type} (image : plcrash_async_macho_t)
    (copy : Z -> Z -> plcrash_error_t * bytes) (callback : plcrash_async_objc_found_method_cb Ctx)
    (class_name : plcrash_async_macho_string_t) (is_meta_class : bool) (entsize : Z) (n : nat) :
  forall cursor ctx,
    pl_async_objc_parse_objc2_methods (with_task_memcpy copy image) callback class_name
      is_meta_class entsize n cursor ctx
    = pl_async_objc_parse_objc2_methods image callback class_name is_meta_class entsize n cursor ctx.
Proof.
  induction n as [|n IH]; intros cursor ctx; [reflexivity|].
  cbn [pl_async_objc_parse_objc2_methods with_task_memcpy m64 byteorder
       plcrash_async_macho_string_init].
  change (m64 (with_task_memcpy copy image)) with (m64 image).
  destruct (decide (_ <> PLCRASH_ESUCCESS)); [reflexivity|].
  apply IH.
Qed.

Lemma pl_async_objc_parse_objc2_method_list_copy {Ctx : Type} (image : plcrash_async_macho_t)
    (copy : Z -> Z -> plcrash_error_t * bytes) (callback : plcrash_async_objc_found_method_cb Ctx)
    (objc_cache : plcrash_async_objc_cache_t) (class_name : plcrash_async_macho_string_t)
    (is_meta_class : bool) (method_list_addr : Z) (ctx : Ctx) :
  pl_async_objc_parse_objc2_method_list (with_task_memcpy copy image) callback objc_cache class_name
    is_meta_class method_list_addr ctx
  = pl_async_objc_parse_objc2_method_list image callback objc_cache class_name is_meta_class
      method_list_addr ctx.
Proof.
  unfold pl_async_objc_parse_objc2_method_list.
  destruct (plcrash_async_mobject_remap_address _ method_list_addr _ _) as [header|]; [|reflexivity].
  change (byteorder (with_task_memcpy copy image)) with (byteorder image). cbv zeta.
  destruct (plcrash_async_mobject_remap_address _ (wrap64 _) _ _) as [first|]; [|reflexivity].
  apply pl_async_objc_parse_objc2_methods_copy.
Qed.

(** X11. A class the cache knows is parsed without a cross-task copy. When
    the lookup of the class's [data_rw] pointer (its two low bits cleared)
    gives a nonzero address, and the read-only data at that address is inside
    the mapped [__objc_const], the parse of the class does not depend on what
    [plcrash_async_task_memcpy] would answer: neither the [class_rw] nor
    anything else is read from the target but names, and the cache is
    returned as it was given. *)
Theorem cached_class_needs_no_copy {Ctx : Type} (host : host_t) (image : plcrash_async_macho_t)
    (callback : plcrash_async_objc_found_method_cb Ctx) (is64 : bool)
    (objc_cache : plcrash_async_objc_cache_t) (cls : bytes) (is_meta_class : bool) (ctx : Ctx)
    (copy : Z -> Z -> plcrash_error_t * bytes) :
  let data_ptr :=
    Z.land (swap (byteorder image) is64 (pl_objc2_class_data_rw is64 cls)) (wrap64 (Z.lnot 3)) in
  cache_lookup objc_cache data_ptr <> 0 ->
  is_Some (plcrash_async_mobject_remap_address (objcConstMobj objc_cache)
             (cache_lookup objc_cache data_ptr) 0 (sizeof_pl_objc2_class_data_ro is64)) ->
  pl_async_objc_parse_objc2_class host (with_task_memcpy copy image) callback is64 objc_cache cls
    is_meta_class ctx
  = pl_async_objc_parse_objc2_class host image callback is64 objc_cache cls is_meta_class ctx
  /\ snd (pl_async_objc_parse_objc2_class host image callback is64 objc_cache cls is_meta_class ctx)
     = objc_cache.
Proof.
  intros data_ptr Hhit [ro Hro].
  unfold pl_async_objc_parse_objc2_class.
  change (byteorder (with_task_memcpy copy image)) with (byteorder image).
  change (plcrash_async_macho_string_init (with_task_memcpy copy image))
    with (plcrash_async_macho_string_init image).
  cbv zeta. fold data_ptr.
  rewrite (proj2 (Z.eqb_neq _ _) Hhit), Hro.
  destruct (decide (_ <> PLCRASH_ESUCCESS)); [split; reflexivity|].
  destruct (_ =? 0); [split; reflexivity|].
  rewrite pl_async_objc_parse_objc2_method_list_copy.
  destruct (pl_async_objc_parse_objc2_method_list _ _ _ _ _ _ _) as [e s].
  split; reflexivity.
Qed.

(** X11, an instance: with the cache a first parse has left, the class [Bar]
    is parsed, and [-hello] found, on a target none of whose memory can be
    copied. *)
Lemma cached_class_needs_no_copy_witness :
  fst (pl_async_objc_parse_objc2_class Target.host
         (with_task_memcpy Target.no_copy (Target.objc2_image [0x12050])) record_callback true
         Target.latched_cache Target.bar_class false [])
  = (PLCRASH_ESUCCESS, [Target.bar_hello]).
Proof.
  assert (Hhit : cache_lookup Target.latched_cache
                   (Z.land (swap (byteorder (Target.objc2_image [0x12050])) true
                              (pl_objc2_class_data_rw true Target.bar_class))
                      (wrap64 (Z.lnot 3))) <> 0)
    by (vm_compute; discriminate).
  assert (Hro : is_Some (plcrash_async_mobject_remap_address (objcConstMobj Target.latched_cache)
                           (cache_lookup Target.latched_cache
                              (Z.land (swap (byteorder (Target.objc2_image [0x12050])) true
                                         (pl_objc2_class_data_rw true Target.bar_class))
                                 (wrap64 (Z.lnot 3))))
                           0 (sizeof_pl_objc2_class_data_ro true)))
    by (vm_compute; eexists; reflexivity).
  rewrite (proj1 (cached_class_needs_no_copy Target.host (Target.objc2_image [0x12050])
                    record_callback true Target.latched_cache Target.bar_class false []
                    Target.no_copy Hhit Hro)).
  vm_compute. reflexivity.
Defined.

(* ===================================================================== *)
(** * The class cache does not change what is found *)
(* ===================================================================== *)

Lemma pl_async_objc_parse_objc2_class_unfold {Ctx : Type} (host : host_t)
    (image : plcrash_async_macho_t) (callback : plcrash_async_objc_found_method_cb Ctx) (is64 : bool)
    (objc_cache : plcrash_async_objc_cache_t) (cls : bytes) (is_meta_class : bool) (ctx : Ctx) :
  pl_async_objc_parse_objc2_class host image callback is64 objc_cache cls is_meta_class ctx
  = let class_ro_length := sizeof_pl_objc2_class_data_ro is64 in
    let data_ptr :=
      Z.land (swap (byteorder image) is64 (pl_objc2_class_data_rw is64 cls)) (wrap64 (Z.lnot 3)) in
    let cached_data_ro_addr := cache_lookup objc_cache data_ptr in
    if cached_data_ro_addr =? 0 then
      let '(err, cls_data_rw) :=
        plcrash_async_task_memcpy image data_ptr (sizeof_pl_objc2_class_data_rw is64) in
      if decide (err <> PLCRASH_ESUCCESS) then (err, ctx, objc_cache) else
      if Z.land (pl_objc2_class_data_rw_flags cls_data_rw) RW_REALIZED =? 0
      then (PLCRASH_ENOTFOUND, ctx, objc_cache) else
      let data_ro_addr :=
        swap (byteorder image) is64 (pl_objc2_class_data_rw_data_ro is64 cls_data_rw) in
      if negb (Z.land (pl_objc2_class_data_rw_flags cls_data_rw) RW_COPIED_RO =? 0) then
        let '(err, cls_copied_ro) := plcrash_async_task_memcpy image data_ro_addr class_ro_length in
        if decide (err <> PLCRASH_ESUCCESS) then (err, ctx, objc_cache) else
        pl_async_objc_parse_objc2_class_ro image callback is64
          (cache_set host objc_cache data_ptr data_ro_addr) cls_copied_ro is_meta_class ctx
      else
        match plcrash_async_mobject_remap_address (objcConstMobj objc_cache) data_ro_addr 0
                class_ro_length with
        | None => (PLCRASH_EINVAL, ctx, objc_cache)
        | Some cls_data_ro =>
            pl_async_objc_parse_objc2_class_ro image callback is64
              (cache_set host objc_cache data_ptr data_ro_addr) cls_data_ro is_meta_class ctx
        end
    else
      match plcrash_async_mobject_remap_address (objcConstMobj objc_cache) cached_data_ro_addr 0
              class_ro_length with
      | Some cls_data_ro =>
          pl_async_objc_parse_objc2_class_ro image callback is64 objc_cache cls_data_ro
            is_meta_class ctx
      | None =>
          let '(err, cls_copied_ro) :=
            plcrash_async_task_memcpy image cached_data_ro_addr class_ro_length in
          if decide (err = PLCRASH_ESUCCESS)
          then pl_async_objc_parse_objc2_class_ro image callback is64 objc_cache cls_copied_ro
                 is_meta_class ctx
          else (PLCRASH_EINVAL, ctx, objc_cache)
      end.
Proof. reflexivity. Qed.

Lemma cache_lookup_zeroed (c : plcrash_async_objc_cache_t) (key : Z) :
  (forall i, bucket c i = (0, 0)) -> cache_lookup c key = 0.
Proof.
  intros Hzero. unfold cache_lookup.
  destruct (0 <? classCacheSize c); [|reflexivity].
  pose proof (Hzero (cache_index c key)) as Hb. unfold bucket in Hb.
  injection Hb as Hk Hv. rewrite Hk, Hv. destruct (0 =? key); reflexivity.
Qed.

Lemma cache_lookup_after_set_bucket (c : plcrash_async_objc_cache_t) (k v key : Z) :
  cache_arena_ok c -> classCacheKeys c <> None ->
  cache_lookup (cache_set_bucket c k v) key <> 0 ->
  cache_lookup (cache_set_bucket c k v) key = cache_lookup c key
  \/ (key = k /\ cache_lookup (cache_set_bucket c k v) key = v).
Proof.
  intros Hok Hal.
  destruct (cache_arena_allocated c Hok Hal) as (ks & vs & Hks & Hvs & Hs & Hkl & Hvl).
  destruct (Z.eq_dec (fst (bucket c (bucket_of k))) 0) as [Hempty|Hocc].
  - destruct (cache_set_bucket_empty c ks vs Hks Hvs Hs Hkl Hvl k v Hempty)
      as (Hnew & Hother & Hok' & Hal').
    destruct (cache_arena_allocated _ Hok' Hal') as (ks' & vs' & _ & _ & Hs' & _).
    rewrite (cache_lookup_bucket _ Hs'), (cache_lookup_bucket _ Hs).
    pose proof (bucket_of_range key) as Hr.
    destruct (Z.eq_dec (bucket_of key) (bucket_of k)) as [Heq|Hne].
    + rewrite Heq, Hnew. cbn [fst snd].
      destruct (Z.eqb_spec k key) as [->|Hk]; [right; auto|intros H; contradiction].
    + rewrite (Hother _ (proj1 Hr) Hne). left. reflexivity.
  - rewrite (cache_set_bucket_occupied c Hs k v Hocc). left. reflexivity.
Qed.

(** What a lookup can answer after a store: what it answered before, or the
    pair just stored. *)
Lemma cache_lookup_after_set (host : host_t) (c : plcrash_async_objc_cache_t) (k v key : Z) :
  cache_arena_ok c ->
  cache_lookup (cache_set host c k v) key <> 0 ->
  cache_lookup (cache_set host c k v) key = cache_lookup c key
  \/ (key = k /\ cache_lookup (cache_set host c k v) key = v).
Proof.
  intros Hok. unfold cache_set.
  destruct (classCacheKeys c) as [ks|] eqn:Hks.
  - apply cache_lookup_after_set_bucket; [exact Hok|congruence].
  - cbv zeta. destruct (vm_allocate host =? KERN_SUCCESS).
    + set (c1 := set_classCacheValues (Some (replicate (Z.to_nat 1024) 0))
                   (set_classCacheKeys (Some (replicate (Z.to_nat 1024) 0))
                      (set_classCacheSize 1024 c))).
      assert (Hok1 : cache_arena_ok c1).
      { unfold cache_arena_ok, c1.
        cbn [classCacheKeys classCacheValues classCacheSize
             set_classCacheValues set_classCacheKeys set_classCacheSize].
        rewrite !length_replicate. auto. }
      assert (Hal1 : classCacheKeys c1 <> None) by discriminate.
      assert (Hzero : cache_lookup c1 key = 0).
      { apply cache_lookup_zeroed. intros i. unfold bucket, array_get, c1.
        cbn [classCacheKeys classCacheValues set_classCacheValues set_classCacheKeys
             set_classCacheSize].
        destruct (replicate (Z.to_nat 1024) 0 !! Z.to_nat i) as [x|] eqn:Hx; [|reflexivity].
        apply lookup_replicate in Hx as [-> _]. reflexivity. }
      intros Hne.
      destruct (cache_lookup_after_set_bucket c1 k v key Hok1 Hal1 Hne) as [Hsame|Hnew].
      * rewrite Hsame, Hzero in Hne. contradiction.
      * right. exact Hnew.
    + intros Hne. exfalso. apply Hne. reflexivity.
Qed.

Lemma class_cache_sound_set (host : host_t) (image : plcrash_async_macho_t)
    (mobj : plcrash_async_mobject_t) (c : plcrash_async_objc_cache_t) (k v : Z) :
  cache_arena_ok c -> class_cache_sound image mobj c -> class_ro_validated image mobj k v ->
  class_cache_sound image mobj (cache_set host c k v).
Proof.
  intros Hok Hsound Hvalid key Hne.
  destruct (cache_lookup_after_set host c k v key Hok Hne) as [Hsame|[-> Hnew]].
  - rewrite Hsame in Hne |- *. apply Hsound. exact Hne.
  - rewrite Hnew. exact Hvalid.
Qed.

Lemma cache_set_objcConstMobj (host : host_t) (c : plcrash_async_objc_cache_t) (k v : Z) :
  objcConstMobj (cache_set host c k v) = objcConstMobj c.
Proof.
  assert (Hrefl : same_sections c c) by (repeat split).
  exact (proj1 (proj2 (proj2 (proj2 (cache_set_same_sections host c c k v Hrefl))))).
Qed.

Lemma pl_async_objc_parse_objc2_method_list_mobj {Ctx : Type} (image : plcrash_async_macho_t)
    (callback : plcrash_async_objc_found_method_cb Ctx) (c1 c2 : plcrash_async_objc_cache_t)
    (class_name : plcrash_async_macho_string_t) (is_meta_class : bool) (method_list_addr : Z)
    (ctx : Ctx) :
  objcConstMobj c1 = objcConstMobj c2 ->
  pl_async_objc_parse_objc2_method_list image callback c1 class_name is_meta_class method_list_addr ctx
  = pl_async_objc_parse_objc2_method_list image callback c2 class_name is_meta_class
      method_list_addr ctx.
Proof. intros H. unfold pl_async_objc_parse_objc2_method_list. rewrite H. reflexivity. Qed.

(** The end of the parse of a class looks at the cache for [__objc_const]
    only, returns the cache it was given, and reads the read-only data inside
    its length. *)
Lemma pl_async_objc_parse_objc2_class_ro_spec {Ctx : Type} (image : plcrash_async_macho_t)
    (callback : plcrash_async_objc_found_method_cb Ctx) (is64 : bool)
    (c1 c2 : plcrash_async_objc_cache_t) (p q : bytes) (is_meta_class : bool) (ctx : Ctx) :
  objcConstMobj c1 = objcConstMobj c2 ->
  (forall o, 0 <= o < sizeof_pl_objc2_class_data_ro is64 -> p o = q o) ->
  fst (pl_async_objc_parse_objc2_class_ro image callback is64 c1 p is_meta_class ctx)
  = fst (pl_async_objc_parse_objc2_class_ro image callback is64 c2 q is_meta_class ctx)
  /\ snd (pl_async_objc_parse_objc2_class_ro image callback is64 c1 p is_meta_class ctx) = c1.
Proof.
  intros Hmobj Hpq.
  assert (Hname : pl_objc2_class_data_ro_name is64 p = pl_objc2_class_data_ro_name is64 q).
  { unfold pl_objc2_class_data_ro_name, sizeof_pl_objc2_class_data_ro in *.
    destruct is64; unfold load64, load32, load16, load8; rewrite !Hpq by lia; reflexivity. }
  assert (Hmeth : pl_objc2_class_data_ro_baseMethods is64 p
                  = pl_objc2_class_data_ro_baseMethods is64 q).
  { unfold pl_objc2_class_data_ro_baseMethods, sizeof_pl_objc2_class_data_ro in *.
    destruct is64; unfold load64, load32, load16, load8; rewrite !Hpq by lia; reflexivity. }
  unfold pl_async_objc_parse_objc2_class_ro. cbv zeta. rewrite Hname, Hmeth.
  destruct (decide (_ <> PLCRASH_ESUCCESS)); [split; reflexivity|].
  destruct (_ =? 0); [split; reflexivity|].
  rewrite (pl_async_objc_parse_objc2_method_list_mobj image callback c1 c2 _ _ _ _ Hmobj).
  destruct (pl_async_objc_parse_objc2_method_list image callback c2 _ _ _ _) as [e s].
  split; reflexivity.
Qed.

(** With a sound cache, the parse of a class gives the status and the
    callbacks of the parse that does not ask the cache, and leaves a sound
    cache. *)
Lemma pl_async_objc_parse_objc2_class_transparent {Ctx : Type} (host : host_t)
    (image : plcrash_async_macho_t) (callback : plcrash_async_objc_found_method_cb Ctx)
    (c : plcrash_async_objc_cache_t) (cls : bytes) (is_meta_class : bool) (ctx : Ctx) :
  cache_arena_ok c ->
  class_cache_sound image (objcConstMobj c) c ->
  section_coherent image (objcConstMobj c) ->
  fst (pl_async_objc_parse_objc2_class host image callback (m64 image) c cls is_meta_class ctx)
  = pl_async_objc_parse_objc2_class_uncached image callback (m64 image) c cls is_meta_class ctx
  /\ cache_arena_ok
       (snd (pl_async_objc_parse_objc2_class host image callback (m64 image) c cls is_meta_class ctx))
  /\ class_cache_sound image (objcConstMobj c)
       (snd (pl_async_objc_parse_objc2_class host image callback (m64 image) c cls is_meta_class ctx)).
Proof.
  intros Hok Hsound Hcoh.
  rewrite pl_async_objc_parse_objc2_class_unfold.
  unfold pl_async_objc_parse_objc2_class_uncached. cbv zeta.
  set (data_ptr := Z.land (swap (byteorder image) (m64 image)
                             (pl_objc2_class_data_rw (m64 image) cls)) (wrap64 (Z.lnot 3))).
  assert (Hdone : forall e : plcrash_error_t, fst (e, ctx, c) = (e, ctx) /\ cache_arena_ok (snd (e, ctx, c))
                            /\ class_cache_sound image (objcConstMobj c) (snd (e, ctx, c)))
    by (intros e; cbn [fst snd]; auto).
  assert (Hsame : forall ro : bytes, (forall o : Z,
                     0 <= o < sizeof_pl_objc2_class_data_ro (m64 image) -> ro o = ro o))
    by reflexivity.
  destruct (Z.eqb_spec (cache_lookup c data_ptr) 0) as [Hmiss|Hhit].
  - destruct (plcrash_async_task_memcpy image data_ptr (sizeof_pl_objc2_class_data_rw (m64 image)))
      as [e rw] eqn:Hrw.
    destruct (decide (e <> PLCRASH_ESUCCESS)) as [He|He]; [apply Hdone|].
    apply dec_stable in He. subst e.
    destruct (Z.eqb_spec (Z.land (pl_objc2_class_data_rw_flags rw) RW_REALIZED) 0) as [Hreal|Hreal];
      [apply Hdone|].
    set (data_ro := swap (byteorder image) (m64 image)
                      (pl_objc2_class_data_rw_data_ro (m64 image) rw)).
    assert (Hstore : forall ro,
               class_ro_validated image (objcConstMobj c) data_ptr data_ro ->
               fst (pl_async_objc_parse_objc2_class_ro image callback (m64 image)
                      (cache_set host c data_ptr data_ro) ro is_meta_class ctx)
               = fst (pl_async_objc_parse_objc2_class_ro image callback (m64 image) c ro
                        is_meta_class ctx)
               /\ cache_arena_ok
                    (snd (pl_async_objc_parse_objc2_class_ro image callback (m64 image)
                            (cache_set host c data_ptr data_ro) ro is_meta_class ctx))
               /\ class_cache_sound image (objcConstMobj c)
                    (snd (pl_async_objc_parse_objc2_class_ro image callback (m64 image)
                            (cache_set host c data_ptr data_ro) ro is_meta_class ctx))).
    { intros ro Hvalid.
      destruct (pl_async_objc_parse_objc2_class_ro_spec image callback (m64 image)
                  (cache_set host c data_ptr data_ro) c ro ro is_meta_class ctx
                  (cache_set_objcConstMobj host c data_ptr data_ro) (Hsame ro)) as [Hfst Hsnd].
      rewrite Hsnd. split; [exact Hfst|]. split; [apply cache_set_arena; exact Hok|].
      apply class_cache_sound_set; assumption. }
    destruct (Z.eqb_spec (Z.land (pl_objc2_class_data_rw_flags rw) RW_COPIED_RO) 0) as [Hcop|Hcop];
      cbn [negb].
    + destruct (plcrash_async_mobject_remap_address (objcConstMobj c) data_ro 0
                  (sizeof_pl_objc2_class_data_ro (m64 image))) as [ro|] eqn:Hmap; [|apply Hdone].
      apply Hstore. unfold class_ro_validated. rewrite Hrw.
      rewrite (proj2 (Z.eqb_eq _ _) Hcop). fold data_ro. rewrite Hmap.
      split; [reflexivity|]. split; [exact Hreal|]. split; [reflexivity|]. eexists; reflexivity.
    + destruct (plcrash_async_task_memcpy image data_ro (sizeof_pl_objc2_class_data_ro (m64 image)))
        as [e2 ro] eqn:Hro.
      destruct (decide (e2 <> PLCRASH_ESUCCESS)) as [He2|He2]; [apply Hdone|].
      apply dec_stable in He2. subst e2.
      apply Hstore. unfold class_ro_validated. rewrite Hrw.
      rewrite (proj2 (Z.eqb_neq _ _) Hcop). fold data_ro. rewrite Hro.
      split; [reflexivity|]. split; [exact Hreal|]. split; reflexivity.
  - pose proof (Hsound data_ptr Hhit) as Hvalid. unfold class_ro_validated in Hvalid.
    destruct (plcrash_async_task_memcpy image data_ptr (sizeof_pl_objc2_class_data_rw (m64 image)))
      as [e rw].
    destruct Hvalid as (-> & Hreal & Hro & Hwhere).
    destruct (decide (PLCRASH_ESUCCESS <> PLCRASH_ESUCCESS)); [contradiction|].
    rewrite (proj2 (Z.eqb_neq _ _) Hreal). rewrite <- Hro.
    assert (Hkeep : forall p q,
               (forall o, 0 <= o < sizeof_pl_objc2_class_data_ro (m64 image) -> p o = q o) ->
               fst (pl_async_objc_parse_objc2_class_ro image callback (m64 image) c p
                      is_meta_class ctx)
               = fst (pl_async_objc_parse_objc2_class_ro image callback (m64 image) c q
                        is_meta_class ctx)
               /\ cache_arena_ok
                    (snd (pl_async_objc_parse_objc2_class_ro image callback (m64 image) c p
                            is_meta_class ctx))
               /\ class_cache_sound image (objcConstMobj c)
                    (snd (pl_async_objc_parse_objc2_class_ro image callback (m64 image) c p
                            is_meta_class ctx))).
    { intros p q Hpq.
      destruct (pl_async_objc_parse_objc2_class_ro_spec image callback (m64 image) c c p q
                  is_meta_class ctx eq_refl Hpq) as [Hfst Hsnd].
      rewrite Hsnd. auto. }
    destruct (Z.land (pl_objc2_class_data_rw_flags rw) RW_COPIED_RO =? 0); cbn [negb].
    + destruct Hwhere as [ro Hmap]. rewrite Hmap. apply Hkeep. apply Hsame.
    + destruct (plcrash_async_task_memcpy image (cache_lookup c data_ptr)
                  (sizeof_pl_objc2_class_data_ro (m64 image))) as [e2 q] eqn:Hq.
      cbn [fst] in Hwhere. subst e2.
      destruct (decide (PLCRASH_ESUCCESS <> PLCRASH_ESUCCESS)); [contradiction|].
      destruct (plcrash_async_mobject_remap_address (objcConstMobj c) (cache_lookup c data_ptr) 0
                  (sizeof_pl_objc2_class_data_ro (m64 image))) as [p|] eqn:Hmap.
      * apply Hkeep. exact (Hcoh _ p q Hmap Hq).
      * destruct (decide (PLCRASH_ESUCCESS = PLCRASH_ESUCCESS)); [|contradiction].
        apply Hkeep. apply Hsame.
Qed.

Lemma pl_async_objc_parse_objc2_class_uncached_mobj {Ctx : Type} (image : plcrash_async_macho_t)
    (callback : plcrash_async_objc_found_method_cb Ctx) (is64 : bool)
    (c1 c2 : plcrash_async_objc_cache_t) (cls : bytes) (is_meta_class : bool) (ctx : Ctx) :
  objcConstMobj c1 = objcConstMobj c2 ->
  pl_async_objc_parse_objc2_class_uncached image callback is64 c1 cls is_meta_class ctx
  = pl_async_objc_parse_objc2_class_uncached image callback is64 c2 cls is_meta_class ctx.
Proof.
  intros Hmobj. unfold pl_async_objc_parse_objc2_class_uncached. cbv zeta. rewrite Hmobj.
  assert (Hro : forall ro,
             fst (pl_async_objc_parse_objc2_class_ro image callback is64 c1 ro is_meta_class ctx)
             = fst (pl_async_objc_parse_objc2_class_ro image callback is64 c2 ro is_meta_class ctx)).
  { intros ro.
    apply (pl_async_objc_parse_objc2_class_ro_spec image callback is64 c1 c2 ro ro is_meta_class
             ctx Hmobj).
    reflexivity. }
  destruct (plcrash_async_task_memcpy image _ (sizeof_pl_objc2_class_data_rw is64)) as [e rw].
  destruct (decide (e <> PLCRASH_ESUCCESS)); [reflexivity|].
  destruct (_ =? 0); [reflexivity|].
  destruct (negb _).
  - destruct (plcrash_async_task_memcpy image _ (sizeof_pl_objc2_class_data_ro is64)) as [e2 ro].
    destruct (decide (e2 <> PLCRASH_ESUCCESS)); [reflexivity|]. apply Hro.
  - destruct (plcrash_async_mobject_remap_address _ _ _ _) as [ro|]; [|reflexivity]. apply Hro.
Qed.

(** The parse of a class on a ready cache: its status and its callbacks are
    those of the parse that does not ask the cache, and the cache stays
    ready. *)
Lemma pl_async_objc_parse_objc2_class_ready {Ctx : Type} (host : host_t)
    (image : plcrash_async_macho_t) (callback : plcrash_async_objc_found_method_cb Ctx)
    (const data : plcrash_async_mobject_t) (c : plcrash_async_objc_cache_t) (cls : bytes)
    (is_meta_class : bool) (ctx : Ctx) :
  section_coherent image const ->
  class_walk_ready image const data c ->
  fst (pl_async_objc_parse_objc2_class host image callback (m64 image) c cls is_meta_class ctx)
  = pl_async_objc_parse_objc2_class_uncached image callback (m64 image) c cls is_meta_class ctx
  /\ class_walk_ready image const data
       (snd (pl_async_objc_parse_objc2_class host image callback (m64 image) c cls is_meta_class ctx)).
Proof.
  intros Hcoh (Hok & Hsound & Hconst & Hdata). subst const data.
  destruct (pl_async_objc_parse_objc2_class_transparent host image callback c cls is_meta_class ctx
              Hok Hsound Hcoh) as (Hfst & Hok' & Hsound').
  split; [exact Hfst|].
  assert (Hrefl : same_sections c c) by (repeat split).
  pose proof (pl_async_objc_parse_objc2_class_keeps (same_sections c) host
                (cache_set_same_sections host c) image callback (m64 image) c cls is_meta_class ctx
                Hrefl) as Hsame.
  destruct Hsame as (_ & _ & _ & Hc & _ & _ & _ & _ & _ & Hd).
  repeat split; assumption.
Qed.

(** The class walk on two ready caches: the same status and the same
    callbacks, and both caches stay ready. *)
Lemma pl_async_objc_parse_classes_ready {Ctx : Type} (host1 host2 : host_t)
    (image : plcrash_async_macho_t) (callback : plcrash_async_objc_found_method_cb Ctx)
    (const data : plcrash_async_mobject_t) (classPtrs_32 classPtrs_64 : bytes) (n : nat) :
  arm64 host1 = arm64 host2 ->
  section_coherent image const ->
  forall i ctx c1 c2,
    class_walk_ready image const data c1 -> class_walk_ready image const data c2 ->
    fst (pl_async_objc_parse_classes host1 image callback classPtrs_32 classPtrs_64 n i ctx c1)
    = fst (pl_async_objc_parse_classes host2 image callback classPtrs_32 classPtrs_64 n i ctx c2)
    /\ class_walk_ready image const data
         (snd (pl_async_objc_parse_classes host1 image callback classPtrs_32 classPtrs_64 n i ctx c1))
    /\ class_walk_ready image const data
         (snd (pl_async_objc_parse_classes host2 image callback classPtrs_32 classPtrs_64 n i ctx c2)).
Proof.
  intros Harm Hcoh.
  assert (Hclass : forall cls is_meta_class ctx c1 c2,
             class_walk_ready image const data c1 -> class_walk_ready image const data c2 ->
             exists e s c1' c2',
               pl_async_objc_parse_objc2_class host1 image callback (m64 image) c1 cls
                 is_meta_class ctx = (e, s, c1')
               /\ pl_async_objc_parse_objc2_class host2 image callback (m64 image) c2 cls
                    is_meta_class ctx = (e, s, c2')
               /\ class_walk_ready image const data c1'
               /\ class_walk_ready image const data c2').
  { intros cls is_meta_class ctx c1 c2 H1 H2.
    destruct (pl_async_objc_parse_objc2_class_ready host1 image callback const data c1 cls
                is_meta_class ctx Hcoh H1) as [Hf1 Hr1].
    destruct (pl_async_objc_parse_objc2_class_ready host2 image callback const data c2 cls
                is_meta_class ctx Hcoh H2) as [Hf2 Hr2].
    rewrite (pl_async_objc_parse_objc2_class_uncached_mobj image callback (m64 image) c1 c2)
      in Hf1
      by (destruct H1 as (_ & _ & -> & _); destruct H2 as (_ & _ & -> & _); reflexivity).
    rewrite <- Hf2 in Hf1.
    destruct (pl_async_objc_parse_objc2_class host1 image callback (m64 image) c1 cls
                is_meta_class ctx) as [[e1 s1] c1'].
    destruct (pl_async_objc_parse_objc2_class host2 image callback (m64 image) c2 cls
                is_meta_class ctx) as [[e2 s2] c2'].
    cbn [fst snd] in *. injection Hf1 as -> ->.
    exists e2, s2, c1', c2'. auto. }
  induction n as [|n IH]; intros i ctx c1 c2 H1 H2; [cbn; auto|].
  cbn [pl_async_objc_parse_classes].
  assert (Hd1 : objcDataMobj c1 = data) by apply H1.
  assert (Hd2 : objcDataMobj c2 = data) by apply H2.
  rewrite Hd1, Hd2.
  destruct (plcrash_async_mobject_remap_address data _ 0 _) as [classPtr|]; [|cbn; auto].
  destruct (Hclass classPtr false ctx c1 c2 H1 H2) as (e & s & c1' & c2' & -> & -> & H1' & H2').
  destruct (decide (e <> PLCRASH_ESUCCESS)); [cbn; auto|].
  assert (Hd1' : objcDataMobj c1' = data) by apply H1'.
  assert (Hd2' : objcDataMobj c2' = data) by apply H2'.
  rewrite Hd1', Hd2', Harm.
  destruct (plcrash_async_mobject_remap_address data _ 0 _) as [metaclassPtr|]; [|cbn; auto].
  destruct (Hclass metaclassPtr true s c1' c2' H1' H2')
    as (e' & s' & c1'' & c2'' & -> & -> & H1'' & H2'').
  destruct (decide (e' <> PLCRASH_ESUCCESS)); [cbn; auto|].
  apply IH; assumption.
Qed.

Lemma pl_async_objc_parse_categories_mobj {Ctx : Type} (image : plcrash_async_macho_t)
    (c1 c2 : plcrash_async_objc_cache_t) (catPtrs_32 catPtrs_64 : bytes) (n : nat) :
  objcDataMobj c1 = objcDataMobj c2 ->
  forall i (ctx : Ctx),
    pl_async_objc_parse_categories image c1 catPtrs_32 catPtrs_64 n i ctx
    = pl_async_objc_parse_categories image c2 catPtrs_32 catPtrs_64 n i ctx.
Proof.
  intros Hd. induction n as [|n IH]; intros i ctx; [reflexivity|].
  cbn [pl_async_objc_parse_categories]. rewrite Hd.
  destruct (plcrash_async_mobject_remap_address _ _ _ _) as [catPtr|]; [|reflexivity].
  unfold pl_async_objc_parse_objc2_category.
  destruct (decide (PLCRASH_ESUCCESS <> PLCRASH_ESUCCESS)); [reflexivity|].
  apply IH.
Qed.

Lemma map_sections_cached (image : plcrash_async_macho_t) (c : plcrash_async_objc_cache_t) :
  lastImage c = macho_address image -> map_sections image c = (PLCRASH_ESUCCESS, c).
Proof.
  intros Hlast. unfold map_sections. rewrite Hlast, Z.eqb_refl. reflexivity.
Qed.

(** The ObjC2 walk looks at its cache through [map_sections] first. *)
Lemma pl_async_objc_parse_from_data_section_mapped {Ctx : Type} (host : host_t)
    (image : plcrash_async_macho_t) (callback : plcrash_async_objc_found_method_cb Ctx)
    (c : plcrash_async_objc_cache_t) (ctx : Ctx) :
  fst (map_sections image c) = PLCRASH_ESUCCESS ->
  lastImage (snd (map_sections image c)) = macho_address image
  /\ pl_async_objc_parse_from_data_section host image callback c ctx
     = pl_async_objc_parse_from_data_section host image callback (snd (map_sections image c)) ctx.
Proof.
  intros Hsucc.
  assert (Hlast : lastImage (snd (map_sections image c)) = macho_address image).
  { destruct (map_sections_slots image c) as [[Heq ->]|[_ [[Hfail _]|(_ & H & _)]]];
      [symmetry; exact Heq|contradiction|exact H]. }
  split; [exact Hlast|].
  unfold pl_async_objc_parse_from_data_section.
  rewrite (map_sections_cached image _ Hlast).
  destruct (map_sections image c) as [e c']. cbn [fst snd] in *. subst e. reflexivity.
Qed.

(** The ObjC2 walk of the image a cache names, on two ready caches that hold
    the same sections: the same status and the same callbacks. *)
Lemma pl_async_objc_parse_from_data_section_ready {Ctx : Type} (host1 host2 : host_t)
    (image : plcrash_async_macho_t) (callback : plcrash_async_objc_found_method_cb Ctx)
    (c1 c2 : plcrash_async_objc_cache_t) (ctx : Ctx) :
  arm64 host1 = arm64 host2 ->
  lastImage c1 = macho_address image -> lastImage c2 = macho_address image ->
  same_mobjects c1 c2 ->
  section_coherent image (objcConstMobj c1) ->
  class_walk_ready image (objcConstMobj c1) (objcDataMobj c1) c1 ->
  class_walk_ready image (objcConstMobj c1) (objcDataMobj c1) c2 ->
  fst (pl_async_objc_parse_from_data_section host1 image callback c1 ctx)
  = fst (pl_async_objc_parse_from_data_section host2 image callback c2 ctx)
  /\ class_walk_ready image (objcConstMobj c1) (objcDataMobj c1)
       (snd (pl_async_objc_parse_from_data_section host1 image callback c1 ctx))
  /\ same_sections c1 (snd (pl_async_objc_parse_from_data_section host1 image callback c1 ctx)).
Proof.
  intros Harm Hl1 Hl2 (_ & Hclass & Hcat & _) Hcoh H1 H2.
  assert (Hframe : same_sections c1
                     (snd (pl_async_objc_parse_from_data_section host1 image callback c1 ctx))).
  { pose proof (pl_async_objc_parse_from_data_section_keeps (same_sections c1) host1
                  (cache_set_same_sections host1 c1) image callback c1 ctx) as Hkeep.
    rewrite (map_sections_cached image c1 Hl1) in Hkeep. apply Hkeep. repeat split. }
  split; [|split; [|exact Hframe]]; revert Hframe;
    unfold pl_async_objc_parse_from_data_section;
    rewrite (map_sections_cached image c1 Hl1), ?(map_sections_cached image c2 Hl2);
    (destruct (decide (PLCRASH_ESUCCESS <> PLCRASH_ESUCCESS)); [contradiction|]);
    rewrite ?Hclass;
    (destruct (plcrash_async_mobject_remap_address (classMobj c1) _ _ _) as [classPtrs|];
     [|cbn; auto]);
    cbv zeta;
    match goal with
    | |- context [pl_async_objc_parse_classes host1 image callback ?p32 ?p64 ?n ?i ctx c1] =>
        destruct (pl_async_objc_parse_classes_ready host1 host2 image callback (objcConstMobj c1)
                    (objcDataMobj c1) p32 p64 n Harm Hcoh i ctx c1 c2 H1 H2) as (Hfst & Hr1 & Hr2);
        pose proof (pl_async_objc_parse_classes_keeps (same_sections c1) host1
                      (cache_set_same_sections host1 c1) image callback p32 p64 n i ctx c1
                      ltac:(repeat split)) as Hs1;
        pose proof (pl_async_objc_parse_classes_keeps (same_sections c2) host2
                      (cache_set_same_sections host2 c2) image callback p32 p64 n i ctx c2
                      ltac:(repeat split)) as Hs2;
        destruct (pl_async_objc_parse_classes host1 image callback p32 p64 n i ctx c1)
          as [[e s] c1'];
        try destruct (pl_async_objc_parse_classes host2 image callback p32 p64 n i ctx c2)
          as [[e' s'] c2']
    end;
    cbn [fst snd] in *.
  - injection Hfst as <- <-. intros _.
    destruct (decide (e <> PLCRASH_ESUCCESS)); [reflexivity|].
    assert (Hc1 : catMobj c1' = catMobj c1) by apply Hs1.
    assert (Hc2 : catMobj c2' = catMobj c1) by (rewrite <- Hcat; apply Hs2).
    rewrite Hc1, Hc2.
    destruct (plcrash_async_mobject_remap_address (catMobj c1) _ _ _) as [catPtrs|];
      [|reflexivity].
    rewrite (pl_async_objc_parse_categories_mobj image c1' c2')
      by (destruct Hr1 as (_ & _ & _ & ->); destruct Hr2 as (_ & _ & _ & ->); reflexivity).
    destruct (pl_async_objc_parse_categories _ _ _ _ _ _ _) as [e2 s2]. reflexivity.
  - intros _.
    destruct (decide (e <> PLCRASH_ESUCCESS)); [exact Hr1|].
    destruct (plcrash_async_mobject_remap_address (catMobj c1') _ _ _) as [catPtrs|];
      [|exact Hr1].
    destruct (pl_async_objc_parse_categories _ _ _ _ _ _ _) as [e2 s2]. exact Hr1.
Qed.

(** When the ObjC1 walk is not run, or finds no [__module_info], the unified
    parser is the ObjC2 attempt. *)
Lemma plcrash_async_objc_parse_objc2_only {Ctx : Type} (host : host_t) (fuel : nat)
    (image : plcrash_async_macho_t) (c : plcrash_async_objc_cache_t)
    (callback : plcrash_async_objc_found_method_cb Ctx) (ctx : Ctx) :
  gotObjC2Info c = true
  \/ fst (plcrash_async_macho_map_section image kObjCSegmentName kObjCModuleInfoSectionName)
     = PLCRASH_ENOTFOUND ->
  plcrash_async_objc_parse host fuel image (Some c) callback ctx
  = objc2_attempt host image c callback ctx.
Proof.
  intros Hobjc1.
  destruct (gotObjC2Info c) eqn:Hg; [apply plcrash_async_objc_parse_latched; exact Hg|].
  destruct Hobjc1 as [Hg'|Hm]; [discriminate|].
  unfold plcrash_async_objc_parse, objc2_attempt. rewrite Hg. cbn [negb].
  unfold pl_async_objc_parse_from_module_info.
  destruct (plcrash_async_macho_map_section image kObjCSegmentName kObjCModuleInfoSectionName)
    as [err m].
  cbn [fst] in Hm. subst err.
  destruct (decide (PLCRASH_ENOTFOUND <> PLCRASH_ESUCCESS)) as [_|Hn];
    [|exfalso; apply Hn; discriminate].
  cbn [mbind option_bind].
  destruct (decide (PLCRASH_ENOTFOUND = PLCRASH_ENOTFOUND)) as [_|Hn]; [|contradiction].
  destruct (pl_async_objc_parse_from_data_section host image callback c ctx) as [[e2 s2] c2].
  destruct (decide (e2 = PLCRASH_ESUCCESS)); reflexivity.
Qed.

Lemma class_cache_sound_lookup (image : plcrash_async_macho_t) (mobj : plcrash_async_mobject_t)
    (c c' : plcrash_async_objc_cache_t) :
  classCacheSize c' = classCacheSize c -> classCacheKeys c' = classCacheKeys c ->
  classCacheValues c' = classCacheValues c ->
  (cache_arena_ok c -> cache_arena_ok c')
  /\ (class_cache_sound image mobj c -> class_cache_sound image mobj c').
Proof.
  intros Hs Hk Hv.
  assert (Hlookup : forall key, cache_lookup c' key = cache_lookup c key)
    by (intros key; unfold cache_lookup, cache_index; rewrite Hs, Hk, Hv; reflexivity).
  split.
  - unfold cache_arena_ok. rewrite Hs, Hk, Hv. auto.
  - intros Hsound key. rewrite Hlookup. apply Hsound.
Qed.

(** The status and the callbacks of the ObjC2 walk on a cache that is ready
    once [map_sections] has run do not depend on the host, and the walk leaves
    the cache ready, naming the image. *)
Lemma pl_async_objc_parse_from_data_section_hosts {Ctx : Type} (host1 host2 : host_t)
    (image : plcrash_async_macho_t) (callback : plcrash_async_objc_found_method_cb Ctx)
    (c : plcrash_async_objc_cache_t) (ctx : Ctx) :
  arm64 host1 = arm64 host2 ->
  cache_arena_ok c ->
  section_coherent image (objcConstMobj (snd (map_sections image c))) ->
  class_cache_sound image (objcConstMobj (snd (map_sections image c))) c ->
  let c0 := snd (map_sections image c) in
  let r1 := pl_async_objc_parse_from_data_section host1 image callback c ctx in
  fst r1 = fst (pl_async_objc_parse_from_data_section host2 image callback c ctx)
  /\ (fst (fst r1) = PLCRASH_ESUCCESS ->
      lastImage (snd r1) = macho_address image
      /\ same_mobjects c0 (snd r1)
      /\ class_walk_ready image (objcConstMobj c0) (objcDataMobj c0) (snd r1)).
Proof.
  intros Harm Hok Hcoh Hsound. cbv zeta.
  destruct (decide (fst (map_sections image c) = PLCRASH_ESUCCESS)) as [Hmapped|Hfailed].
  - destruct (pl_async_objc_parse_from_data_section_mapped host1 image callback c ctx Hmapped)
      as [Hlast ->].
    destruct (pl_async_objc_parse_from_data_section_mapped host2 image callback c ctx Hmapped)
      as [_ ->].
    set (c0 := snd (map_sections image c)) in *.
    destruct (map_sections_frame image c) as (_ & Hsize & Hkeys & Hvalues).
    fold c0 in Hsize, Hkeys, Hvalues.
    destruct (class_cache_sound_lookup image (objcConstMobj c0) c c0 Hsize Hkeys Hvalues)
      as [Hok0 Hsound0].
    assert (Hready0 : class_walk_ready image (objcConstMobj c0) (objcDataMobj c0) c0)
      by (repeat split; auto).
    assert (Hsame0 : same_mobjects c0 c0) by (repeat split).
    destruct (pl_async_objc_parse_from_data_section_ready host1 host2 image callback c0 c0 ctx
                Harm Hlast Hlast Hsame0 Hcoh Hready0 Hready0) as (Hfst & Hready1 & Hframe1).
    split; [exact Hfst|]. intros _.
    destruct Hframe1 as (_ & Hl1 & _ & Hm1 & _ & Hm2 & _ & Hm3 & _ & Hm4).
    split; [congruence|]. split; [repeat split; assumption|exact Hready1].
  - unfold pl_async_objc_parse_from_data_section.
    destruct (map_sections image c) as [e c0]. cbn [fst] in Hfailed.
    destruct (decide (e <> PLCRASH_ESUCCESS)); [|exfalso; apply Hfailed; apply dec_stable; assumption].
    split; [reflexivity|]. cbn [fst]. intros He. contradiction.
Qed.

(** A second enumeration, on the cache a successful first one has left, gives
    the methods of the first; and the first gives the same on every host. *)
Lemma enumerate_again (host1 host2 : host_t) (fuel : nat) (image : plcrash_async_macho_t)
    (c : plcrash_async_objc_cache_t) :
  arm64 host1 = arm64 host2 ->
  gotObjC2Info c = true
  \/ fst (plcrash_async_macho_map_section image kObjCSegmentName kObjCModuleInfoSectionName)
     = PLCRASH_ENOTFOUND ->
  cache_arena_ok c ->
  section_coherent image (objcConstMobj (snd (map_sections image c))) ->
  class_cache_sound image (objcConstMobj (snd (map_sections image c))) c ->
  exists err methods cache1,
    enumerate host1 fuel image (Some c) = Some (err, methods, cache1)
    /\ outcome (enumerate host2 fuel image (Some c)) = Some (err, methods)
    /\ (err = PLCRASH_ESUCCESS ->
        outcome (enumerate host1 fuel image cache1) = Some (err, methods)).
Proof.
  intros Harm Hobjc1 Hok Hcoh Hsound.
  destruct (pl_async_objc_parse_from_data_section_hosts host1 host2 image record_callback c []
              Harm Hok Hcoh Hsound) as [Hfst Hafter].
  unfold enumerate.
  rewrite !(plcrash_async_objc_parse_objc2_only _ fuel image c _ _ Hobjc1).
  unfold objc2_attempt.
  destruct (pl_async_objc_parse_from_data_section host1 image record_callback c [])
    as [[e1 methods1] c1] eqn:Hrun1.
  destruct (pl_async_objc_parse_from_data_section host2 image record_callback c [])
    as [[e2 methods2] c2].
  cbn [fst snd] in Hfst, Hafter. injection Hfst as <- <-.
  eexists _, _, _. split; [reflexivity|]. split; [reflexivity|].
  intros ->. destruct (Hafter eq_refl) as (Hlast1 & Hsame1 & Hready1).
  destruct (decide (PLCRASH_ESUCCESS = PLCRASH_ESUCCESS)) as [_|Hn]; [|contradiction].
  set (c0 := snd (map_sections image c)) in *.
  set (c1' := set_gotObjC2Info true c1).
  rewrite (plcrash_async_objc_parse_objc2_only host1 fuel image c1' _ _ (or_introl eq_refl)).
  unfold objc2_attempt.
  (* Both walks are walks of the image the caches name, on ready caches. *)
  assert (Hmapped : fst (map_sections image c) = PLCRASH_ESUCCESS).
  { revert Hrun1. unfold pl_async_objc_parse_from_data_section.
    destruct (map_sections image c) as [e c']. cbn [fst].
    destruct (decide (e <> PLCRASH_ESUCCESS)) as [He|He]; [|intros _; apply dec_stable; exact He].
    intros [= -> _ _]. contradiction. }
  destruct (pl_async_objc_parse_from_data_section_mapped host1 image record_callback c [] Hmapped)
    as [Hlast0 Hfrom].
  fold c0 in Hlast0, Hfrom. rewrite Hfrom in Hrun1.
  destruct (map_sections_frame image c) as (_ & Hsize & Hkeys & Hvalues).
  fold c0 in Hsize, Hkeys, Hvalues.
  destruct (class_cache_sound_lookup image (objcConstMobj c0) c c0 Hsize Hkeys Hvalues)
    as [Hok0 Hsound0].
  assert (Hready0 : class_walk_ready image (objcConstMobj c0) (objcDataMobj c0) c0)
    by (repeat split; auto).
  assert (Hlast1' : lastImage c1' = macho_address image) by exact Hlast1.
  assert (Hsame1' : same_mobjects c0 c1') by exact Hsame1.
  assert (Hready1' : class_walk_ready image (objcConstMobj c0) (objcDataMobj c0) c1')
    by exact Hready1.
  destruct (pl_async_objc_parse_from_data_section_ready host1 host1 image record_callback c0 c1' []
              eq_refl Hlast0 Hlast1' Hsame1' Hcoh Hready0 Hready1') as (Hfst & _ & _).
  rewrite Hrun1 in Hfst. cbn [fst] in Hfst.
  destruct (pl_async_objc_parse_from_data_section host1 image record_callback c1' [])
    as [[e2 methods2] c2'].
  cbn [fst] in Hfst. injection Hfst as <- <-. reflexivity.
Qed.

(** The search, when its second pass enumerates what its first pass has. *)
Lemma plcrash_async_objc_find_method_same_methods {Ctx : Type} (host : host_t) (fuel : nat)
    (image : plcrash_async_macho_t) (cache cache1 : option plcrash_async_objc_cache_t) (target : Z)
    (callback : plcrash_async_objc_found_method_cb Ctx) (ctx : Ctx) (err : plcrash_error_t)
    (methods : list found_method) :
  enumerate host fuel image cache = Some (err, methods, cache1) ->
  (err = PLCRASH_ESUCCESS -> outcome (enumerate host fuel image cache1) = Some (err, methods)) ->
  outcome (plcrash_async_objc_find_method host fuel image cache target callback ctx)
  = Some (if decide (err <> PLCRASH_ESUCCESS) then (err, ctx) else
          match walk_then_find target methods with
          | Some m => (PLCRASH_ESUCCESS, deliver callback ctx m)
          | None => (PLCRASH_ENOTFOUND, ctx)
          end).
Proof.
  intros Henum Hagain.
  rewrite plcrash_async_objc_find_method_enumerate, Henum.
  destruct (decide (err <> PLCRASH_ESUCCESS)) as [He|He]; [reflexivity|].
  apply dec_stable in He. specialize (Hagain He). subst err.
  cbv zeta. unfold walk_then_find.
  destruct (Z.eqb_spec (max_imp_le target (map fm_imp methods)) 0) as [Hzero|Hbest];
    [reflexivity|].
  destruct (enumerate host fuel image cache1) as [[[e2 methods2] cache2]|]; [|discriminate].
  cbn [outcome] in Hagain. injection Hagain as -> ->.
  destruct (max_imp_le_attained target (map fm_imp methods)) as [H0|[_ Hin]]; [contradiction|].
  destruct (first_with_imp_member _ _ Hin) as [m ->]. reflexivity.
Qed.

(** X12. The class cache does not change what is found. Take an image
    whose ObjC1 walk is not run (the latch is set) or finds no
    [__OBJC,__module_info], a cache whose arena is in one of its two states and
    whose answers are all validated for the image (as those of an empty cache
    are), and let the mapped [__objc_const] agree with the memory of the
    target on read-only class data. If the enumeration of the image succeeds
    with the methods [methods], then a second enumeration, on the cache the
    first has filled, succeeds with the same methods, and
    [plcrash_async_objc_find_method] is walk-then-find over [methods]: the
    callback is invoked once, on the first method at the greatest IMP not
    above the target, with status success, or not at all, with status
    not-found, when that IMP is 0. *)
Theorem class_cache_is_transparent {Ctx : Type} (host : host_t) (fuel : nat)
    (image : plcrash_async_macho_t) (c : plcrash_async_objc_cache_t) (target : Z)
    (callback : plcrash_async_objc_found_method_cb Ctx) (ctx : Ctx)
    (methods : list found_method) (cache1 : option plcrash_async_objc_cache_t) :
  gotObjC2Info c = true
  \/ fst (plcrash_async_macho_map_section image kObjCSegmentName kObjCModuleInfoSectionName)
     = PLCRASH_ENOTFOUND ->
  cache_arena_ok c ->
  section_coherent image (objcConstMobj (snd (map_sections image c))) ->
  class_cache_sound image (objcConstMobj (snd (map_sections image c))) c ->
  enumerate host fuel image (Some c) = Some (PLCRASH_ESUCCESS, methods, cache1) ->
  outcome (enumerate host fuel image cache1) = Some (PLCRASH_ESUCCESS, methods)
  /\ outcome (plcrash_async_objc_find_method host fuel image (Some c) target callback ctx)
     = Some (match walk_then_find target methods with
             | Some m => (PLCRASH_ESUCCESS, deliver callback ctx m)
             | None => (PLCRASH_ENOTFOUND, ctx)
             end).
Proof.
  intros Hobjc1 Hok Hcoh Hsound Henum.
  destruct (enumerate_again host host fuel image c eq_refl Hobjc1 Hok Hcoh Hsound)
    as (err & methods' & cache1' & Hfirst & _ & Hagain).
  rewrite Henum in Hfirst. injection Hfirst as <- <- <-.
  split; [exact (Hagain eq_refl)|].
  rewrite (plcrash_async_objc_find_method_same_methods host fuel image (Some c) cache1 target
             callback ctx PLCRASH_ESUCCESS methods Henum Hagain).
  destruct (decide (PLCRASH_ESUCCESS <> PLCRASH_ESUCCESS)); [contradiction|reflexivity].
Qed.

(** X15. The class cache is not needed for what is found: under the
    conditions of X12, the status and the callbacks of the enumeration and of
    [plcrash_async_objc_find_method] are the same on two hosts that differ in
    what the kernel answers to [vm_allocate], so the same whether the arena
    of the class cache can be allocated or not. *)
Theorem class_cache_is_not_needed {Ctx : Type} (host1 host2 : host_t) (fuel : nat)
    (image : plcrash_async_macho_t) (c : plcrash_async_objc_cache_t) (target : Z)
    (callback : plcrash_async_objc_found_method_cb Ctx) (ctx : Ctx) :
  arm64 host1 = arm64 host2 ->
  gotObjC2Info c = true
  \/ fst (plcrash_async_macho_map_section image kObjCSegmentName kObjCModuleInfoSectionName)
     = PLCRASH_ENOTFOUND ->
  cache_arena_ok c ->
  section_coherent image (objcConstMobj (snd (map_sections image c))) ->
  class_cache_sound image (objcConstMobj (snd (map_sections image c))) c ->
  outcome (enumerate host1 fuel image (Some c)) = outcome (enumerate host2 fuel image (Some c))
  /\ outcome (plcrash_async_objc_find_method host1 fuel image (Some c) target callback ctx)
     = outcome (plcrash_async_objc_find_method host2 fuel image (Some c) target callback ctx).
Proof.
  intros Harm Hobjc1 Hok Hcoh Hsound.
  destruct (enumerate_again host1 host2 fuel image c Harm Hobjc1 Hok Hcoh Hsound)
    as (err & methods & cache1 & Hfirst1 & Hother2 & Hagain1).
  destruct (enumerate_again host2 host1 fuel image c (eq_sym Harm) Hobjc1 Hok Hcoh Hsound)
    as (err2 & methods2 & cache2 & Hfirst2 & _ & Hagain2).
  rewrite Hfirst2 in Hother2. cbn [outcome] in Hother2. injection Hother2 as -> ->.
  split; [rewrite Hfirst1, Hfirst2; reflexivity|].
  rewrite (plcrash_async_objc_find_method_same_methods host1 fuel image (Some c) cache1 target
             callback ctx err methods Hfirst1 Hagain1).
  rewrite (plcrash_async_objc_find_method_same_methods host2 fuel image (Some c) cache2 target
             callback ctx err methods Hfirst2 Hagain2).
  reflexivity.
Qed.

(** The sections of the concrete targets hold the bytes of the memory they
    were mapped from. *)
Lemma target_section_reads_memory (mem : Target.memory) (base len off : Z) :
  0 <= off < len ->
  mobj_contents (Target.section mem base len) off = default 0 (Target.read_byte mem (base + off)).
Proof.
  intros Hoff. unfold Target.section. cbn [mobj_contents].
  set (f := fun k : nat => default 0 (Target.read_byte mem (base + Z.of_nat k))).
  rewrite (nth_indep _ 0 (f O)) by (rewrite length_map, length_seq; lia).
  rewrite map_nth, seq_nth by lia.
  unfold f. do 3 f_equal. lia.
Qed.

Lemma target_section_coherent (mem : Target.memory) (classes base len : Z) :
  section_coherent (Target.objc2_image_of mem mem classes) (Target.section mem base len).
Proof.
  intros address p q Hmap Hcopy o Ho.
  unfold plcrash_async_mobject_remap_address in Hmap.
  cbn [mobj_task_address mobj_length Target.section] in Hmap.
  destruct (Z.leb_spec base (address + 0)) as [Hlo|Hlo]; [|discriminate].
  destruct (Z.leb_spec (address + 0 + sizeof_pl_objc2_class_data_ro
                                        (m64 (Target.objc2_image_of mem mem classes)))
              (base + len)) as [Hhi|Hhi]; [|discriminate].
  cbn [andb] in Hmap. injection Hmap as <-.
  unfold offset_ptr.
  change (mobj_contents (Target.section mem base len) (address + 0 - base + o)
          = q o).
  rewrite target_section_reads_memory by lia.
  cbn [plcrash_async_task_memcpy Target.objc2_image_of] in Hcopy.
  unfold Target.memcpy in Hcopy.
  destruct (Target.readable mem address _); [|discriminate].
  injection Hcopy as <-. do 2 f_equal. lia.
Qed.

(** X12, an instance: the search of the ObjC2 image of [Bar] for 0xdeadbe50
    on a fresh cache hands [-hello] to the callback. *)
Lemma class_cache_is_transparent_witness :
  outcome (plcrash_async_objc_find_method Target.host 8 (Target.objc2_image [0x12050])
             (Some Target.fresh_cache) 0xdeadbe50 record_callback [])
  = Some (PLCRASH_ESUCCESS, [Target.bar_hello]).
Proof.
  assert (H1 : gotObjC2Info Target.fresh_cache = true
               \/ fst (plcrash_async_macho_map_section (Target.objc2_image [0x12050])
                         kObjCSegmentName kObjCModuleInfoSectionName) = PLCRASH_ENOTFOUND)
    by (right; reflexivity).
  assert (H2 : cache_arena_ok Target.fresh_cache) by reflexivity.
  assert (Hmobj : objcConstMobj (snd (map_sections (Target.objc2_image [0x12050]) Target.fresh_cache))
                  = Target.section (Target.objc2_memory [0x12050]) 0x10000 0x200)
    by reflexivity.
  assert (H3 : section_coherent (Target.objc2_image [0x12050])
                 (objcConstMobj (snd (map_sections (Target.objc2_image [0x12050])
                                        Target.fresh_cache))))
    by (rewrite Hmobj; apply target_section_coherent).
  assert (H4 : class_cache_sound (Target.objc2_image [0x12050])
                 (objcConstMobj (snd (map_sections (Target.objc2_image [0x12050])
                                        Target.fresh_cache)))
                 Target.fresh_cache)
    by (intros key Hne; exfalso; apply Hne; reflexivity).
  assert (H5 : enumerate Target.host 8 (Target.objc2_image [0x12050]) (Some Target.fresh_cache)
               = Some (PLCRASH_ESUCCESS, [Target.bar_hello], Some Target.latched_cache))
    by (vm_compute; reflexivity).
  rewrite (proj2 (class_cache_is_transparent Target.host 8 (Target.objc2_image [0x12050])
                    Target.fresh_cache 0xdeadbe50 record_callback [] [Target.bar_hello]
                    (Some Target.latched_cache) H1 H2 H3 H4 H5)).
  vm_compute. reflexivity.
Defined.

(** X15, an instance: the search of the ObjC2 image of [Bar] finds [-hello]
    on a host that refuses the arena as it does on one that grants it. *)
Lemma class_cache_is_not_needed_witness :
  outcome (plcrash_async_objc_find_method Target.host_without_arena 8
             (Target.objc2_image [0x12050]) (Some Target.fresh_cache) 0xdeadbe50 record_callback [])
  = Some (PLCRASH_ESUCCESS, [Target.bar_hello]).
Proof.
  assert (H0 : arm64 Target.host_without_arena = arm64 Target.host) by reflexivity.
  assert (H1 : gotObjC2Info Target.fresh_cache = true
               \/ fst (plcrash_async_macho_map_section (Target.objc2_image [0x12050])
                         kObjCSegmentName kObjCModuleInfoSectionName) = PLCRASH_ENOTFOUND)
    by (right; reflexivity).
  assert (H2 : cache_arena_ok Target.fresh_cache) by reflexivity.
  assert (Hmobj : objcConstMobj (snd (map_sections (Target.objc2_image [0x12050]) Target.fresh_cache))
                  = Target.section (Target.objc2_memory [0x12050]) 0x10000 0x200)
    by reflexivity.
  assert (H3 : section_coherent (Target.objc2_image [0x12050])
                 (objcConstMobj (snd (map_sections (Target.objc2_image [0x12050])
                                        Target.fresh_cache))))
    by (rewrite Hmobj; apply target_section_coherent).
  assert (H4 : class_cache_sound (Target.objc2_image [0x12050])
                 (objcConstMobj (snd (map_sections (Target.objc2_image [0x12050])
                                        Target.fresh_cache)))
                 Target.fresh_cache)
    by (intros key Hne; exfalso; apply Hne; reflexivity).
  rewrite (proj2 (class_cache_is_not_needed Target.host_without_arena Target.host 8
                    (Target.objc2_image [0x12050]) Target.fresh_cache 0xdeadbe50 record_callback []
                    H0 H1 H2 H3 H4)).
  vm_compute. reflexivity.
Defined.

(* ===================================================================== *)
(** * Modules without classes *)
(* ===================================================================== *)

Lemma pl_async_objc_parse_modules_skipped {Ctx : Type} (image : plcrash_async_macho_t)
    (callback : plcrash_async_objc_found_method_cb Ctx) (fuel : nat) (moduleData : bytes) (n : nat) :
  forall moduleIndex ctx,
    (forall j, (j < n)%nat ->
       swap32 (byteorder image)
         (pl_objc1_module_symtab
            (offset_ptr moduleData ((moduleIndex + Z.of_nat j) * sizeof_pl_objc1_module))) = 0) ->
    pl_async_objc_parse_modules image callback fuel moduleData n moduleIndex ctx
    = Some (PLCRASH_ESUCCESS, ctx).
Proof.
  induction n as [|n IH]; intros moduleIndex ctx Hskip; [reflexivity|].
  cbn [pl_async_objc_parse_modules]. cbv zeta.
  pose proof (Hskip O ltac:(lia)) as H0. change (Z.of_nat 0) with 0 in H0.
  rewrite Z.add_0_r in H0. rewrite H0. cbn [Z.eqb].
  apply IH. intros j Hj.
  replace (moduleIndex + 1 + Z.of_nat j) with (moduleIndex + Z.of_nat (S j)) by lia.
  apply Hskip. lia.
Qed.

(** X13. Modules without a symtab are skipped, and an ObjC1 section without
    classes hides the ObjC2 data of its image. When the latch is clear and
    every module record of [__OBJC,__module_info] has a null [symtab], the
    ObjC1 walk succeeds without a cross-task copy and without a callback, for
    every number of rounds; the unified parser then returns success without
    looking for ObjC2 data, leaving the cache as it was, and
    [plcrash_async_objc_find_method] returns not-found. *)
Theorem modules_without_symtab_are_skipped {Ctx : Type} (host : host_t) (fuel : nat)
    (image : plcrash_async_macho_t) (c : plcrash_async_objc_cache_t) (imp : Z)
    (callback : plcrash_async_objc_found_method_cb Ctx) (ctx : Ctx)
    (moduleMobj : plcrash_async_mobject_t) (moduleData : bytes) :
  gotObjC2Info c = false ->
  plcrash_async_macho_map_section image kObjCSegmentName kObjCModuleInfoSectionName
  = (PLCRASH_ESUCCESS, moduleMobj) ->
  plcrash_async_mobject_remap_address moduleMobj (mobj_task_address moduleMobj) 0
    sizeof_pl_objc1_module = Some moduleData ->
  (forall j, (j < Z.to_nat (mobj_length moduleMobj / sizeof_pl_objc1_module))%nat ->
     swap32 (byteorder image)
       (pl_objc1_module_symtab (offset_ptr moduleData (Z.of_nat j * sizeof_pl_objc1_module))) = 0) ->
  pl_async_objc_parse_from_module_info image callback fuel ctx = Some (PLCRASH_ESUCCESS, ctx)
  /\ plcrash_async_objc_parse host fuel image (Some c) callback ctx
     = Some (PLCRASH_ESUCCESS, ctx, Some c)
  /\ plcrash_async_objc_find_method host fuel image (Some c) imp callback ctx
     = Some (PLCRASH_ENOTFOUND, ctx, Some c).
Proof.
  intros Hg Hsection Hdata Hskip.
  assert (Hwalk : forall (C : Type) (cb : plcrash_async_objc_found_method_cb C) (s : C),
             pl_async_objc_parse_from_module_info image cb fuel s = Some (PLCRASH_ESUCCESS, s)).
  { intros C cb s. unfold pl_async_objc_parse_from_module_info. rewrite Hsection.
    destruct (decide (PLCRASH_ESUCCESS <> PLCRASH_ESUCCESS)); [contradiction|].
    rewrite Hdata. apply pl_async_objc_parse_modules_skipped. exact Hskip. }
  assert (Hparse : forall (C : Type) (cb : plcrash_async_objc_found_method_cb C) (s : C),
             plcrash_async_objc_parse host fuel image (Some c) cb s
             = Some (PLCRASH_ESUCCESS, s, Some c)).
  { intros C cb s. unfold plcrash_async_objc_parse. rewrite Hg. cbn [negb].
    rewrite Hwalk. cbn [mbind option_bind].
    destruct (decide (PLCRASH_ESUCCESS = PLCRASH_ENOTFOUND)); [discriminate|reflexivity]. }
  split; [apply Hwalk|]. split; [apply Hparse|].
  unfold plcrash_async_objc_find_method. rewrite Hparse. cbn [mbind option_bind].
  destruct (decide (PLCRASH_ESUCCESS <> PLCRASH_ESUCCESS)); [contradiction|].
  reflexivity.
Qed.

(** X13, an instance: an image that has the ObjC2 data of [Bar] and a
    [__module_info] section of one module without a symtab; the method
    [-hello] is not found, even without a single round. *)
Lemma modules_without_symtab_are_skipped_witness :
  plcrash_async_objc_find_method Target.host 0 Target.hybrid_image (Some Target.fresh_cache)
    0xdeadbe50 record_callback []
  = Some (PLCRASH_ENOTFOUND, [], Some Target.fresh_cache).
Proof.
  assert (Hg : gotObjC2Info Target.fresh_cache = false) by reflexivity.
  assert (Hsection : plcrash_async_macho_map_section Target.hybrid_image kObjCSegmentName
                       kObjCModuleInfoSectionName
                     = (PLCRASH_ESUCCESS, Target.section Target.hybrid_memory 0x1000 16))
    by reflexivity.
  assert (Hdata : plcrash_async_mobject_remap_address
                    (Target.section Target.hybrid_memory 0x1000 16)
                    (mobj_task_address (Target.section Target.hybrid_memory 0x1000 16)) 0
                    sizeof_pl_objc1_module
                  = Some (offset_ptr (mobj_contents (Target.section Target.hybrid_memory 0x1000 16))
                            0))
    by reflexivity.
  assert (Hskip : forall j,
             (j < Z.to_nat (mobj_length (Target.section Target.hybrid_memory 0x1000 16)
                            / sizeof_pl_objc1_module))%nat ->
             swap32 (byteorder Target.hybrid_image)
               (pl_objc1_module_symtab
                  (offset_ptr
                     (offset_ptr (mobj_contents (Target.section Target.hybrid_memory 0x1000 16)) 0)
                     (Z.of_nat j * sizeof_pl_objc1_module))) = 0).
  { intros j Hj. assert (j = O) as -> by (vm_compute in Hj; lia). vm_compute. reflexivity. }
  exact (proj2 (proj2 (modules_without_symtab_are_skipped Target.host 0 Target.hybrid_image
                         Target.fresh_cache 0xdeadbe50 record_callback [] _ _
                         Hg Hsection Hdata Hskip))).
Defined.

(* ===================================================================== *)
(** * Categories *)
(* ===================================================================== *)

Lemma pl_async_objc_parse_categories_silent {Ctx : Type} (image : plcrash_async_macho_t)
    (objcContext : plcrash_async_objc_cache_t) (catPtrs_32 catPtrs_64 : bytes) (n : nat) :
  forall i (ctx : Ctx),
    snd (pl_async_objc_parse_categories image objcContext catPtrs_32 catPtrs_64 n i ctx) = ctx
    /\ (fst (pl_async_objc_parse_categories image objcContext catPtrs_32 catPtrs_64 n i ctx)
        = PLCRASH_ESUCCESS
        \/ fst (pl_async_objc_parse_categories image objcContext catPtrs_32 catPtrs_64 n i ctx)
           = PLCRASH_EINVAL).
Proof.
  induction n as [|n IH]; intros i ctx; [cbn; auto|].
  cbn [pl_async_objc_parse_categories].
  destruct (plcrash_async_mobject_remap_address _ _ _ _) as [catPtr|]; [|cbn; auto].
  unfold pl_async_objc_parse_objc2_category.
  destruct (decide (PLCRASH_ESUCCESS <> PLCRASH_ESUCCESS)); [contradiction|].
  apply IH.
Qed.

(** X14. The methods of categories are not enumerated. The category loop of
    the ObjC2 walk never invokes the callback: it returns the callback context
    it was given, with status success, or [PLCRASH_EINVAL] when a record is not
    inside [__objc_data]. So the callbacks of the whole walk of the data
    section are those of its class loop. *)
Theorem categories_are_not_enumerated {Ctx : Type} (host : host_t) (image : plcrash_async_macho_t)
    (callback : plcrash_async_objc_found_method_cb Ctx) (c : plcrash_async_objc_cache_t) (ctx : Ctx) :
  (forall objcContext catPtrs_32 catPtrs_64 n i (s : Ctx),
      snd (pl_async_objc_parse_categories image objcContext catPtrs_32 catPtrs_64 n i s) = s
      /\ (fst (pl_async_objc_parse_categories image objcContext catPtrs_32 catPtrs_64 n i s)
          = PLCRASH_ESUCCESS
          \/ fst (pl_async_objc_parse_categories image objcContext catPtrs_32 catPtrs_64 n i s)
             = PLCRASH_EINVAL))
  /\ (let c0 := snd (map_sections image c) in
      forall classPtrs,
        fst (map_sections image c) = PLCRASH_ESUCCESS ->
        plcrash_async_mobject_remap_address (classMobj c0) (mobj_task_address (classMobj c0)) 0
          (mobj_length (classMobj c0)) = Some classPtrs ->
        snd (fst (pl_async_objc_parse_from_data_section host image callback c ctx))
        = snd (fst (pl_async_objc_parse_classes host image callback classPtrs classPtrs
                      (Z.to_nat (wrap32 (mobj_length (classMobj c0) / (if m64 image then 8 else 4))))
                      0 ctx c0))).
Proof.
  split.
  - intros objcContext catPtrs_32 catPtrs_64 n i s.
    apply pl_async_objc_parse_categories_silent.
  - cbv zeta. intros classPtrs Hmapped Hclass.
    unfold pl_async_objc_parse_from_data_section.
    destruct (map_sections image c) as [e c0]. cbn [fst snd] in *. subst e.
    destruct (decide (PLCRASH_ESUCCESS <> PLCRASH_ESUCCESS)); [contradiction|].
    rewrite Hclass. cbv zeta.
    destruct (pl_async_objc_parse_classes host image callback classPtrs classPtrs _ 0 ctx c0)
      as [[e s] c1].
    destruct (decide (e <> PLCRASH_ESUCCESS)); [reflexivity|].
    destruct (plcrash_async_mobject_remap_address (catMobj c1) _ _ _) as [catPtrs|];
      [|reflexivity].
    pose proof (pl_async_objc_parse_categories_silent image c1 classPtrs classPtrs
                  (Z.to_nat (wrap32 (mobj_length (catMobj c1) / (if m64 image then 8 else 4))))
                  0 s) as [Hs _].
    destruct (pl_async_objc_parse_categories image c1 classPtrs classPtrs _ 0 s) as [e' s'].
    cbn [fst snd] in *. exact Hs.
Qed.

(* ===================================================================== *)
(** * Tagged isa pointers *)
(* ===================================================================== *)

Lemma tagged_isa_mask : 0x1fffffff8 = Z.ldiff (Z.ones 33) (Z.ones 3).
Proof. reflexivity. Qed.

Lemma land_tagged_isa_mask (x : Z) :
  Z.land x 0x1fffffff8 = Z.ldiff (Z.land x (Z.ones 33)) (Z.ones 3).
Proof.
  rewrite tagged_isa_mask. apply Z.bits_inj'. intros n Hn.
  rewrite !Z.land_spec, !Z.ldiff_spec, !Z.land_spec.
  destruct (Z.testbit x n), (Z.testbit (Z.ones 33) n), (Z.testbit (Z.ones 3) n); reflexivity.
Qed.

(** X16. [TAGGED_ISA] is the identity where the mask is not compiled in. On
    arm64 it keeps the bits 3 to 32 of the pointer: the result is a multiple
    of 8 below 2^33 and not above the pointer, masking twice is masking once,
    and a pointer is left as it is exactly when it is a multiple of 8 below
    2^33 (an isa at or above 2^33 is changed by the mask). *)
Theorem tagged_isa_keeps_untagged_pointers :
  (forall x, TAGGED_ISA false x = x)
  /\ (forall x, 0 <= x ->
        0 <= TAGGED_ISA true x <= x
        /\ TAGGED_ISA true x < 2 ^ 33
        /\ TAGGED_ISA true x mod 8 = 0
        /\ TAGGED_ISA true (TAGGED_ISA true x) = TAGGED_ISA true x)
  /\ (forall x, 0 <= x -> (TAGGED_ISA true x = x <-> x < 2 ^ 33 /\ x mod 8 = 0)).
Proof.
  assert (Hform : forall x, 0 <= x ->
             TAGGED_ISA true x = 8 * ((x mod 2 ^ 33) / 8)).
  { intros x Hx. unfold TAGGED_ISA. rewrite land_tagged_isa_mask.
    rewrite Z.land_ones by lia. rewrite Z.ldiff_ones_r by lia.
    rewrite Z.shiftr_div_pow2, Z.shiftl_mul_pow2 by lia.
    change (2 ^ 3) with 8. lia. }
  split; [reflexivity|]. split.
  - intros x Hx. rewrite !Hform by lia.
    pose proof (Z.mod_pos_bound x (2 ^ 33) ltac:(lia)) as Hm.
    pose proof (Z.mod_le x (2 ^ 33) Hx ltac:(lia)) as Hle.
    pose proof (Z.mul_div_le (x mod 2 ^ 33) 8 ltac:(lia)) as Hd.
    assert (Hnn : 0 <= x mod 2 ^ 33 / 8) by (apply Z.div_pos; lia).
    split; [lia|]. split; [lia|]. split.
    + rewrite Z.mul_comm. apply Z.mod_mul. lia.
    + rewrite Hform by lia. f_equal.
      rewrite (Z.mod_small (8 * _)) by lia.
      rewrite Z.mul_comm, Z.div_mul by lia. reflexivity.
  - intros x Hx. rewrite Hform by lia.
    pose proof (Z.mod_pos_bound x (2 ^ 33) ltac:(lia)) as Hm.
    pose proof (Z.mul_div_le (x mod 2 ^ 33) 8 ltac:(lia)) as Hd.
    split.
    + intros Heq. assert (Hlt : x < 2 ^ 33) by lia. split; [exact Hlt|].
      rewrite <- Heq at 1. rewrite Z.mul_comm. apply Z.mod_mul. lia.
    + intros [Hlt Hal]. rewrite Z.mod_small by lia.
      symmetry. apply Z_div_exact_full_2; lia.
Qed.

(** X16, an instance: a tagged isa, and an isa above the mask. *)
Lemma tagged_isa_keeps_untagged_pointers_witness :
  TAGGED_ISA true 0x12078 = 0x12078 /\ TAGGED_ISA true 0x200012078 <> 0x200012078.
Proof.
  split.
  - apply (proj2 (proj2 tagged_isa_keeps_untagged_pointers) 0x12078); [lia|].
    split; [lia|reflexivity].
  - intros Heq.
    apply (proj2 (proj2 tagged_isa_keeps_untagged_pointers) 0x200012078) in Heq; lia.
Defined.

(* ===================================================================== *)
(** * The two passes of the search *)
(* ===================================================================== *)



